(** * Hevy workout assistant: the swap dialogue, the template cache and the
      paginated resource client

    A shallow embedding of
    - [backend/app/services/hevy_api.py]            (module [HevyAPI]),
    - [backend/app/services/ai_workout_optimizer.py] (module [Optimizer]),
    - [backend/app/services/intent_service.py]       (the choice regex in
      module [Text]; modules [Regex] and [IntentService]),
    - [backend/app/dependencies.py] and [backend/app/routers/chat.py]
      (module [Chat]),
    - [backend/app/routers/optimizer.py] and [backend/app/routers/analysis.py]
      (module [Routers]),
    followed by the properties of the dialogue pipeline, of the resource
    client and of the text helpers.

    Conventions.  Python objects that arrive as JSON are values of [pyval];
    a [dict] is an association list in insertion order.  Text is ASCII
    ([string]); the character classes of [re] and [str] and the case
    mappings are the ASCII part of Python's, and the statements that rest on
    them are about text for which [str.isascii] holds.  Remote parties (the fitness API, the completion endpoint, the
    classifier) are fields of a [World] record: every call receives the trace
    of the calls made so far, so an answer may differ from one call to the
    next.  Stateful code is written in a state-and-exception monad over the
    process state. *)

From Stdlib Require Import String Ascii List ZArith Bool Arith Lia.
Import ListNotations.
Open Scope string_scope.
Open Scope list_scope.
Open Scope nat_scope.

Set Implicit Arguments.

(* ================================================================== *)
(** ** Python values *)

Module Py.

#[warnings="-register-all"]
Inductive pyval : Type :=
| VNone
| VBool (b : bool)
| VInt (z : Z)
| VStr (s : string)
| VList (l : list pyval)
| VDict (d : list (string * pyval)).

Definition pydict := list (string * pyval).

(** [bool(v)]: the truth value Python's [if v], [not v] and [all] use. *)
Definition truthy (v : pyval) : bool :=
  match v with
  | VNone => false
  | VBool b => b
  | VInt z => negb (Z.eqb z 0)
  | VStr s => negb (String.eqb s "")
  | VList l => match l with [] => false | _ => true end
  | VDict d => match d with [] => false | _ => true end
  end.

Definition str_truthy (s : string) : bool := negb (String.eqb s "").

(** [d.get(k)] as an option; [dict_get_or] is [d.get(k, default)]. *)
Fixpoint dict_lookup (k : string) (d : pydict) : option pyval :=
  match d with
  | [] => None
  | (k', v) :: d' => if String.eqb k k' then Some v else dict_lookup k d'
  end.

Definition dict_get (k : string) (d : pydict) : pyval :=
  match dict_lookup k d with Some v => v | None => VNone end.

Definition dict_get_or (k : string) (default : pyval) (d : pydict) : pyval :=
  match dict_lookup k d with Some v => v | None => default end.

(** [d.pop(k, None)]: the dict without the key. *)
Definition dict_pop (k : string) (d : pydict) : pydict :=
  filter (fun kv => negb (String.eqb k (fst kv))) d.

(** [v == s] for a [str] [s]: true exactly when [v] is that string. *)
Definition py_eq_str (v : pyval) (s : string) : bool :=
  match v with VStr t => String.eqb t s | _ => false end.

(** A catalog field that the API documents as a string: [None] stands for
    [null] or a missing key. *)
Definition opt_truthy (o : option string) : bool :=
  match o with Some s => str_truthy s | None => false end.

(** [o == s] and [o == o'] on such fields. *)
Definition opt_eq_str (o : option string) (s : string) : bool :=
  match o with Some t => String.eqb t s | None => false end.

Definition opt_eq (o o' : option string) : bool :=
  match o, o' with
  | Some t, Some t' => String.eqb t t'
  | None, None => true
  | _, _ => false
  end.

(** [a == b] on JSON values: [bool] is an [int], containers compare item by
    item, a dict key by key whatever the order. *)
Fixpoint py_eq (a b : pyval) {struct a} : bool :=
  match a, b with
  | VNone, VNone => true
  | VBool x, VBool y => Bool.eqb x y
  | VBool x, VInt y => Z.eqb (if x then 1 else 0) y
  | VInt x, VBool y => Z.eqb x (if y then 1 else 0)
  | VInt x, VInt y => Z.eqb x y
  | VStr x, VStr y => String.eqb x y
  | VList l, VList m =>
      (fix items (l m : list pyval) {struct l} : bool :=
         match l, m with
         | [], [] => true
         | x :: l', y :: m' => py_eq x y && items l' m'
         | _, _ => false
         end) l m
  | VDict d, VDict e =>
      Nat.eqb (length d) (length e)
      && (fix keys (d : list (string * pyval)) {struct d} : bool :=
            match d with
            | [] => true
            | (k, v) :: d' =>
                match dict_lookup k e with
                | Some w => py_eq v w
                | None => false
                end && keys d'
            end) d
  | _, _ => false
  end.

End Py.
Import Py.

(* ================================================================== *)
(** ** Text: [str.lower], [str.strip], [in], and the choice regex *)

Module Text.

Definition code (c : ascii) : nat := nat_of_ascii c.

(** [str.isspace] / [\s] on ASCII: TAB..CR, FS..US and the space. *)
Definition is_space (c : ascii) : bool :=
  let n := code c in
  ((9 <=? n) && (n <=? 13)) || ((28 <=? n) && (n <=? 32)).

(** [\w] on ASCII: letters, digits and the underscore. *)
Definition is_word (c : ascii) : bool :=
  let n := code c in
  ((48 <=? n) && (n <=? 57)) || ((65 <=? n) && (n <=? 90))
  || ((97 <=? n) && (n <=? 122)) || (n =? 95).

(** The class [[\w\s\(\)-]]. *)
Definition is_name_char (c : ascii) : bool :=
  is_word c || is_space c || (code c =? 40) || (code c =? 41) || (code c =? 45).

Definition lower_char (c : ascii) : ascii :=
  let n := code c in
  if (65 <=? n) && (n <=? 90) then ascii_of_nat (n + 32) else c.

Fixpoint lower (s : string) : string :=
  match s with
  | EmptyString => EmptyString
  | String c s' => String (lower_char c) (lower s')
  end.

Fixpoint lstrip (s : string) : string :=
  match s with
  | EmptyString => EmptyString
  | String c s' => if is_space c then lstrip s' else s
  end.

Fixpoint rev_string (s acc : string) : string :=
  match s with
  | EmptyString => acc
  | String c s' => rev_string s' (String c acc)
  end.

Definition rstrip (s : string) : string :=
  rev_string (lstrip (rev_string s "")) "".

Definition strip (s : string) : string := rstrip (lstrip s).

(** [p in s]. *)
Fixpoint contains (p s : string) : bool :=
  String.prefix p s ||
  match s with
  | EmptyString => false
  | String _ s' => contains p s'
  end.

(** Longest prefix of [s] whose characters satisfy [f], and the rest. *)
Fixpoint span (f : ascii -> bool) (s : string) : string * string :=
  match s with
  | EmptyString => (EmptyString, EmptyString)
  | String c s' =>
      if f c then let (a, b) := span f s' in (String c a, b)
      else (EmptyString, s)
  end.

Fixpoint last_char (s : string) : option ascii :=
  match s with
  | EmptyString => None
  | String c EmptyString => Some c
  | String _ s' => last_char s'
  end.

(** A literal of the pattern under [re.IGNORECASE]: if [kw] (lower case)
    starts [s] up to case, what follows it. *)
Fixpoint skip_keyword (kw s : string) : option string :=
  match kw, s with
  | EmptyString, _ => Some s
  | String k kw', String c s' =>
      if Ascii.eqb k (lower_char c) then skip_keyword kw' s' else None
  | String _ _, EmptyString => None
  end.

(** [\s+([\w\s\(\)-]+)] matched at the head of [s], with the backtracking of
    the greedy [\s+]: it first takes every space; if no name character
    follows, it gives its last space back to the group (which then is that
    one space), provided it keeps at least one. *)
Definition match_tail (s : string) : option string :=
  let (ws, rest) := span is_space s in
  match ws with
  | EmptyString => None
  | String _ ws' =>
      let (g, _) := span is_name_char rest in
      match g with
      | String _ _ => Some g
      | EmptyString =>
          match ws' with
          | EmptyString => None
          | String _ _ =>
              match last_char ws with
              | Some c => Some (String c EmptyString)
              | None => None
              end
          end
      end
  end.

Definition choice_keywords : list string :=
  ["use"; "with"; "go with"; "choose"; "select"].

(** The alternation tried at one position, in the order of the pattern. *)
Fixpoint match_alternatives (kws : list string) (s : string) : option string :=
  match kws with
  | [] => None
  | kw :: kws' =>
      match skip_keyword kw s with
      | Some rest =>
          match match_tail rest with
          | Some g => Some g
          | None => match_alternatives kws' s
          end
      | None => match_alternatives kws' s
      end
  end.

(** [re.search(r"(?:use|with|go with|choose|select)\s+([\w\s\(\)-]+)", s,
    re.IGNORECASE)]: group 1 of the leftmost match. *)
Fixpoint search_choice (s : string) : option string :=
  match match_alternatives choice_keywords s with
  | Some g => Some g
  | None =>
      match s with
      | EmptyString => None
      | String _ s' => search_choice s'
      end
  end.

(** The double quote, by its code. *)
Definition dquote : ascii := ascii_of_nat 34.

(** The line feed. *)
Definition newline : ascii := ascii_of_nat 10.

(** Every character of [s] satisfies [f]. *)
Fixpoint all_chars (f : ascii -> bool) (s : string) : bool :=
  match s with
  | EmptyString => true
  | String c s' => f c && all_chars f s'
  end.

(** [s.lstrip(chars)], [s.rstrip(chars)] and [s.strip(chars)], for the set
    of characters [f]. *)
Fixpoint lstrip_chars (f : ascii -> bool) (s : string) : string :=
  match s with
  | EmptyString => EmptyString
  | String c s' => if f c then lstrip_chars f s' else s
  end.

Definition rstrip_chars (f : ascii -> bool) (s : string) : string :=
  rev_string (lstrip_chars f (rev_string s "")) "".

Definition strip_chars (f : ascii -> bool) (s : string) : string :=
  rstrip_chars f (lstrip_chars f s).

(** [s.find(p)]: the index of the first occurrence, [None] for -1. *)
Fixpoint find (p s : string) : option nat :=
  if String.prefix p s then Some 0
  else
    match s with
    | EmptyString => None
    | String _ s' => option_map S (find p s')
    end.

(** [s[n:]] and [s[:n]]. *)
Fixpoint drop (n : nat) (s : string) : string :=
  match n, s with
  | O, _ => s
  | S n', String _ s' => drop n' s'
  | S _, EmptyString => EmptyString
  end.

Fixpoint take (n : nat) (s : string) : string :=
  match n, s with
  | S n', String c s' => String c (take n' s')
  | _, _ => EmptyString
  end.

(** [s.split(sep)] for a one-character separator. *)
Fixpoint split_on (sep : ascii) (s : string) : list string :=
  match s with
  | EmptyString => [EmptyString]
  | String c s' =>
      if Ascii.eqb c sep then EmptyString :: split_on sep s'
      else
        match split_on sep s' with
        | line :: lines => String c line :: lines
        | [] => [String c EmptyString]
        end
  end.

(** If [p] starts [s], what follows it. *)
Fixpoint drop_prefix (p s : string) : option string :=
  match p, s with
  | EmptyString, _ => Some s
  | String a p', String c s' =>
      if Ascii.eqb a c then drop_prefix p' s' else None
  | String _ _, EmptyString => None
  end.

(** [re.search(rf'\b{key}\b', s)] for a [key] that begins and ends with a
    word character: [key] occurs with no word character right before it
    and none right after.  [prev_word] tells whether the character before
    [s] is a word character. *)
Fixpoint word_search_from (key : string) (prev_word : bool) (s : string) : bool :=
  (negb prev_word
   && match drop_prefix key s with
      | Some EmptyString => true
      | Some (String c _) => negb (is_word c)
      | None => false
      end)
  || match s with
     | EmptyString => false
     | String c s' => word_search_from key (is_word c) s'
     end.

Definition word_search (key s : string) : bool := word_search_from key false s.

(** The characters that end the name in the pattern of
    [_extract_exercise_name]: the full stop, the question mark, the
    exclamation mark, the double quote and the single quote. *)
Definition is_terminator (c : ascii) : bool :=
  let n := code c in
  (n =? 46) || (n =? 63) || (n =? 33) || (n =? 34) || (n =? 39).

(** The tail of that pattern, [\s+([\w\s\(\)-]+?)] followed by a terminator
    or [\Z], matched at the head of [s].  The
    lazy group can only end where the run of name characters ends, and
    only if a terminator or the end of the string is there.  The greedy
    [\s+] takes every leading space when a name character follows them;
    otherwise it gives its last space back to the group, provided it keeps
    one. *)
Definition match_name_tail (s : string) : option string :=
  let (ws, after) := span is_space s in
  match ws with
  | EmptyString => None
  | String _ ws' =>
      let (body, rest) := span is_name_char after in
      let ends :=
        match rest with
        | EmptyString => true
        | String c _ => is_terminator c
        end in
      if ends then
        match body with
        | String _ _ => Some body
        | EmptyString =>
            match ws' with
            | EmptyString => None
            | String _ _ =>
                match last_char ws with
                | Some c => Some (String c EmptyString)
                | None => None
                end
            end
        end
      else None
  end.

(** [re.search] of the pattern [(?i)\b{kw}] followed by that tail, for a
    lower-case [kw] that begins with a letter: group 1 of the leftmost
    match. *)
Fixpoint search_name (kw : string) (prev_word : bool) (s : string)
  : option string :=
  match
    (if prev_word then None
     else match skip_keyword kw s with
          | Some rest => match_name_tail rest
          | None => None
          end)
  with
  | Some g => Some g
  | None =>
      match s with
      | EmptyString => None
      | String c s' => search_name kw (is_word c) s'
      end
  end.

(** [s] reversed, and its first character. *)
Definition reverse (s : string) : string := rev_string s "".

Definition first_char (s : string) : option ascii :=
  match s with
  | EmptyString => None
  | String c _ => Some c
  end.

(** Letters, [str.upper] on a character, [str.isupper] and [str.title]. *)
Definition is_upper (c : ascii) : bool :=
  let n := code c in (65 <=? n) && (n <=? 90).

Definition is_lower (c : ascii) : bool :=
  let n := code c in (97 <=? n) && (n <=? 122).

Definition is_cased (c : ascii) : bool := is_upper c || is_lower c.

Definition upper_char (c : ascii) : ascii :=
  if is_lower c then ascii_of_nat (code c - 32) else c.

Fixpoint has_char (f : ascii -> bool) (s : string) : bool :=
  match s with
  | EmptyString => false
  | String c s' => f c || has_char f s'
  end.

(** [s.isupper()]: there is a cased character and none is lower case. *)
Definition isupper (s : string) : bool :=
  has_char is_cased s && negb (has_char is_lower s).

(** [s.title()]: a letter after a letter is lower-cased, any other letter
    upper-cased. *)
Fixpoint title_from (previous_is_cased : bool) (s : string) : string :=
  match s with
  | EmptyString => EmptyString
  | String c s' =>
      String (if previous_is_cased then lower_char c else upper_char c)
             (title_from (is_cased c) s')
  end.

Definition title (s : string) : string := title_from false s.

(** [s.isascii()]. *)
Definition is_ascii_char (c : ascii) : bool := code c <? 128.

Definition isascii (s : string) : bool := all_chars is_ascii_char s.

End Text.

(* ================================================================== *)
(** ** Data model, remote parties and the process monad *)

Module Model.

(** A cached exercise template: the three fields
    [get_all_exercise_templates] extracts from a catalog entry, typed as its
    docstring types them, [{'title': str, 'id': str, 'primary_muscle_group':
    str}]; [None] is Python's [None]. *)
Record ExerciseTemplate := mkTemplate {
  title : option string;
  id : option string;
  primary_muscle_group : option string
}.

(** A candidate shown to the user: [{'name', 'id', 'muscles'}], copied from
    a template. *)
Record Suggestion := mkSuggestion {
  name : option string;
  sugg_id : option string;
  muscles : option string
}.

(** The dict stored in [self.pending_swap_context]. *)
Record PendingSwapContext := mkPending {
  type_ : string;
  routine_id : pyval;
  routine_name : pyval;
  exercise_to_swap_title : string;
  suggestions : list Suggestion;
  current_exercises : pyval
}.

(** The [context] dict handed to a handler; [None] is an absent key. *)
Record HandlerContext := mkContext {
  exercise_name : option string;
  target_routine_details : option pydict;
  chosen_alternative_title : option string;
  ctx_routine_id : option pyval;
  ctx_routine_name : option pyval;
  ctx_exercise_to_swap_title : option string;
  other_keys : pydict
}.

Definition empty_context : HandlerContext :=
  mkContext None None None None None None [].

(** The prompts of [get_modification_response], one constructor per f-string,
    with the values interpolated into it. *)
Inductive prompt : Type :=
| PromptSwapNoName
| PromptSwapCacheEmpty (exercise : string)
| PromptSwapCandidates (exercise : string) (routine : pyval)
    (muscle : option string) (shown : list Suggestion)
| PromptSwapNoAlternatives (exercise : string) (muscle : option string)
    (routine : pyval)
| PromptSwapUnknownExercise (exercise : string) (routine : pyval)
| PromptNoPending
| PromptNoChoice (message : string)
| PromptLostDetails
| PromptImplCacheEmpty (chosen : string)
| PromptImplNotFound (chosen : string)
| PromptImplMissingId (chosen : string)
| PromptImplStale (exercise : string) (routine : pyval)
| PromptImplDone (routine : pyval) (exercise chosen : string)
| PromptImplError (routine : pyval) (exercise chosen : string)
| PromptUnimplemented (intent message : string) (context : HandlerContext).

(** A [str] of the conversation: given text, or a prompt built by a handler. *)
Inductive text : Type :=
| Raw (s : string)
| Built (p : prompt).

Inductive Role := system | user | assistant.

(** A ConversationTurn, [{"role": ..., "content": ...}]. *)
Record Turn := mkTurn { role : Role; content : text }.

(** Calls that leave the process. *)
Inductive event : Type :=
| EvGet (endpoint : string) (page page_size : Z)
| EvUpdateRoutine (rid : pyval) (routine : pydict)
| EvCompletion (messages : list Turn)
| EvClassify (message : string) (history : list Turn)
| EvContext (intent message : string).

Inductive exn : Type :=
| AttributeError
| TypeError
| ValueError
| RequestException
| OpenAIError
| FileNotFoundError.

(** How a call ends: a value, a raised exception, or no end within the
    fuel given to a [while True] loop. *)
Inductive outcome (A : Type) : Type :=
| Ok (a : A)
| Raise (e : exn)
| Diverged.
Arguments Ok {A} a.
Arguments Raise {A} e.
Arguments Diverged {A}.

(** The process state: the singleton optimizer's two attributes, the class
    attribute [AIWorkoutOptimizer._cached_templates], and the calls made. *)
Record Process := mkProcess {
  conversation_history : list Turn;
  pending_swap_context : option PendingSwapContext;
  _cached_templates : option (list ExerciseTemplate);
  trace : list event
}.

(** The remote parties.  [http_get] and [http_put_routine] answer with the
    JSON body, or [None] when the request raises; [completion] is the chat
    completion call; [classify_intent], [get_relevant_context],
    [get_info_response] and [get_analysis_response] stand for the methods of
    the same names, which are not part of the swap protocol;
    [with_weight_lbs] is the floating-point loop of [get_workouts]. *)
Record World := mkWorld {
  http_get : list event -> string -> Z -> Z -> option pydict;
  http_put_routine : list event -> pyval -> pydict -> option pyval;
  completion : list event -> list Turn -> option string;
  classify_intent : list event -> string -> list Turn -> string;
  get_relevant_context : list event -> string -> string -> HandlerContext;
  get_info_response :
    string -> string -> HandlerContext -> Process -> outcome string * Process;
  get_analysis_response :
    string -> string -> HandlerContext -> Process -> outcome string * Process;
  with_weight_lbs : pyval -> outcome pyval
}.

Definition M (A : Type) : Type := Process -> outcome A * Process.

Definition ret {A} (a : A) : M A := fun st => (Ok a, st).

Definition bind {A B} (m : M A) (k : A -> M B) : M B :=
  fun st =>
    match m st with
    | (Ok a, st') => k a st'
    | (Raise e, st') => (Raise e, st')
    | (Diverged, st') => (Diverged, st')
    end.

Definition raise {A} (e : exn) : M A := fun st => (Raise e, st).

Definition lift {A} (o : outcome A) : M A := fun st => (o, st).

(** [try: m  except Exception: h]. *)
Definition try_except {A} (m : M A) (h : exn -> M A) : M A :=
  fun st =>
    match m st with
    | (Raise e, st') => h e st'
    | r => r
    end.

(** [try: m  finally: fin]: [fin] runs when [m] returns, falls through or
    raises, and the way [m] ended is kept. *)
Definition try_finally {A} (m : M A) (fin : M unit) : M A :=
  fun st =>
    match m st with
    | (Ok a, st') =>
        match fin st' with
        | (Ok _, st'') => (Ok a, st'')
        | (Raise e, st'') => (Raise e, st'')
        | (Diverged, st'') => (Diverged, st'')
        end
    | (Raise e, st') =>
        match fin st' with
        | (Ok _, st'') => (Raise e, st'')
        | (Raise e', st'') => (Raise e', st'')
        | (Diverged, st'') => (Diverged, st'')
        end
    | (Diverged, st') => (Diverged, st')
    end.

Definition get_state : M Process := fun st => (Ok st, st).

Definition set_pending (p : option PendingSwapContext) : M unit :=
  fun st => (Ok tt, mkProcess (conversation_history st) p
                              (_cached_templates st) (trace st)).

Definition set_history (h : list Turn) : M unit :=
  fun st => (Ok tt, mkProcess h (pending_swap_context st)
                              (_cached_templates st) (trace st)).

Definition set_cache (c : option (list ExerciseTemplate)) : M unit :=
  fun st => (Ok tt, mkProcess (conversation_history st)
                              (pending_swap_context st) c (trace st)).

Definition emit (e : event) : M unit :=
  fun st => (Ok tt, mkProcess (conversation_history st)
                              (pending_swap_context st)
                              (_cached_templates st) (trace st ++ [e])).

Module Notations.
  Notation "x <- m ;; k" := (bind m (fun x => k))
    (at level 61, m at next level, right associativity).
  Notation "m ;;; k" := (bind m (fun _ => k))
    (at level 61, right associativity).
End Notations.

End Model.
Import Model.
Import Model.Notations.

(* ================================================================== *)
(** ** [hevy_api.py]: the paginated resource client *)

Module HevyAPI.

Open Scope Z_scope.

(** The dict every page accessor returns ([PaginatedResponse]). *)
Record PaginatedResponse := mkPage {
  data : pyval;
  total : pyval;
  page : pyval;
  limit : Z;
  has_more : bool
}.

(** [response.get(key)] on that dict: only its five keys exist. *)
Definition response_lookup (key : string) (r : PaginatedResponse) : option pyval :=
  if String.eqb key "data" then Some (data r)
  else if String.eqb key "total" then Some (total r)
  else if String.eqb key "page" then Some (page r)
  else if String.eqb key "limit" then Some (VInt (limit r))
  else if String.eqb key "has_more" then Some (VBool (has_more r))
  else None.

Definition response_get_or (key : string) (default : pyval)
    (r : PaginatedResponse) : pyval :=
  match response_lookup key r with Some v => v | None => default end.

(** The response of the [except] branches of the httpx accessors. *)
Definition empty_response (page_no page_size : Z) : PaginatedResponse :=
  mkPage (VList []) (VInt 0) (VInt page_no) page_size false.

(** A page number or page count used in arithmetic and comparison: an
    [int] (or [bool]), as the API documents them.  The model stops there:
    on any other value it raises, where Python still compares two strings
    and repeats a string; the statements on the accessors are about sources
    that serve integer pages. *)
Definition as_int (v : pyval) : outcome Z :=
  match v with
  | VInt z => Ok z
  | VBool b => Ok (if b then 1 else 0)
  | _ => Raise TypeError
  end.

(** [len(v)]. *)
Definition py_len (v : pyval) : outcome Z :=
  match v with
  | VList l => Ok (Z.of_nat (length l))
  | VDict d => Ok (Z.of_nat (length d))
  | VStr s => Ok (Z.of_nat (String.length s))
  | _ => Raise TypeError
  end.

Fixpoint chars (s : string) : list pyval :=
  match s with
  | EmptyString => []
  | String c s' => VStr (String c EmptyString) :: chars s'
  end.

(** The items a [for] loop or [list.extend] draws from [v]. *)
Definition py_iter (v : pyval) : outcome (list pyval) :=
  match v with
  | VList l => Ok l
  | VStr s => Ok (chars s)
  | VDict d => Ok (map (fun kv => VStr (fst kv)) d)
  | _ => Raise TypeError
  end.

(** [v[:n]]: a list or a string keeps its first [n] items, or drops its
    last [-n] when [n] is negative; other values cannot be sliced. *)
Definition slice_to (n : Z) (v : pyval) : outcome pyval :=
  match v with
  | VList l =>
      Ok (VList (if 0 <=? n then firstn (Z.to_nat n) l
                 else firstn (length l - Z.to_nat (- n)) l))
  | VStr s =>
      Ok (VStr (if 0 <=? n then String.substring 0 (Z.to_nat n) s
                else String.substring 0 (String.length s - Z.to_nat (- n)) s))
  | _ => Raise TypeError
  end.

Section Client.
Variable W : World.

Definition request_get (endpoint : string) (page_no page_size : Z)
  : M (option pydict) :=
  st <- get_state ;;
  emit (EvGet endpoint page_no page_size) ;;;
  ret (http_get W (trace st) endpoint page_no page_size).

(** [get_workouts]: a failed request is re-raised. *)
Definition get_workouts (limit_ page_no : Z) : M PaginatedResponse :=
  body <- request_get "/workouts" page_no limit_ ;;
  match body with
  | None => raise RequestException
  | Some body =>
      workouts <- lift (with_weight_lbs W (dict_get_or "workouts" (VList []) body)) ;;
      shown <- lift (slice_to limit_ workouts) ;;
      n <- lift (py_len workouts) ;;
      page_count <- lift (as_int (dict_get_or "page_count" (VInt 1) body)) ;;
      ret (mkPage shown
                  (dict_get_or "total" (VInt n) body)
                  (dict_get_or "page" (VInt page_no) body)
                  limit_
                  (page_no <? page_count))
  end.

(** One round of the [while True] loop of [get_all_workouts]; [fuel] bounds
    the number of rounds. *)
Fixpoint get_all_workouts_loop (fuel : nat) (all_workouts : list pyval)
    (page_no : Z) : M (list pyval) :=
  match fuel with
  | O => lift Diverged
  | S fuel' =>
      response <- get_workouts 100 page_no ;;
      let workouts := response_get_or "workouts" (VList []) response in
      if negb (truthy workouts) then ret all_workouts
      else
        items <- lift (py_iter workouts) ;;
        page_count <- lift (as_int (response_get_or "page_count" (VInt 1) response)) ;;
        if page_count <=? page_no then ret (all_workouts ++ items)
        else get_all_workouts_loop fuel' (all_workouts ++ items) (page_no + 1)
  end.

Definition get_all_workouts (fuel : nat) : M (list pyval) :=
  get_all_workouts_loop fuel [] 1.

(** The body shared by [get_routines] and [get_exercise_templates]: both
    clamp the page size to 10 and turn every exception into the empty
    response. *)
Definition get_page (endpoint key : string) (limit_ page_no : Z)
  : M PaginatedResponse :=
  let page_size := Z.min limit_ 10 in
  try_except
    (body <- request_get endpoint page_no page_size ;;
     match body with
     | None => raise RequestException
     | Some body =>
         let items := dict_get_or key (VList []) body in
         page_count <- lift (as_int (dict_get_or "page_count" (VInt 1) body)) ;;
         current_page <- lift (as_int (dict_get_or "page" (VInt page_no) body)) ;;
         ret (mkPage items (VInt (page_count * page_size)) (VInt current_page)
                     page_size (current_page <? page_count))
     end)
    (fun _ => ret (empty_response page_no page_size)).

Definition get_routines (limit_ page_no : Z) : M PaginatedResponse :=
  get_page "/routines" "routines" limit_ page_no.

Definition get_exercise_templates (limit_ page_no : Z) : M PaginatedResponse :=
  get_page "/exercise_templates" "exercise_templates" limit_ page_no.

Fixpoint get_all_routines_loop (fuel : nat) (all_routines : list pyval)
    (page_no : Z) : M (list pyval) :=
  match fuel with
  | O => lift Diverged
  | S fuel' =>
      response <- get_routines 10 page_no ;;
      items <- lift (py_iter (data response)) ;;
      if negb (has_more response) then ret (all_routines ++ items)
      else get_all_routines_loop fuel' (all_routines ++ items) (page_no + 1)
  end.

Definition get_all_routines (fuel : nat) : M (list pyval) :=
  get_all_routines_loop fuel [] 1.

(** A catalog field read into a template: the API serves [title], [id] and
    [primary_muscle_group] as strings; [null] or a missing key reads as
    [None].  The model stops there: a value of another JSON type, which
    Python would keep as it is, is outside the catalog's schema and reads
    as [None] too; the statements on the cache are about string fields. *)
Definition as_str (v : pyval) : option string :=
  match v with VStr s => Some s | _ => None end.

(** The extraction loop over one page: the entries appended before a
    malformed item stay in the list, and the exception ends the fetch. *)
Fixpoint extract_templates (items : list pyval)
  : list ExerciseTemplate * bool :=
  match items with
  | [] => ([], true)
  | VDict d :: rest =>
      let (ts, ok) := extract_templates rest in
      (mkTemplate (as_str (dict_get_or "title" (VStr "Unknown") d))
                  (as_str (dict_get "id" d))
                  (as_str (dict_get "primary_muscle_group" d)) :: ts, ok)
  | _ :: _ => ([], false)
  end.

Fixpoint get_all_exercise_templates_loop (fuel : nat)
    (extracted : list ExerciseTemplate) (page_no : Z)
  : M (list ExerciseTemplate) :=
  match fuel with
  | O => lift Diverged
  | S fuel' =>
      response <- get_exercise_templates 10 page_no ;;
      let page_data := data response in
      if negb (truthy page_data) then ret extracted
      else
        match py_iter page_data with
        | Ok items =>
            let (ts, ok) := extract_templates items in
            if negb ok then ret (extracted ++ ts)
            else if negb (has_more response) then ret (extracted ++ ts)
            else get_all_exercise_templates_loop fuel' (extracted ++ ts)
                                                 (page_no + 1)
        | _ => ret extracted
        end
  end.

Definition get_all_exercise_templates (fuel : nat) : M (list ExerciseTemplate) :=
  get_all_exercise_templates_loop fuel [] 1.

(** [update_routine]: a PUT of [{"routine": routine_data["routine"]}]. *)
Definition update_routine (rid : pyval) (routine : pydict) : M pyval :=
  st <- get_state ;;
  emit (EvUpdateRoutine rid routine) ;;;
  match http_put_routine W (trace st) rid routine with
  | Some r => ret r
  | None => raise RequestException
  end.

(** [get_routine_folders]: a failed request is re-raised; nothing else is
    caught. *)
Definition get_routine_folders (limit_ page_no : Z) : M PaginatedResponse :=
  body <- request_get "/routine_folders" page_no limit_ ;;
  match body with
  | None => raise RequestException
  | Some body =>
      let folders := dict_get_or "routine_folders" (VList []) body in
      let page_count := dict_get_or "page_count" (VInt 1) body in
      let current_page := dict_get_or "page" (VInt page_no) body in
      n <- lift (py_len folders) ;;
      current <- lift (as_int current_page) ;;
      count <- lift (as_int page_count) ;;
      ret (mkPage folders (VInt n) current_page limit_ (current <? count))
  end.

(** [for item in items: if item.get(key) == v: return item]: the first dict
    whose [key] equals [v]; an item before it that is not a dict has no
    [get]. *)
Fixpoint first_with (key : string) (v : pyval) (items : list pyval)
  : outcome (option pydict) :=
  match items with
  | [] => Ok None
  | VDict d :: rest =>
      if py_eq (dict_get key d) v then Ok (Some d) else first_with key v rest
  | _ :: _ => Raise AttributeError
  end.

(** [for item in items: if item.get(key) == v: found.append(item)]. *)
Fixpoint select_with (key : string) (v : pyval) (items : list pyval)
  : outcome (list pyval) :=
  match items with
  | [] => Ok []
  | VDict d :: rest =>
      match select_with key v rest with
      | Ok found => Ok (if py_eq (dict_get key d) v then VDict d :: found else found)
      | other => other
      end
  | _ :: _ => Raise AttributeError
  end.

(** [find_routine_by_title]: pages of ten, until a routine has the title, a
    page is empty, or a page has no successor. *)
Fixpoint find_routine_by_title_loop (fuel : nat) (title_ : pyval) (page_no : Z)
  : M (option pydict) :=
  match fuel with
  | O => lift Diverged
  | S fuel' =>
      routines_response <- get_routines 10 page_no ;;
      if negb (truthy (data routines_response)) then ret None
      else
        items <- lift (py_iter (data routines_response)) ;;
        found <- lift (first_with "title" title_ items) ;;
        match found with
        | Some routine => ret (Some routine)
        | None =>
            if negb (has_more routines_response) then ret None
            else find_routine_by_title_loop fuel' title_ (page_no + 1)
        end
  end.

Definition find_routine_by_title (fuel : nat) (title_ : pyval)
  : M (option pydict) :=
  find_routine_by_title_loop fuel title_ 1.

(** [find_routine_folder_by_id]: the search goes on while a page holds as
    many folders as the response's [limit]. *)
Fixpoint find_routine_folder_by_id_loop (fuel : nat) (folder_id : pyval)
    (page_no : Z) : M (option pydict) :=
  match fuel with
  | O => lift Diverged
  | S fuel' =>
      folders_response <- get_routine_folders 10 page_no ;;
      if negb (truthy (data folders_response)) then ret None
      else
        items <- lift (py_iter (data folders_response)) ;;
        found <- lift (first_with "id" folder_id items) ;;
        match found with
        | Some folder => ret (Some folder)
        | None =>
            current_page_count <-
              lift (py_len (response_get_or "data" (VList []) folders_response)) ;;
            limit_ <-
              lift (as_int (response_get_or "limit" (VInt 100) folders_response)) ;;
            if current_page_count <? limit_ then ret None
            else find_routine_folder_by_id_loop fuel' folder_id (page_no + 1)
        end
  end.

Definition find_routine_folder_by_id (fuel : nat) (folder_id : pyval)
  : M (option pydict) :=
  find_routine_folder_by_id_loop fuel folder_id 1.

(** [get_routines_in_folder], the second definition of that name in the
    class (the one in force): the routines of every page whose [folder_id]
    is the given one. *)
Fixpoint get_routines_in_folder_loop (fuel : nat) (folder_id : pyval)
    (routines_in_folder : list pyval) (page_no : Z) : M (list pyval) :=
  match fuel with
  | O => lift Diverged
  | S fuel' =>
      routines_response <- get_routines 10 page_no ;;
      if negb (truthy (data routines_response)) then ret routines_in_folder
      else
        items <- lift (py_iter (data routines_response)) ;;
        found <- lift (select_with "folder_id" folder_id items) ;;
        if negb (has_more routines_response)
        then ret (routines_in_folder ++ found)
        else get_routines_in_folder_loop fuel' folder_id
               (routines_in_folder ++ found) (page_no + 1)
  end.

Definition get_routines_in_folder (fuel : nat) (folder_id : pyval)
  : M (list pyval) :=
  get_routines_in_folder_loop fuel folder_id [] 1.

(** The dict [get_current_program_details] returns. *)
Record ProgramDetails := mkProgram {
  folder : pydict;
  routines : list pyval;
  current_routine : pydict
}.

(** [v[0]] of a non-empty list or string. *)
Definition first_item (v : pyval) : outcome pyval :=
  match v with
  | VList (x :: _) => Ok x
  | VStr (String c _) => Ok (VStr (String c EmptyString))
  | _ => Raise TypeError
  end.

(** [v.get(key)]: only a dict has [get]. *)
Definition py_get (key : string) (v : pyval) : outcome pyval :=
  match v with
  | VDict d => Ok (dict_get key d)
  | _ => Raise AttributeError
  end.

(** [get_current_program_details]: the routine titled as the most recent
    workout, its folder, and the routines of that folder; [None] when a step
    finds nothing, and on any exception. *)
Definition get_current_program_details (fuel : nat) : M (option ProgramDetails) :=
  try_except
    (workouts_response <- get_workouts 1 1 ;;
     if negb (truthy (data workouts_response)) then ret None
     else
       recent_workout <- lift (first_item (data workouts_response)) ;;
       workout_title <- lift (py_get "title" recent_workout) ;;
       if negb (truthy workout_title) then ret None
       else
         matching_routine <- find_routine_by_title fuel workout_title ;;
         match matching_routine with
         | None | Some [] => ret None
         | Some (kv :: d) =>
             let folder_id := dict_get "folder_id" (kv :: d) in
             if negb (truthy folder_id) then ret None
             else
               matching_folder <- find_routine_folder_by_id fuel folder_id ;;
               match matching_folder with
               | None | Some [] => ret None
               | Some (kv' :: d') =>
                   program_routines <- get_routines_in_folder fuel folder_id ;;
                   ret (Some (mkProgram (kv' :: d') program_routines (kv :: d)))
               end
         end)
    (fun _ => ret None).

End Client.
(** The attributes a [HevyAPI] instance answers to: the class attribute,
    what [__init__] assigns, and every [def] of the class body. *)
Definition attributes : list string :=
  [ "BASE_URL"; "api_key"; "headers"; "client";
    "__init__"; "get_workouts"; "get_all_workouts"; "get_routines";
    "get_all_routines"; "get_exercises"; "get_all_exercises"; "get_workout";
    "update_workout"; "_make_request"; "create_workout"; "get_routine";
    "create_routine"; "update_routine"; "get_exercise"; "search_exercises";
    "search_all_exercises"; "get_exercise_templates";
    "get_all_exercise_templates"; "get_exercise_template";
    "get_workout_count"; "get_workout_events"; "get_routine_folders";
    "create_routine_folder"; "update_routine_folder"; "delete_routine_folder";
    "get_routine_folder"; "get_routines_in_folder";
    "get_current_program_details"; "find_routine_by_title";
    "find_routine_folder_by_id" ].

(** [hevy_api.<attr>]. *)
Definition getattr (attr : string) : outcome unit :=
  if existsb (String.eqb attr) attributes then Ok tt else Raise AttributeError.


End HevyAPI.

(* ================================================================== *)
(** ** [ai_workout_optimizer.py]: class [AIWorkoutOptimizer] *)

Module Optimizer.

(** The attributes an [AIWorkoutOptimizer] instance answers to: what
    [__init__] assigns, the class attribute, and every [def] of the class
    body. *)
Definition attributes : list string :=
  [ "workout_optimizer"; "hevy_api"; "client"; "conversation_history";
    "pending_swap_context"; "_cached_templates";
    "__init__"; "load_templates_cache"; "get_chat_response";
    "clear_conversation_history"; "get_conversation_history";
    "get_ai_optimization_insights"; "_prepare_ai_context"; "_get_ai_insights";
    "_parse_ai_response"; "get_info_response"; "get_analysis_response";
    "get_modification_response"; "chat_about_workout_optimization";
    "analyze_program"; "_prepare_program_context"; "_get_rep_range";
    "_get_weight_range"; "_get_program_analysis"; "_parse_program_analysis";
    "_extract_user_goal" ].

(** [ai_optimizer.<attr>]: looking up a name the class does not define
    raises [AttributeError]. *)
Definition getattr (attr : string) : outcome unit :=
  if existsb (String.eqb attr) attributes then Ok tt else Raise AttributeError.

(** The system message [get_chat_response] puts first when no system prompt
    is passed, as in every call modelled here: the default prompt followed
    by the Markdown formatting instructions, a fixed text abbreviated here. *)
Definition default_system_prompt : Turn :=
  mkTurn system (Raw "You are a fitness expert AI assistant.").

(** The state of the swap protocol in which a proposal awaits its answer. *)
Definition PENDING_SWAP (st : Process) : Prop :=
  exists p, pending_swap_context st = Some p /\ type_ p = "EXERCISE_SWAP".

Section WithWorld.
Variable W : World.

(** [load_templates_cache]: fetch only when the cache is [None]; an error
    stores the empty list. *)
Definition load_templates_cache (fuel : nat) : M unit :=
  st <- get_state ;;
  match _cached_templates st with
  | None =>
      try_except
        (ts <- HevyAPI.get_all_exercise_templates W fuel ;;
         set_cache (Some ts))
        (fun _ => set_cache (Some []))
  | Some _ => ret tt
  end.

(** The template lookup at the head of [analyze_program]: a fallback load
    when the cache is still [None], then the cached list (or the empty
    list). *)
Definition analyze_program_templates (fuel : nat) : M (list ExerciseTemplate) :=
  st <- get_state ;;
  match _cached_templates st with
  | None =>
      load_templates_cache fuel ;;;
      st' <- get_state ;;
      ret (match _cached_templates st' with Some l => l | None => [] end)
  | Some l => ret l
  end.

(** [get_chat_response(message)]. *)
Definition get_chat_response (message : text) : M string :=
  st <- get_state ;;
  let messages :=
    default_system_prompt :: conversation_history st ++ [mkTurn user message] in
  emit (EvCompletion messages) ;;;
  match completion W (trace st) messages with
  | Some response_text =>
      set_history (conversation_history st
                   ++ [mkTurn user message; mkTurn assistant (Raw response_text)]) ;;;
      ret response_text
  | None => raise OpenAIError
  end.

Definition clear_conversation_history : M unit := set_history [].

Definition get_conversation_history : M (list Turn) :=
  st <- get_state ;; ret (conversation_history st).

(** The scan of the suggestions for a name mentioned in the message:
    [sugg_title and sugg_title.lower() in message_lower]. *)
Fixpoint match_suggestion (suggs : list Suggestion) (message_lower : string)
  : option string :=
  match suggs with
  | [] => None
  | sugg :: rest =>
      match name sugg with
      | Some sugg_title =>
          if str_truthy sugg_title
             && Text.contains (Text.lower sugg_title) message_lower
          then Some sugg_title
          else match_suggestion rest message_lower
      | None => match_suggestion rest message_lower
      end
  end.

(** The chosen alternative both call sites extract from a message: a
    suggestion it mentions, else group 1 of the choice regex, stripped. *)
Definition extract_choice (suggs : list Suggestion) (message : string)
  : option string :=
  match match_suggestion suggs (Text.lower message) with
  | Some s => Some s
  | None => option_map Text.strip (Text.search_choice message)
  end.

(** The first cached template whose title equals [t]. *)
Fixpoint find_template (t : string) (cache : list ExerciseTemplate)
  : option ExerciseTemplate :=
  match cache with
  | [] => None
  | template :: rest =>
      if opt_eq_str (title template) t then Some template
      else find_template t rest
  end.

(** Step 1 of the proposal: the muscle group of the exercise to swap. *)
Definition muscle_of (exercise : string) (cache : list ExerciseTemplate)
  : option string :=
  match find_template exercise cache with
  | Some template => primary_muscle_group template
  | None => None
  end.

(** Step 2: the other templates of the same primary muscle group, in cache
    order. *)
Definition same_muscle_alternative (exercise : string) (muscle : option string)
    (t : ExerciseTemplate) : bool :=
  opt_eq (primary_muscle_group t) muscle && negb (opt_eq_str (title t) exercise).

Definition potential_swaps (exercise : string) (muscle : option string)
    (cache : list ExerciseTemplate) : list Suggestion :=
  map (fun t => mkSuggestion (title t) (id t) (primary_muscle_group t))
      (filter (same_muscle_alternative exercise muscle) cache).

Definition max_suggestions : nat := 5.

Definition cache_is_empty (c : option (list ExerciseTemplate)) : bool :=
  match c with
  | None | Some [] => true
  | Some (_ :: _) => false
  end.

Definition cache_list (c : option (list ExerciseTemplate)) : list ExerciseTemplate :=
  match c with Some l => l | None => [] end.

(** The propose phase ([intent == "EXERCISE_SWAP"]).  A routine dict is
    truthy when it has a key; the pending context is stored after the
    completion call, when the routine, the name and the candidates are all
    truthy, and cleared otherwise. *)
Definition handle_exercise_swap (context : HandlerContext) : M string :=
  let target_routine := target_routine_details context in
  let routine :=
    match target_routine with
    | Some (kv :: d) => dict_get_or "title" (VStr "the routine") (kv :: d)
    | _ => VStr "the routine"
    end in
  match exercise_name context with
  | None => get_chat_response (Built PromptSwapNoName)
  | Some exercise_to_swap_name =>
    if negb (str_truthy exercise_to_swap_name)
    then get_chat_response (Built PromptSwapNoName)
    else
      st <- get_state ;;
      if cache_is_empty (_cached_templates st)
      then get_chat_response (Built (PromptSwapCacheEmpty exercise_to_swap_name))
      else
        let cached := cache_list (_cached_templates st) in
        let muscle := muscle_of exercise_to_swap_name cached in
        let swaps :=
          if opt_truthy muscle then potential_swaps exercise_to_swap_name muscle cached
          else [] in
        let suggestions_to_show := firstn max_suggestions swaps in
        let p :=
          match swaps with
          | _ :: _ =>
              PromptSwapCandidates exercise_to_swap_name routine muscle
                                   suggestions_to_show
          | [] =>
              if opt_truthy muscle
              then PromptSwapNoAlternatives exercise_to_swap_name muscle routine
              else PromptSwapUnknownExercise exercise_to_swap_name routine
          end in
        response <- get_chat_response (Built p) ;;
        match target_routine, swaps with
        | Some (kv :: d), _ :: _ =>
            set_pending
              (Some (mkPending "EXERCISE_SWAP"
                               (dict_get "id" (kv :: d))
                               routine
                               exercise_to_swap_name
                               suggestions_to_show
                               (dict_get_or "exercises" (VList []) (kv :: d)))) ;;;
            ret response
        | _, _ => set_pending None ;;; ret response
        end
  end.

(** The exercise put in place of the swapped one. *)
Definition empty_set : pyval :=
  VDict [("type", VStr "normal"); ("weight_kg", VNone); ("reps", VNone)].

Definition new_exercise (chosen template_id : string) : pyval :=
  VDict [("title", VStr chosen);
         ("notes", VNone);
         ("exercise_template_id", VStr template_id);
         ("superset_id", VNone);
         ("sets", VList [empty_set; empty_set; empty_set])].

(** Step 4 of the implementation: the loop over the snapshot.  It yields the
    updated list and [swap_performed]; an entry that is not a dict has no
    [get] and the loop raises.  (The [pop] also mutates the entry inside the
    stored snapshot; the pending context holding it is cleared before the
    handler returns, so the mutation is not observable and is not
    modelled.) *)
Fixpoint rebuild_exercises (to_swap chosen template_id : string)
    (exercises : list pyval) : outcome (list pyval * bool) :=
  match exercises with
  | [] => Ok ([], false)
  | VDict exercise :: rest =>
      match rebuild_exercises to_swap chosen template_id rest with
      | Ok (updated, swapped) =>
          if py_eq_str (dict_get "title" exercise) to_swap
          then Ok (new_exercise chosen template_id :: updated, true)
          else Ok (VDict (dict_pop "index" exercise) :: updated, swapped)
      | other => other
      end
  | _ :: _ => Raise AttributeError
  end.

(** How the [try] body of the implementation ends: by a [return], or by
    falling through with the confirmation prompt. *)
Inductive flow : Type :=
| Returned (response : string)
| FellThrough (p : prompt).

Definition implement_try_body (pending_context : PendingSwapContext)
    (chosen : string) : M flow :=
  let rid := routine_id pending_context in
  let to_swap := exercise_to_swap_title pending_context in
  let routine := routine_name pending_context in
  st <- get_state ;;
  if cache_is_empty (_cached_templates st)
  then r <- get_chat_response (Built (PromptImplCacheEmpty chosen)) ;;
       ret (Returned r)
  else
    match find_template chosen (cache_list (_cached_templates st)) with
    | None =>
        r <- get_chat_response (Built (PromptImplNotFound chosen)) ;;
        ret (Returned r)
    | Some chosen_template =>
        if negb (opt_truthy (id chosen_template))
        then set_pending None ;;;
             r <- get_chat_response (Built (PromptImplMissingId chosen)) ;;
             ret (Returned r)
        else
          let chosen_template_id :=
            match id chosen_template with Some i => i | None => "" end in
          match current_exercises pending_context with
          | VNone => raise ValueError
          | snapshot =>
              _ <- lift (HevyAPI.py_len snapshot) ;;
              items <- lift (HevyAPI.py_iter snapshot) ;;
              res <- lift (rebuild_exercises to_swap chosen chosen_template_id items) ;;
              let (updated_exercises, swap_performed) := res in
              if negb swap_performed
              then set_pending None ;;;
                   r <- get_chat_response (Built (PromptImplStale to_swap routine)) ;;
                   ret (Returned r)
              else
                _ <- HevyAPI.update_routine W rid
                       [("title", routine); ("exercises", VList updated_exercises)] ;;
                ret (FellThrough (PromptImplDone routine to_swap chosen))
          end
    end.

(** The [try] / [except] / [finally] of the implementation and the final
    response: an exception of the body is caught and replaced by the error
    prompt; the [finally] clause clears the pending context however the body
    ended, by a [return] too; a body that fell through then sends its
    prompt. *)
Definition implement_attempt (pending_context : PendingSwapContext)
    (chosen : string) : M string :=
  f <- try_finally
         (try_except
            (implement_try_body pending_context chosen)
            (fun _ =>
               set_pending None ;;;
               ret (FellThrough
                      (PromptImplError (routine_name pending_context)
                         (exercise_to_swap_title pending_context)
                         chosen))))
         (set_pending None) ;;
  match f with
  | Returned response => ret response
  | FellThrough p => get_chat_response (Built p)
  end.

(** The implement phase ([intent == "SUGGESTION_IMPLEMENT"]). *)
Definition handle_suggestion_implement (message : string) : M string :=
  st <- get_state ;;
  match pending_swap_context st with
  | None =>
      set_pending None ;;; get_chat_response (Built PromptNoPending)
  | Some pending_context =>
    if negb (String.eqb (type_ pending_context) "EXERCISE_SWAP")
    then set_pending None ;;; get_chat_response (Built PromptNoPending)
    else
      match extract_choice (suggestions pending_context) message with
      | None => get_chat_response (Built (PromptNoChoice message))
      | Some chosen =>
          if negb (truthy (routine_id pending_context)
                   && str_truthy (exercise_to_swap_title pending_context)
                   && str_truthy chosen)
          then set_pending None ;;; get_chat_response (Built PromptLostDetails)
          else implement_attempt pending_context chosen
      end
  end.

(** [get_modification_response(message, intent, context)]. *)
Definition get_modification_response (message intent : string)
    (context : HandlerContext) : M string :=
  if String.eqb intent "EXERCISE_SWAP" then handle_exercise_swap context
  else if String.eqb intent "SUGGESTION_IMPLEMENT"
       then handle_suggestion_implement message
       else get_chat_response (Built (PromptUnimplemented intent message context)).

(** [_extract_user_goal]: for the first keyword found in the lower-cased
    message, what follows it in the message itself, stripped of spaces,
    full stops, exclamation and question marks and quotes; kept when it has
    between 1 and 99 characters, else the next keyword is tried. *)
Definition goal_keywords : list string :=
  ["goal is to "; "want to "; "focus on "; "develop my "; "improve my ";
   "get better at "; "increase my "].

Definition is_goal_trim (c : ascii) : bool :=
  let n := Text.code c in
  (n =? 32) || (n =? 46) || (n =? 33) || (n =? 63) || (n =? 39) || (n =? 34).

Fixpoint extract_goal_after (keywords : list string)
    (message_lower message : string) : option string :=
  match keywords with
  | [] => None
  | keyword :: rest =>
      match Text.find keyword message_lower with
      | Some index =>
          let start_index := index + String.length keyword in
          let goal := Text.strip_chars is_goal_trim (Text.drop start_index message) in
          if (0 <? String.length goal) && (String.length goal <? 100)
          then Some goal
          else extract_goal_after rest message_lower message
      | None => extract_goal_after rest message_lower message
      end
  end.

Definition _extract_user_goal (message : string) : option string :=
  extract_goal_after goal_keywords (Text.lower message) message.

(** [_parse_ai_response] (both definitions of the class have this body):
    the first 200 characters and an ellipsis, and the non-blank lines,
    stripped. *)
Record Insights := mkInsights {
  summary : string;
  recommendations : list string;
  exercise_insights : pydict;
  raw_response : string
}.

Definition _parse_ai_response (response : string) : Insights :=
  mkInsights
    (Text.take 200 response ++ "...")
    (map Text.strip
         (filter (fun line => str_truthy (Text.strip line))
                 (Text.split_on Text.newline response)))
    []
    response.

(** [chat_about_workout_optimization(user_message)], called without a
    context as [routers/optimizer.py] does.  It returns the completion's
    answer, or the text made from the exception it caught. *)
Definition fallback_prompt (user_message : string) : string :=
  "Context Summary: No specific context provided for this general chat."
  ++ String Text.newline (String Text.newline
       ("User's message (seems general or fallback): " ++ user_message
        ++ String Text.newline (String Text.newline
             "Please provide a helpful, general response related to workout optimization or ask clarifying questions if the request is unclear."))).

Inductive chat_text : Type :=
| Answer (response : string)
| ErrorText (e : exn).

Definition chat_about_workout_optimization (user_message : string) : M chat_text :=
  try_except
    (response <- get_chat_response (Raw (fallback_prompt user_message)) ;;
     ret (Answer response))
    (fun e => ret (ErrorText e)).

End WithWorld.
End Optimizer.

(* ================================================================== *)
(** ** A backtracking matcher for the routine-name pattern *)

Module Regex.

(** The constructs the pattern uses.  [Rep f n] is the greedy repetition of
    a character class, at least [n] times; [Opt] is greedy; [Dollar] is [$]
    without [re.MULTILINE]. *)
Inductive regex : Type :=
| Lit (s : string)
| Rep (f : ascii -> bool) (min : nat)
| Alt (a b : regex)
| Seq (a b : regex)
| Opt (a : regex)
| Group (a : regex)
| WordBoundary
| Dollar.

Definition is_word_at (c : option ascii) : bool :=
  match c with Some c => Text.is_word c | None => false end.

Section Matcher.
Variable R : Type.

(** The greedy repetition: one more character first, and only when the
    rest of the pattern fails after it, the rest of the pattern here. *)
Fixpoint rep_greedy (f : ascii -> bool) (min : nat) (prev : option ascii)
    (s : string) (k : option ascii -> string -> option R) : option R :=
  match s with
  | String c s' =>
      if f c then
        match rep_greedy f (pred min) (Some c) s' k with
        | Some r => Some r
        | None => if min =? 0 then k prev s else None
        end
      else if min =? 0 then k prev s else None
  | EmptyString => if min =? 0 then k prev s else None
  end.

(** [run r prev s caps k]: match [r] at the head of [s], [prev] being the
    character before it, then go on with [k]; alternatives are tried in
    the order of the pattern, and the first way through wins.  [caps] are
    the groups closed so far. *)
Fixpoint run (r : regex) (prev : option ascii) (s : string)
    (caps : list string)
    (k : option ascii -> string -> list string -> option R) : option R :=
  match r with
  | Lit l =>
      match Text.drop_prefix l s with
      | Some rest =>
          k (match Text.last_char l with Some c => Some c | None => prev end)
            rest caps
      | None => None
      end
  | Rep f min => rep_greedy f min prev s (fun p rest => k p rest caps)
  | Alt a b =>
      match run a prev s caps k with
      | Some x => Some x
      | None => run b prev s caps k
      end
  | Seq a b => run a prev s caps (fun p rest c => run b p rest c k)
  | Opt a =>
      match run a prev s caps k with
      | Some x => Some x
      | None => k prev s caps
      end
  | Group a =>
      run a prev s caps
          (fun p rest c =>
             k p rest
               (c ++ [Text.take (String.length s - String.length rest) s]))
  | WordBoundary =>
      if xorb (is_word_at prev) (is_word_at (Text.first_char s))
      then k prev s caps else None
  | Dollar =>
      match s with
      | EmptyString => k prev s caps
      | String c EmptyString =>
          if Ascii.eqb c Text.newline then k prev s caps else None
      | _ => None
      end
  end.

End Matcher.

(** [re.search(r, s)]: the groups of the leftmost match. *)
Fixpoint search_from (r : regex) (prev : option ascii) (s : string)
  : option (list string) :=
  match run r prev s [] (fun _ _ caps => Some caps) with
  | Some caps => Some caps
  | None =>
      match s with
      | EmptyString => None
      | String c s' => search_from r (Some c) s'
      end
  end.

Definition search (r : regex) (s : string) : option (list string) :=
  search_from r None s.

End Regex.

(* ================================================================== *)
(** ** [intent_service.py]: cleaning the classifier's answer, and the
       exercise name of a swap request *)

Module IntentService.

(** The keys of [self.intents], in the order of the dict. *)
Definition intents : list string :=
  ["WORKOUT_INFO"; "EXERCISE_INFO"; "ROUTINE_INFO"; "PROGRAM_INFO";
   "GENERAL_INFO";
   "WORKOUT_ANALYSIS"; "PROGRAM_ANALYSIS"; "EXERCISE_ANALYSIS";
   "COMPARATIVE_ANALYSIS";
   "EXERCISE_SWAP"; "PROGRAM_CREATE"; "ROUTINE_UPDATE"; "SUGGESTION_IMPLEMENT";
   "UNKNOWN"; "GREETING"].

(** What [get_ai_response] returns, the API key being set, for the
    completion's content or for a failed call ([None]): the content
    stripped of white space, then of backquotes. *)
Definition get_ai_response (content : option string) : string :=
  match content with
  | Some response_content =>
      Text.strip_chars (fun c => Text.code c =? 96) (Text.strip response_content)
  | None => "ERROR_AI_CALL"
  end.

(** The first test of the cleaning loop: the key in double quotes or in
    single quotes occurs in the response, or the stripped response is the
    key. *)
Definition quoted_or_exact (valid_key intent_key_response : string) : bool :=
  Text.contains (String Text.dquote (valid_key ++ String Text.dquote ""))
                intent_key_response
  || Text.contains (String "'" (valid_key ++ "'")) intent_key_response
  || String.eqb valid_key (Text.strip intent_key_response).

(** The second test: the key occurs as a word. *)
Definition as_a_word (valid_key intent_key_response : string) : bool :=
  Text.word_search valid_key intent_key_response.

(** The loop over the keys: a quoted or exact key ends it; a key found as
    a word is kept and the loop goes on. *)
Fixpoint clean_loop (keys : list string) (intent_key_response : string)
    (cleaned_intent_key : string) : string :=
  match keys with
  | [] => cleaned_intent_key
  | valid_key :: rest =>
      if quoted_or_exact valid_key intent_key_response then valid_key
      else if as_a_word valid_key intent_key_response
           then clean_loop rest intent_key_response valid_key
           else clean_loop rest intent_key_response cleaned_intent_key
  end.

(** The tail of [classify_intent]: the intent returned for the text
    [get_ai_response] gave. *)
Definition clean_intent_key (intent_key_response : string) : string :=
  let cleaned_intent_key := clean_loop intents intent_key_response "UNKNOWN" in
  if negb (String.eqb cleaned_intent_key "UNKNOWN") then cleaned_intent_key
  else if String.eqb intent_key_response "ERROR_AI_CALL" then "UNKNOWN"
  else "UNKNOWN".

(** [_extract_exercise_name]. *)
Definition swap_keywords : list string :=
  ["swap"; "alternative for"; "alternatives for"; "replace"; "instead of"].

Fixpoint extract_after (keywords : list string) (message : string)
  : option string :=
  match keywords with
  | [] => None
  | keyword :: rest =>
      match Text.search_name keyword false message with
      | Some group1 =>
          let potential_name := Text.strip group1 in
          if (0 <? String.length potential_name)
             && (String.length potential_name <? 100)
          then Some potential_name
          else extract_after rest message
      | None => extract_after rest message
      end
  end.

Definition _extract_exercise_name (message : string) : option string :=
  extract_after swap_keywords message.

(** The pattern of [_extract_routine_name]:
    [(?:in|from)\s+(?:the|my)?\s+([\w\s\(\)-]+)\s*(?:\bfor\b|\bcan\b|,|\?|!|$)]. *)
Definition routine_stop : Regex.regex :=
  Regex.Alt (Regex.Seq Regex.WordBoundary
               (Regex.Seq (Regex.Lit "for") Regex.WordBoundary))
    (Regex.Alt (Regex.Seq Regex.WordBoundary
                  (Regex.Seq (Regex.Lit "can") Regex.WordBoundary))
       (Regex.Alt (Regex.Lit ",")
          (Regex.Alt (Regex.Lit "?")
             (Regex.Alt (Regex.Lit "!") Regex.Dollar)))).

Definition routine_pattern : Regex.regex :=
  Regex.Seq (Regex.Alt (Regex.Lit "in") (Regex.Lit "from"))
    (Regex.Seq (Regex.Rep Text.is_space 1)
       (Regex.Seq (Regex.Opt (Regex.Alt (Regex.Lit "the") (Regex.Lit "my")))
          (Regex.Seq (Regex.Rep Text.is_space 1)
             (Regex.Seq (Regex.Group (Regex.Rep Text.is_name_char 1))
                (Regex.Seq (Regex.Rep Text.is_space 0) routine_stop))))).

(** [_extract_routine_name]: the pattern is searched in the lower-cased
    message; group 1, stripped, is put in title case unless it is all upper
    case and at least two characters long. *)
Definition _extract_routine_name (message : string) : option string :=
  let message_lower := Text.lower message in
  match Regex.search routine_pattern message_lower with
  | Some (group1 :: _) =>
      let potential_name := Text.strip group1 in
      if negb (Text.isupper potential_name)
         || (String.length potential_name <? 2)
      then Some (Text.title potential_name)
      else Some potential_name
  | _ => None
  end.

Section WithWorld.
Variable W : World.

(** The branch of [get_relevant_context] for [EXERCISE_SWAP] and
    [ROUTINE_UPDATE].  The context is filled key by key; an exception ends
    the branch with the keys set so far (the failure of the folder request
    alone is passed over). *)
Definition modification_context (fuel : nat) (message : string)
  : M HandlerContext :=
  let exercise :=
    match _extract_exercise_name message with
    | Some extracted_exercise =>
        if str_truthy extracted_exercise then Some extracted_exercise else None
    | None => None
    end in
  try_except
    (target_routine <-
       match _extract_routine_name message with
       | Some extracted_routine_name =>
           if str_truthy extracted_routine_name
           then HevyAPI.find_routine_by_title W fuel (VStr extracted_routine_name)
           else ret None
       | None => ret None
       end ;;
     let target :=
       match target_routine with
       | Some (kv :: d) => Some (kv :: d)
       | _ => None
       end in
     try_except
       (all_routines <- HevyAPI.get_all_routines W fuel ;;
        try_except
          (folders_response <- HevyAPI.get_routine_folders W 10 1 ;;
           ret (mkContext exercise target None None None None
                  [("all_routines", VList all_routines);
                   ("routine_folders",
                    HevyAPI.response_get_or "data" (VList []) folders_response)]))
          (fun _ =>
             ret (mkContext exercise target None None None None
                    [("all_routines", VList all_routines)])))
       (fun _ => ret (mkContext exercise target None None None None [])))
    (fun _ => ret (mkContext exercise None None None None None [])).

(** A cached template as the dict [get_all_exercise_templates] returns. *)
Definition field (o : option string) : pyval :=
  match o with Some s => VStr s | None => VNone end.

Definition template_dict (t : ExerciseTemplate) : pyval :=
  VDict [("title", field (title t)); ("id", field (id t));
         ("primary_muscle_group", field (primary_muscle_group t))].

(** A context that holds only keys the handlers read through [other_keys]. *)
Definition keys (other : pydict) : HandlerContext :=
  mkContext None None None None None None other.

(** The recent workouts of the information and analysis branches. *)
Definition recent_workouts_context (limit_ : Z) : M HandlerContext :=
  try_except
    (workouts_response <- HevyAPI.get_workouts W limit_ 1 ;;
     if truthy (HevyAPI.data workouts_response)
     then ret (keys [("recent_workouts", HevyAPI.data workouts_response)])
     else ret empty_context)
    (fun _ => ret empty_context).

(** The current program of [PROGRAM_ANALYSIS] and [PROGRAM_INFO]. *)
Definition current_program_context (fuel : nat) : M HandlerContext :=
  try_except
    (current_program <- HevyAPI.get_current_program_details W fuel ;;
     match current_program with
     | Some details =>
         ret (keys [("current_program_folder", VDict (HevyAPI.folder details));
                    ("current_program_routines",
                     VList (HevyAPI.routines details))])
     | None => ret empty_context
     end)
    (fun _ => ret empty_context).

(** The whole catalog of [EXERCISE_INFO] and [PROGRAM_CREATE]. *)
Definition all_templates_context (fuel : nat) : M HandlerContext :=
  try_except
    (all_templates <- HevyAPI.get_all_exercise_templates W fuel ;;
     ret (keys [("all_exercise_templates",
                 VList (map template_dict all_templates))]))
    (fun _ => ret empty_context).

(** [get_relevant_context(intent, message)].  [SUGGESTION_IMPLEMENT] returns
    at once with the choice the regex finds; every other branch runs inside
    one [try] whose [except] returns the context as it stands. *)
Definition get_relevant_context (fuel : nat) (intent_ message : string)
  : M HandlerContext :=
  let message_lower := Text.lower message in
  if String.eqb intent_ "SUGGESTION_IMPLEMENT" then
    ret (mkContext None None
                   (option_map Text.strip (Text.search_choice message))
                   None None None [])
  else if String.eqb intent_ "WORKOUT_INFO" then
    if Text.contains "last workout" message_lower
       || Text.contains "most recent" message_lower
       || Text.contains "yesterday" message_lower
    then
      try_except
        (workouts_response <- HevyAPI.get_workouts W 1 1 ;;
         if truthy (HevyAPI.data workouts_response)
         then
           last_workout <-
             lift (HevyAPI.first_item (HevyAPI.data workouts_response)) ;;
           ret (keys [("last_workout", last_workout)])
         else ret empty_context)
        (fun _ => ret empty_context)
    else recent_workouts_context 5
  else if String.eqb intent_ "ROUTINE_INFO" then
    try_except
      (all_routines <- HevyAPI.get_all_routines W fuel ;;
       try_except
         (again <- HevyAPI.get_all_routines W fuel ;;
          ret (keys [("all_routines", VList again)]))
         (fun _ => ret (keys [("all_routines", VList all_routines)])))
      (fun _ => ret empty_context)
  else if String.eqb intent_ "EXERCISE_INFO" then all_templates_context fuel
  else if String.eqb intent_ "PROGRAM_ANALYSIS" then current_program_context fuel
  else if String.eqb intent_ "WORKOUT_ANALYSIS"
          || String.eqb intent_ "EXERCISE_ANALYSIS"
          || String.eqb intent_ "COMPARATIVE_ANALYSIS"
       then recent_workouts_context 30
  else if String.eqb intent_ "EXERCISE_SWAP" || String.eqb intent_ "ROUTINE_UPDATE"
       then modification_context fuel message
  else if String.eqb intent_ "PROGRAM_CREATE" then all_templates_context fuel
  else if String.eqb intent_ "PROGRAM_INFO" then
    if Text.contains "current" message_lower
       || Text.contains "active" message_lower
       || Text.contains "what is my program" message_lower
    then current_program_context fuel
    else
      try_except
        (folders_response <- HevyAPI.get_routine_folders W 10 1 ;;
         ret (keys [("routine_folders",
                     HevyAPI.response_get_or "data" (VList []) folders_response)]))
        (fun _ => ret empty_context)
  else ret empty_context.

End WithWorld.

End IntentService.
(* ================================================================== *)
(** ** [dependencies.py] and [routers/chat.py] *)

Module Chat.

(** [dependencies.py] builds one [AIWorkoutOptimizer] when the module loads
    and [get_ai_optimizer()] returns it to every request: the optimizer a
    client's request works on is the one in the process state, whoever the
    client is.  Its two attributes are what a conversation observes. *)
Record OptimizerView := mkView {
  view_history : list Turn;
  view_pending : option PendingSwapContext
}.

Definition get_ai_optimizer (client : string) (st : Process) : OptimizerView :=
  mkView (conversation_history st) (pending_swap_context st).

(** The response body of the chat endpoint. *)
Record ResponseData := mkResponse { response : string; intent : string }.

(** What an endpoint answers: its body, or an [HTTPException]. *)
Inductive reply (A : Type) : Type :=
| Served (body : A)
| HTTPException (status_code : Z).
Arguments Served {A} body.
Arguments HTTPException {A} status_code.

Definition greeting_reply : string :=
  "Hello! How can I help you with your workouts today?".
Definition unknown_reply : string :=
  "Sorry, I'm not sure how to help with that. Can you please rephrase or ask about your workouts?".
Definition fallback_reply : string :=
  "Sorry, I encountered an unexpected situation handling your request.".

Definition info_intents : list string :=
  ["WORKOUT_INFO"; "EXERCISE_INFO"; "ROUTINE_INFO"; "PROGRAM_INFO"; "GENERAL_INFO"].
Definition analysis_intents : list string :=
  ["WORKOUT_ANALYSIS"; "PROGRAM_ANALYSIS"; "EXERCISE_ANALYSIS";
   "COMPARATIVE_ANALYSIS"].
Definition modification_intents : list string :=
  ["EXERCISE_SWAP"; "PROGRAM_CREATE"; "ROUTINE_UPDATE"; "SUGGESTION_IMPLEMENT"].

Definition mem (s : string) (l : list string) : bool := existsb (String.eqb s) l.

Section WithWorld.
Variable W : World.

(** [intent_service.classify_intent(message, conversation_history=history)]. *)
Definition classify (message : string) (history : list Turn) : M string :=
  st <- get_state ;;
  emit (EvClassify message history) ;;;
  ret (classify_intent W (trace st) message history).

(** [intent_service.get_relevant_context(intent, message)]: for
    [SUGGESTION_IMPLEMENT] only the choice regex runs, and it returns at
    once; the other intents fetch from the API (exceptions swallowed). *)
Definition relevant_context (intent_ message : string) : M HandlerContext :=
  if String.eqb intent_ "SUGGESTION_IMPLEMENT"
  then ret (mkContext None None
                      (option_map Text.strip (Text.search_choice message))
                      None None None [])
  else
    st <- get_state ;;
    emit (EvContext intent_ message) ;;;
    ret (get_relevant_context W (trace st) intent_ message).

(** The context the router builds from the pending swap and the choice. *)
Definition pending_context_for (p : PendingSwapContext) (chosen : string)
  : HandlerContext :=
  mkContext None None (Some chosen)
            (Some (routine_id p)) (Some (routine_name p))
            (Some (exercise_to_swap_title p)) [].

(** The normal classification flow ([if intent is None:]). *)
Definition classification_flow (user_message : string)
  : M (string * HandlerContext) :=
  history <- Optimizer.get_conversation_history ;;
  intent_ <- classify user_message history ;;
  context <- relevant_context intent_ user_message ;;
  st <- get_state ;;
  match pending_swap_context st with
  | Some _ =>
      if negb (String.eqb intent_ "SUGGESTION_IMPLEMENT")
      then set_pending None ;;; ret (intent_, context)
      else ret (intent_, context)
  | None => ret (intent_, context)
  end.

(** The state management at the head of [workout_chat]: resume the pending
    swap or classify. *)
Definition resolve_intent (user_message : string) : M (string * HandlerContext) :=
  st <- get_state ;;
  match pending_swap_context st with
  | Some p =>
      if String.eqb (type_ p) "EXERCISE_SWAP" then
        match Optimizer.extract_choice (suggestions p) user_message with
        | Some chosen =>
            if str_truthy chosen
            then ret ("SUGGESTION_IMPLEMENT", pending_context_for p chosen)
            else set_pending None ;;; classification_flow user_message
        | None => set_pending None ;;; classification_flow user_message
        end
      else classification_flow user_message
  | None => classification_flow user_message
  end.

(** The routing on the intent: the handler's response and the intent put in
    the response body. *)
Definition route (user_message intent_ : string) (context : HandlerContext)
  : M ResponseData :=
  if String.eqb intent_ "SUGGESTION_IMPLEMENT" then
    r <- Optimizer.get_modification_response W user_message intent_ context ;;
    ret (mkResponse r intent_)
  else if String.eqb intent_ "GREETING" then ret (mkResponse greeting_reply intent_)
  else if String.eqb intent_ "UNKNOWN" then ret (mkResponse unknown_reply intent_)
  else if mem intent_ info_intents then
    r <- get_info_response W user_message intent_ context ;;
    ret (mkResponse r intent_)
  else if mem intent_ analysis_intents then
    r <- get_analysis_response W user_message intent_ context ;;
    ret (mkResponse r intent_)
  else if mem intent_ modification_intents then
    r <- Optimizer.get_modification_response W user_message intent_ context ;;
    ret (mkResponse r intent_)
  else ret (mkResponse fallback_reply "UNKNOWN").

(** The history update at the end of the turn. *)
Definition record_turn (user_message response_content : string) : M unit :=
  st <- get_state ;;
  let h1 :=
    if str_truthy user_message
    then conversation_history st ++ [mkTurn user (Raw user_message)]
    else conversation_history st in
  let h2 :=
    if str_truthy response_content
    then h1 ++ [mkTurn assistant (Raw response_content)]
    else h1 in
  set_history h2.

(** [POST /]: any exception becomes a 500. *)
Definition workout_chat (user_message : string) : M (reply ResponseData) :=
  try_except
    (ic <- resolve_intent user_message ;;
     response_data <- route user_message (fst ic) (snd ic) ;;
     record_turn user_message (response response_data) ;;;
     ret (Served response_data))
    (fun _ => ret (HTTPException 500%Z)).

(** A request as the server receives it: the optimizer injected into it is
    [get_ai_optimizer()]'s, for every client. *)
Definition handle_turn (client message : string) : M (reply ResponseData) :=
  workout_chat message.

(** [GET /history] and [DELETE /history]. *)
Definition get_chat_history : M (list Turn) := Optimizer.get_conversation_history.

Definition clear_chat_history : M string :=
  Optimizer.clear_conversation_history ;;; ret "success".

(** [ai_optimizer.<attr>(filepath)] for a name the class may not define: the
    attribute lookup comes first. *)
Definition call_attr (attr filepath : string) : M unit :=
  lift (Optimizer.getattr attr).

(** [POST /save]. *)
Definition save_chat_history (filepath : string) : M (reply string) :=
  try_except
    (call_attr "save_conversation_history" filepath ;;; ret (Served "success"))
    (fun _ => ret (HTTPException 500%Z)).

(** [POST /load]. *)
Definition load_chat_history (filepath : string) : M (reply string) :=
  try_except
    (call_attr "load_conversation_history" filepath ;;; ret (Served "success"))
    (fun e =>
       match e with
       | FileNotFoundError => ret (HTTPException 404%Z)
       | _ => ret (HTTPException 500%Z)
       end).

End WithWorld.
End Chat.

(* ================================================================== *)
(** ** [main.py], [routers/optimizer.py], [routers/analysis.py] and
       [routers/workouts.py] *)

Module Main.

Section WithWorld.
Variable W : World.

(** The startup phase of [lifespan]: the cache load, inside a [try] whose
    [except] logs the exception and goes on. *)
Definition lifespan_startup (fuel : nat) : M unit :=
  try_except (Optimizer.load_templates_cache W fuel) (fun _ => ret tt).

End WithWorld.
End Main.

Module Routers.

Section WithWorld.
Variable W : World.

(** [POST /api/optimizer/chat]. *)
Definition chat_about_workout_optimization (message : string)
  : M (Chat.reply Optimizer.chat_text) :=
  try_except
    (response <- Optimizer.chat_about_workout_optimization W message ;;
     ret (Chat.Served response))
    (fun _ => ret (Chat.HTTPException 500%Z)).

(** [ai_optimizer.get_workout_specific_response(prompt, data)], the call
    both [POST /api/analysis/optimize] and [GET /api/analysis/recommendations]
    return the value of: the attribute lookup comes first, and no method of
    that name is there to run after it. *)
Definition get_workout_specific_response (prompt_ : string) (data : pydict)
  : M pyval :=
  lift (Optimizer.getattr "get_workout_specific_response") ;;; ret VNone.

Definition optimize_workout (workout_data : pydict) : M pyval :=
  get_workout_specific_response
    "Please analyze this workout and suggest optimizations." workout_data.

Definition get_recommendations (focus_area equipment : pyval) : M pyval :=
  get_workout_specific_response
    "Please provide workout recommendations based on the specified preferences."
    [("focus_area", focus_area); ("equipment", equipment)].

(** [DELETE /api/workouts/routines/{routine_id}]:
    [await hevy_api.delete_routine(routine_id)], then the success body. *)
Definition delete_routine (routine_id : string) : M string :=
  lift (HevyAPI.getattr "delete_routine") ;;; ret "success".

End WithWorld.
End Routers.

(* ================================================================== *)
(** ** A concrete world: the end-to-end scenario of the specification *)

Module Scenario.

Open Scope Z_scope.

Definition bench_press : ExerciseTemplate :=
  mkTemplate (Some "Bench Press") (Some "tpl-bench") (Some "Chest").
Definition incline_press : ExerciseTemplate :=
  mkTemplate (Some "Incline Press") (Some "tpl-incline") (Some "Chest").
Definition squat : ExerciseTemplate :=
  mkTemplate (Some "Squat") (Some "tpl-squat") (Some "Quadriceps").

Definition cache : list ExerciseTemplate := [bench_press; incline_press; squat].

Definition a_set : pyval :=
  VDict [("type", VStr "normal"); ("weight_kg", VInt 60); ("reps", VInt 8)].

Definition bench_entry : pyval :=
  VDict [("index", VInt 0); ("title", VStr "Bench Press");
         ("exercise_template_id", VStr "tpl-bench"); ("sets", VList [a_set])].
Definition dips_entry : pyval :=
  VDict [("index", VInt 1); ("title", VStr "Dips");
         ("exercise_template_id", VStr "tpl-dips"); ("sets", VList [a_set; a_set])].

Definition push_day : pydict :=
  [("id", VStr "routine-1"); ("title", VStr "Push Day");
   ("exercises", VList [bench_entry; dips_entry])].

(** Catalog pages as the remote API serves them: two pages of templates,
    two pages of routines, one page of workouts. *)
Definition catalog_entry (t i m : string) : pyval :=
  VDict [("id", VStr i); ("title", VStr t); ("type", VStr "weight_reps");
         ("primary_muscle_group", VStr m)].

Definition serve (endpoint : string) (page_no : Z) : option pydict :=
  if String.eqb endpoint "/exercise_templates" then
    if page_no =? 1 then
      Some [("page", VInt 1); ("page_count", VInt 2);
            ("exercise_templates",
             VList [catalog_entry "Bench Press" "tpl-bench" "Chest";
                    catalog_entry "Incline Press" "tpl-incline" "Chest"])]
    else if page_no =? 2 then
      Some [("page", VInt 2); ("page_count", VInt 2);
            ("exercise_templates",
             VList [catalog_entry "Squat" "tpl-squat" "Quadriceps"])]
    else None
  else if String.eqb endpoint "/routines" then
    if page_no =? 1 then
      Some [("page", VInt 1); ("page_count", VInt 2);
            ("routines", VList [VDict push_day])]
    else if page_no =? 2 then
      Some [("page", VInt 2); ("page_count", VInt 2);
            ("routines", VList [VDict [("id", VStr "routine-2");
                                       ("title", VStr "Leg Day")]])]
    else None
  else if String.eqb endpoint "/workouts" then
    if page_no =? 1 then
      Some [("page", VInt 1); ("page_count", VInt 1);
            ("workouts", VList [VDict [("id", VStr "w-1");
                                       ("title", VStr "Push Day")]])]
    else None
  else None.

(** The swap request: the routine is named first, so that the exercise
    name, which runs to the end of the sentence, is the exercise alone. *)
Definition swap_request : string := "In my Push Day, swap Bench Press".

(** What [IntentService.get_relevant_context] resolves that request to, on
    the routines served above. *)
Definition resolved : HandlerContext :=
  mkContext (Some "Bench Press") (Some push_day) None None None None
            [("all_routines",
              VList [VDict push_day;
                     VDict [("id", VStr "routine-2");
                            ("title", VStr "Leg Day")]])].

(** The classifier files the swap request under [EXERCISE_SWAP] and the
    context resolver answers with [resolved]; the completion endpoint
    echoes a fixed reply. *)
Definition world : World :=
  mkWorld
    (fun _ endpoint page_no _ => serve endpoint page_no)
    (fun _ _ _ => Some VNone)
    (fun _ _ => Some "Done.")
    (fun _ message _ =>
       if String.eqb message swap_request then "EXERCISE_SWAP" else "UNKNOWN")
    (fun _ intent_ _ =>
       if String.eqb intent_ "EXERCISE_SWAP" then resolved else empty_context)
    (fun _ _ _ st => (Ok "Info.", st))
    (fun _ _ _ st => (Ok "Analysis.", st))
    (fun v => Ok v).

(** The same world with the completion endpoint failing. *)
Definition mute_world : World :=
  mkWorld
    (http_get world) (http_put_routine world)
    (fun _ _ => None)
    (classify_intent world) (get_relevant_context world)
    (get_info_response world) (get_analysis_response world)
    (with_weight_lbs world).

(** The same world with the remote API down. *)
Definition offline_world : World :=
  mkWorld
    (fun _ _ _ _ => None)
    (fun _ _ _ => None)
    (completion world) (classify_intent world) (get_relevant_context world)
    (get_info_response world) (get_analysis_response world)
    (with_weight_lbs world).

(** A process just started, before and after the startup cache load. *)
Definition fresh : Process := mkProcess [] None None [].
Definition started : Process := mkProcess [] None (Some cache) [].

(** A swap proposed for Bench Press in Push Day, awaiting the choice. *)
Definition proposal : PendingSwapContext :=
  mkPending "EXERCISE_SWAP" (VStr "routine-1") (VStr "Push Day") "Bench Press"
            [mkSuggestion (Some "Incline Press") (Some "tpl-incline") (Some "Chest")]
            (VList [bench_entry; dips_entry]).

Definition proposed : Process := mkProcess [] (Some proposal) (Some cache) [].

(** The same proposal in a process whose cache load failed, and in one whose
    cache lacks the suggested template. *)
Definition stalled : Process := mkProcess [] (Some proposal) (Some []) [].
Definition narrowed : Process :=
  mkProcess [] (Some proposal) (Some [bench_press; squat]) [].

(** The proposal after the routine lost its Bench Press. *)
Definition stale_proposal : PendingSwapContext :=
  mkPending "EXERCISE_SWAP" (VStr "routine-1") (VStr "Push Day") "Bench Press"
            (suggestions proposal) (VList [dips_entry]).

Definition outdated : Process :=
  mkProcess [] (Some stale_proposal) (Some cache) [].

Definition choice : string := "use Incline Press".

(** A process whose startup load failed, with nothing pending. *)
Definition unloaded : Process := mkProcess [] None (Some []) [].

(** Contexts of a swap request: one that names no routine, one that names
    no exercise. *)
Definition bench_anywhere : HandlerContext :=
  mkContext (Some "Bench Press") None None None None None [].
Definition nameless : HandlerContext :=
  mkContext None (Some push_day) None None None None [].
Definition bench_in_push_day : HandlerContext :=
  mkContext (Some "Bench Press") (Some push_day) None None None None [].

(** The same world with a catalog that fails after its first page. *)
Definition flaky_world : World :=
  mkWorld
    (fun _ endpoint page_no _ => if page_no =? 1 then serve endpoint page_no else None)
    (http_put_routine world) (completion world)
    (classify_intent world) (get_relevant_context world)
    (get_info_response world) (get_analysis_response world)
    (with_weight_lbs world).

(** The same world with a source that answers every request with page 1 of
    2, whatever page is asked for. *)
Definition stuck_world : World :=
  mkWorld
    (fun _ endpoint _ _ => serve endpoint 1)
    (http_put_routine world) (completion world)
    (classify_intent world) (get_relevant_context world)
    (get_info_response world) (get_analysis_response world)
    (with_weight_lbs world).

(** A user with one program: two routines in folder 7, one outside, and a
    most recent workout titled as the first. *)
Definition upper_a : pydict :=
  [("id", VStr "routine-a"); ("title", VStr "Upper A"); ("folder_id", VInt 7)].
Definition lower_a : pydict :=
  [("id", VStr "routine-b"); ("title", VStr "Lower A"); ("folder_id", VInt 7)].
Definition loose_routine : pydict :=
  [("id", VStr "routine-c"); ("title", VStr "Stretching"); ("folder_id", VNone)].
Definition program_folder : pydict :=
  [("id", VInt 7); ("title", VStr "Upper Lower")].

Definition serve_program (endpoint : string) (page_no : Z) : option pydict :=
  if String.eqb endpoint "/workouts" then
    Some [("page", VInt 1); ("page_count", VInt 3);
          ("workouts", VList [VDict [("id", VStr "w-9"); ("title", VStr "Upper A")]])]
  else if String.eqb endpoint "/routines" then
    if page_no =? 1 then
      Some [("page", VInt 1); ("page_count", VInt 2);
            ("routines", VList [VDict loose_routine; VDict upper_a])]
    else if page_no =? 2 then
      Some [("page", VInt 2); ("page_count", VInt 2);
            ("routines", VList [VDict lower_a])]
    else None
  else if String.eqb endpoint "/routine_folders" then
    if page_no =? 1 then
      Some [("page", VInt 1); ("page_count", VInt 1);
            ("routine_folders", VList [VDict program_folder])]
    else None
  else None.

Definition program_world : World :=
  mkWorld
    (fun _ endpoint page_no _ => serve_program endpoint page_no)
    (http_put_routine world) (completion world)
    (classify_intent world) (get_relevant_context world)
    (get_info_response world) (get_analysis_response world)
    (with_weight_lbs world).

End Scenario.

(* ================================================================== *)
(** ** Observations used in the statements *)

Module Obs.

(** The messages [get_chat_response] sends for a prompt. *)
Definition messages_for (st : Process) (message : text) : list Turn :=
  Optimizer.default_system_prompt :: conversation_history st ++ [mkTurn user message].

(** The routine writes among the calls made. *)
Definition is_write (e : event) : bool :=
  match e with EvUpdateRoutine _ _ => true | _ => false end.

Definition writes (tr : list event) : list event := filter is_write tr.

(** An exercise entry is titled [t]. *)
Definition titled (t : string) (exercise : pydict) : bool :=
  py_eq_str (dict_get "title" exercise) t.

(** The snapshot holds an exercise entry titled [t]. *)
Definition snapshot_has_title (t : string) (snapshot : pyval) : bool :=
  match snapshot with
  | VList items =>
      existsb (fun e => match e with VDict d => titled t d | _ => false end) items
  | _ => false
  end.

(** The exercise list the swap is specified to write: the entry titled
    [to_swap] replaced by the new exercise, every other entry kept without
    its ['index']. *)
Definition swapped (to_swap chosen template_id : string)
    (exercises : list pydict) : list pyval :=
  map (fun exercise =>
         if titled to_swap exercise
         then Optimizer.new_exercise chosen template_id
         else VDict (dict_pop "index" exercise))
      exercises.

(** The inputs the implementation validates before it looks at the cache. *)
Definition validated (p : PendingSwapContext) (chosen : string) : bool :=
  truthy (routine_id p) && str_truthy (exercise_to_swap_title p)
  && str_truthy chosen.

(** Prompts that explain a failure of the implementation. *)
Definition explains_failure (p : prompt) : bool :=
  match p with
  | PromptLostDetails | PromptImplCacheEmpty _ | PromptImplNotFound _
  | PromptImplMissingId _ | PromptImplStale _ _ | PromptImplError _ _ _ => true
  | _ => false
  end.

(** The message of the two failures the specification calls transient:
    the cache is empty, or it has no template titled [chosen]. *)
Definition transient_prompt (st : Process) (chosen : string) : prompt :=
  if Optimizer.cache_is_empty (_cached_templates st)
  then PromptImplCacheEmpty chosen
  else PromptImplNotFound chosen.

(** The prompt a proposal sends when the cache is empty or [None]. *)
Definition stalled_proposal_prompt (context : HandlerContext) : prompt :=
  match exercise_name context with
  | Some exercise =>
      if str_truthy exercise then PromptSwapCacheEmpty exercise
      else PromptSwapNoName
  | None => PromptSwapNoName
  end.

(** What the end of a turn appends to the history. *)
Definition recorded (user_message response_content : string) : list Turn :=
  (if str_truthy user_message then [mkTurn user (Raw user_message)] else [])
  ++ (if str_truthy response_content
      then [mkTurn assistant (Raw response_content)] else []).

(** A remote source that serves the routines as the pages [pages]: page
    [k] (counted from 1) carries its items, its number (or none) and the
    page count. *)
Definition serves_routines (W : World) (pages : list (list pyval)) : Prop :=
  forall tr k size,
    k < length pages ->
    exists body,
      http_get W tr "/routines" (Z.of_nat (S k)) size = Some body
      /\ dict_get_or "routines" (VList []) body = VList (nth k pages [])
      /\ dict_get_or "page_count" (VInt 1) body = VInt (Z.of_nat (length pages))
      /\ dict_get_or "page" (VInt (Z.of_nat (S k))) body = VInt (Z.of_nat (S k)).

(** What every stored proposal satisfies: it is an exercise swap for a named
    exercise, it lists between one and [max_suggestions] candidates, they
    share one named muscle group, and none is the exercise itself. *)
Definition well_formed_pending (p : PendingSwapContext) : Prop :=
  type_ p = "EXERCISE_SWAP"
  /\ exercise_to_swap_title p <> ""
  /\ suggestions p <> []
  /\ length (suggestions p) <= Optimizer.max_suggestions
  /\ (exists m, m <> "" /\ Forall (fun s => muscles s = Some m) (suggestions p))
  /\ Forall (fun s => name s <> Some (exercise_to_swap_title p)) (suggestions p).

(** The process after the implement handler has answered each of the
    messages in turn, whatever each call returned or raised. *)
Definition after_implements (W : World) (messages : list string)
    (st : Process) : Process :=
  fold_left
    (fun st message => snd (Optimizer.handle_suggestion_implement W message st))
    messages st.

(** The same process with another pending context. *)
Definition with_pending (q : option PendingSwapContext) (st : Process) : Process :=
  mkProcess (conversation_history st) q (_cached_templates st) (trace st).

(** The completion calls among the calls made. *)
Definition is_completion (e : event) : bool :=
  match e with EvCompletion _ => true | _ => false end.

(** A routine dict whose [folder_id] equals [fid]. *)
Definition in_folder (fid : pyval) (r : pyval) : Prop :=
  exists d, r = VDict d /\ py_eq (dict_get "folder_id" d) fid = true.

(** A remote source that serves the first pages of [endpoint] under [key]:
    page [k] (counted from 1) carries its items, its number and the page
    count [page_count], which may exceed the number of pages served. *)
Definition serves_pages (W : World) (endpoint key : string)
    (pages : list (list pyval)) (page_count : Z) : Prop :=
  forall tr k size,
    k < length pages ->
    exists body,
      http_get W tr endpoint (Z.of_nat (S k)) size = Some body
      /\ dict_get_or key (VList []) body = VList (nth k pages [])
      /\ dict_get_or "page_count" (VInt 1) body = VInt page_count
      /\ dict_get_or "page" (VInt (Z.of_nat (S k))) body = VInt (Z.of_nat (S k)).

(** The template read from a catalog entry. *)
Definition template_of (d : pydict) : ExerciseTemplate :=
  mkTemplate (HevyAPI.as_str (dict_get_or "title" (VStr "Unknown") d))
             (HevyAPI.as_str (dict_get "id" d))
             (HevyAPI.as_str (dict_get "primary_muscle_group" d)).

(** What follows an extracted exercise name in the message: nothing, or
    one of the characters that end the name. *)
Definition ends_name (post : string) : Prop :=
  match Text.first_char post with
  | Some c => Text.is_terminator c = true
  | None => True
  end.

(** Two process states with the same history, pending context and cache
    and the same routine writes: they differ at most by the other calls
    made. *)
Definition same_memory (st st' : Process) : Prop :=
  conversation_history st' = conversation_history st
  /\ pending_swap_context st' = pending_swap_context st
  /\ _cached_templates st' = _cached_templates st
  /\ writes (trace st') = writes (trace st).

(** A computation that only makes calls. *)
Definition quiet {A : Type} (m : M A) : Prop :=
  forall st, same_memory st (snd (m st)).

(** *** What a follow-up names, in the words of the specification

    The specification matches the message against the stored suggestions
    by a case-insensitive substring match of their names and, on failure,
    falls back to a pattern that extracts the phrase following one of the
    verbs use, with, go with, choose and select.  The definitions below say
    this of the message itself, without the scans of the code. *)

(** [name] occurs in [message], up to the case of its letters. *)
Definition occurs_ignoring_case (name message : string) : Prop :=
  exists before mid after,
    message = String.append before (String.append mid after)
    /\ Text.lower mid = Text.lower name.

(** The message mentions the suggestion, whose name is [s]: the name is not
    empty and occurs in the message. *)
Definition mentions (message : string) (sugg : Suggestion) (s : string) : Prop :=
  name sugg = Some s /\ s <> "" /\ occurs_ignoring_case s message.

(** [s] is the name of the first stored suggestion the message mentions. *)
Definition first_mentioned (suggs : list Suggestion) (message s : string)
  : Prop :=
  exists earlier sugg later,
    suggs = earlier ++ sugg :: later
    /\ mentions message sugg s
    /\ forall x t, In x earlier -> ~ mentions message x t.

(** The message mentions none of the suggestions. *)
Definition mentions_none (suggs : list Suggestion) (message : string) : Prop :=
  forall x t, In x suggs -> ~ mentions message x t.

Definition choice_verbs : list string :=
  ["use"; "with"; "go with"; "choose"; "select"].

(** [s] begins with a choice verb, in any case, white space and one more
    character a name may contain: the pattern matches at the head of [s]. *)
Definition verb_phrase_at (s : string) : Prop :=
  exists verb v w c rest,
    In verb choice_verbs /\ Text.lower v = verb
    /\ s = String.append v (String w (String c rest))
    /\ Text.is_space w = true /\ Text.is_name_char c = true.

(** The phrase read at the head of [s]: after the verb and all the white
    space behind it, the longest run of name characters, less the white
    space at its end. *)
Definition phrase_at (s phrase : string) : Prop :=
  exists verb v ws tail rest,
    In verb choice_verbs /\ Text.lower v = verb
    /\ s = String.append v
            (String.append ws
               (String.append phrase (String.append tail rest)))
    /\ ws <> "" /\ Text.all_chars Text.is_space ws = true
    /\ Text.all_chars Text.is_name_char phrase = true
    /\ (exists c, Text.first_char phrase = Some c /\ Text.is_space c = false)
    /\ (exists c, Text.last_char phrase = Some c /\ Text.is_space c = false)
    /\ Text.all_chars Text.is_space tail = true
    /\ match Text.first_char rest with
       | Some c => Text.is_name_char c = false
       | None => True
       end.

(** The phrase the fallback extracts from the message: the one read where
    the pattern first matches. *)
Definition phrase_after_verb (message phrase : string) : Prop :=
  exists before s,
    message = String.append before s
    /\ phrase_at s phrase
    /\ forall b t,
         message = String.append b t ->
         String.length b < String.length before ->
         ~ verb_phrase_at t.

(** The name the follow-up chooses: the first suggestion it mentions, else
    the phrase after a choice verb. *)
Definition chooses (suggs : list Suggestion) (message chosen : string) : Prop :=
  first_mentioned suggs message chosen
  \/ (mentions_none suggs message /\ phrase_after_verb message chosen).

(** A chosen name can be resolved from the message: it mentions a
    suggestion, or the pattern matches somewhere in it. *)
Definition names_a_choice (suggs : list Suggestion) (message : string) : Prop :=
  (exists sugg s, In sugg suggs /\ mentions message sugg s)
  \/ (exists before s,
        message = String.append before s /\ verb_phrase_at s).

(** The names of the suggestions are ASCII text. *)
Definition ascii_names (suggs : list Suggestion) : bool :=
  forallb (fun sugg =>
             match name sugg with
             | Some s => Text.isascii s
             | None => true
             end) suggs.

End Obs.
Import Obs.

(* ================================================================== *)
(** * Properties *)

(** ** The completion step *)

Section CompletionStep.
Variable W : World.

(** What one call of [get_chat_response] does to the process. *)
Lemma get_chat_response_run (message : text) (st : Process) :
  Optimizer.get_chat_response W message st =
  match completion W (trace st) (messages_for st message) with
  | Some r =>
      (Ok r,
       mkProcess (conversation_history st
                  ++ [mkTurn user message; mkTurn assistant (Raw r)])
                 (pending_swap_context st) (_cached_templates st)
                 (trace st ++ [EvCompletion (messages_for st message)]))
  | None =>
      (Raise OpenAIError,
       mkProcess (conversation_history st)
                 (pending_swap_context st) (_cached_templates st)
                 (trace st ++ [EvCompletion (messages_for st message)]))
  end.
Proof.
  unfold Optimizer.get_chat_response, messages_for, bind, get_state, emit,
    set_history, ret, raise; simpl.
  destruct (completion W (trace st) _); reflexivity.
Qed.

End CompletionStep.

Lemma writes_app (a b : list event) : writes (a ++ b) = writes a ++ writes b.
Proof. apply filter_app. Qed.

(** ** Export and import of the history *)

Lemma save_conversation_history_undefined :
  Optimizer.getattr "save_conversation_history" = Raise AttributeError.
Proof. reflexivity. Qed.

Lemma load_conversation_history_undefined :
  Optimizer.getattr "load_conversation_history" = Raise AttributeError.
Proof. reflexivity. Qed.

(** C7.  The class [AIWorkoutOptimizer] defines neither
    [save_conversation_history] nor [load_conversation_history]: whatever the
    history and the file location, [POST /save] and [POST /load] answer with
    an HTTP 500 and leave the process as it was.  Nothing is exported and
    nothing is restored. *)
Theorem history_export_import_always_fail (filepath : string) (st : Process) :
  Chat.save_chat_history filepath st = (Ok (Chat.HTTPException 500%Z), st)
  /\ Chat.load_chat_history filepath st = (Ok (Chat.HTTPException 500%Z), st).
Proof. split; reflexivity. Qed.

(** ** The fetch-all helpers *)

Section FetchAll.
Variable W : World.

Lemma response_has_no_workouts_key (r : HevyAPI.PaginatedResponse) :
  HevyAPI.response_get_or "workouts" (VList []) r = VList [].
Proof. reflexivity. Qed.

(** [get_all_workouts] never returns an item: when the first page is
    fetched it reads a key the page dict does not have and stops. *)
Lemma get_all_workouts_collects_nothing (fuel : nat) (st : Process) :
  forall items st',
    HevyAPI.get_all_workouts W fuel st = (Ok items, st') -> items = [].
Proof.
  intros items st'. unfold HevyAPI.get_all_workouts.
  destruct fuel as [|fuel]; cbn [HevyAPI.get_all_workouts_loop].
  - unfold lift. discriminate.
  - unfold bind at 1.
    destruct (HevyAPI.get_workouts W 100 1 st) as [[r | e |] st1];
      try discriminate.
    rewrite response_has_no_workouts_key. cbn. unfold ret.
    intros H; inversion H; reflexivity.
Qed.

End FetchAll.

(** C8.  On a source whose first page of workouts holds one workout (and
    says there is no further page), the page accessor returns that workout,
    but [get_all_workouts] returns the empty list; [get_all_routines] and
    [get_all_exercise_templates], on the same source, follow both of their
    pages. *)
Theorem get_all_workouts_drops_first_page :
  fst (HevyAPI.get_workouts Scenario.world 100 1 Scenario.fresh)
    = Ok (HevyAPI.mkPage
            (VList [VDict [("id", VStr "w-1"); ("title", VStr "Push Day")]])
            (VInt 1) (VInt 1) 100 false)
  /\ fst (HevyAPI.get_all_workouts Scenario.world 5 Scenario.fresh) = Ok []
  /\ fst (HevyAPI.get_all_routines Scenario.world 5 Scenario.fresh)
     = Ok [VDict Scenario.push_day;
           VDict [("id", VStr "routine-2"); ("title", VStr "Leg Day")]]
  /\ fst (HevyAPI.get_all_exercise_templates Scenario.world 5 Scenario.fresh)
     = Ok Scenario.cache.
Proof. repeat split; reflexivity. Qed.

(** ** The sibling helper: [get_all_routines] follows the pages *)

Lemma skipn_nth (A : Type) (d : A) (l : list A) (k : nat) :
  k < length l -> skipn k l = nth k l d :: skipn (S k) l.
Proof.
  revert k. induction l as [|x l IH]; intros k Hk; cbn in Hk; [lia|].
  destruct k as [|k]; [reflexivity|].
  cbn [skipn nth]. apply IH. lia.
Qed.

Section Pages.
Variable W : World.
Variable pages : list (list pyval).
Hypothesis Hserve : serves_routines W pages.

Lemma get_routines_page (k : nat) (st : Process) :
  k < length pages ->
  exists st1,
    HevyAPI.get_routines W 10 (Z.of_nat (S k)) st
    = (Ok (HevyAPI.mkPage (VList (nth k pages []))
             (VInt (Z.of_nat (length pages) * 10)) (VInt (Z.of_nat (S k))) 10
             (Z.of_nat (S k) <? Z.of_nat (length pages))%Z), st1).
Proof.
  intros Hk.
  destruct (Hserve (trace st) 10%Z Hk) as (body & Hget & Hitems & Hcount & Hpage).
  unfold HevyAPI.get_routines, HevyAPI.get_page, HevyAPI.request_get.
  unfold try_except, bind, get_state, emit, ret, lift.
  cbn [Z.min Z.compare Pos.compare Pos.compare_cont].
  change (Z.min 10 10) with 10%Z.
  rewrite Hget, Hitems, Hcount, Hpage.
  cbn [HevyAPI.as_int]. eexists. reflexivity.
Qed.

Lemma get_all_routines_loop_concat (fuel k : nat) (acc : list pyval)
    (st : Process) :
  k < length pages ->
  length pages - k <= fuel ->
  fst (HevyAPI.get_all_routines_loop W fuel acc (Z.of_nat (S k)) st)
  = Ok (acc ++ concat (skipn k pages)).
Proof.
  revert k acc st. induction fuel as [|fuel IH]; intros k acc st Hk Hfuel;
    [lia|].
  cbn [HevyAPI.get_all_routines_loop]. unfold bind at 1.
  destruct (get_routines_page st Hk) as (st1 & Hpage). rewrite Hpage.
  cbn [HevyAPI.data HevyAPI.has_more HevyAPI.py_iter].
  unfold bind at 1, lift at 1.
  rewrite (skipn_nth [] pages Hk). cbn [concat].
  destruct (Z.ltb_spec (Z.of_nat (S k)) (Z.of_nat (length pages))) as [Hlt|Hge];
    cbn [negb].
  - replace (Z.of_nat (S k) + 1)%Z with (Z.of_nat (S (S k))) by lia.
    rewrite IH by lia. rewrite app_assoc. reflexivity.
  - unfold ret. cbn [fst].
    rewrite (skipn_all2 pages) by lia. cbn [concat]. rewrite app_nil_r.
    reflexivity.
Qed.

(** On such a source, with fuel for every page, [get_all_routines] returns
    the concatenation of the pages' items. *)
Lemma get_all_routines_concat (fuel : nat) (st : Process) :
  pages <> [] ->
  length pages <= fuel ->
  fst (HevyAPI.get_all_routines W fuel st) = Ok (concat pages).
Proof.
  intros Hne Hfuel. unfold HevyAPI.get_all_routines.
  change 1%Z with (Z.of_nat 1).
  rewrite get_all_routines_loop_concat.
  - reflexivity.
  - destruct pages; [contradiction | cbn; lia].
  - lia.
Qed.

End Pages.

(** ** The implement phase *)

Lemma rebuild_terminates to_swap chosen tid items :
  Optimizer.rebuild_exercises to_swap chosen tid items <> Diverged.
Proof.
  induction items as [|e items IH]; cbn; try discriminate.
  destruct e; try discriminate.
  destruct (Optimizer.rebuild_exercises to_swap chosen tid items) as [[u b]| |];
    try discriminate; try (exfalso; apply IH; reflexivity).
  destruct (py_eq_str _ _); discriminate.
Qed.

(** The loop reports a swap only if it met an entry with the title. *)
Lemma rebuild_swapped to_swap chosen tid items updated :
  Optimizer.rebuild_exercises to_swap chosen tid items = Ok (updated, true) ->
  snapshot_has_title to_swap (VList items) = true.
Proof.
  revert updated. induction items as [|e items IH]; intros updated; cbn.
  - discriminate.
  - destruct e; try discriminate.
    destruct (Optimizer.rebuild_exercises to_swap chosen tid items)
      as [[u b]| |] eqn:E; try discriminate.
    unfold titled. destruct (py_eq_str (dict_get "title" d) to_swap); cbn.
    + reflexivity.
    + intros H. inversion H; subst. eapply IH. reflexivity.
Qed.

Lemma rebuild_of_text to_swap chosen tid s updated :
  Optimizer.rebuild_exercises to_swap chosen tid (HevyAPI.chars s)
  <> Ok (updated, true).
Proof. destruct s; cbn; discriminate. Qed.

Lemma rebuild_of_keys to_swap chosen tid (d : pydict) updated :
  Optimizer.rebuild_exercises to_swap chosen tid
    (map (fun kv => VStr (fst kv)) d) <> Ok (updated, true).
Proof. destruct d; cbn; discriminate. Qed.

(** On a snapshot made of exercise dicts the loop computes [swapped], and
    reports whether an entry had the title. *)
Lemma rebuild_of_dicts to_swap chosen tid (exercises : list pydict) :
  Optimizer.rebuild_exercises to_swap chosen tid (map VDict exercises)
  = Ok (swapped to_swap chosen tid exercises, existsb (titled to_swap) exercises).
Proof.
  induction exercises as [|e exercises IH]; cbn.
  - reflexivity.
  - rewrite IH. unfold swapped, titled.
    destruct (py_eq_str (dict_get "title" e) to_swap); reflexivity.
Qed.

(** [pop('index', None)] removes that key and nothing else. *)
Lemma dict_pop_lookup (k : string) (d : pydict) :
  dict_lookup k (dict_pop "index" d)
  = if String.eqb k "index" then None else dict_lookup k d.
Proof.
  unfold dict_pop.
  induction d as [|[k' v] d IH]; cbn [filter dict_lookup fst].
  - destruct (String.eqb k "index"); reflexivity.
  - destruct (String.eqb_spec "index" k') as [<-|Hk']; cbn [negb dict_lookup].
    + rewrite IH. destruct (String.eqb_spec k "index"); reflexivity.
    + destruct (String.eqb_spec k k') as [->|Hkk'].
      * destruct (String.eqb_spec k' "index"); [congruence | reflexivity].
      * exact IH.
Qed.

Ltac run_attempt :=
  unfold Optimizer.implement_attempt, Optimizer.implement_try_body,
    Optimizer.get_chat_response, HevyAPI.update_routine,
    bind, try_finally, try_except, get_state, set_pending, set_history,
    emit, ret, raise, lift; cbn.

Ltac split_cond :=
  match goal with
  | |- context [Optimizer.cache_is_empty ?c] =>
      destruct (Optimizer.cache_is_empty c) eqn:?
  | |- context [Optimizer.find_template ?a ?b] =>
      destruct (Optimizer.find_template a b) eqn:?
  | |- context [opt_truthy ?x] => destruct (opt_truthy x) eqn:?
  | |- context [match current_exercises ?p with _ => _ end] =>
      destruct (current_exercises p) eqn:?
  | |- context [Optimizer.rebuild_exercises ?a ?b ?c ?d] =>
      destruct (Optimizer.rebuild_exercises a b c d) as [[? []]| |] eqn:?
  | |- context [completion ?W ?t ?m] => destruct (completion W t m) eqn:?
  | |- context [http_put_routine ?W ?a ?b ?c] =>
      destruct (http_put_routine W a b c) eqn:?
  end; cbn.

Ltac impossible_scan :=
  match goal with
  | H : Optimizer.rebuild_exercises _ _ _ _ = Diverged |- _ =>
      exfalso; exact (rebuild_terminates _ _ _ _ H)
  | H : Optimizer.rebuild_exercises _ _ _ (HevyAPI.chars _) = Ok (_, true) |- _ =>
      exfalso; exact (rebuild_of_text _ _ _ _ H)
  | H : Optimizer.rebuild_exercises _ _ _ (map _ _) = Ok (_, true) |- _ =>
      exfalso; exact (rebuild_of_keys _ _ _ _ H)
  | H : Optimizer.rebuild_exercises _ _ _ _ = Ok (_, true),
    N : snapshot_has_title _ (VList _) = false |- _ =>
      exfalso; rewrite (rebuild_swapped _ _ _ _ H) in N; discriminate
  end.

Section Implement.
Variable W : World.

(** However the attempt ends, the [finally] clause has cleared the pending
    context. *)
Lemma implement_attempt_clears p chosen st :
  pending_swap_context (snd (Optimizer.implement_attempt W p chosen st)) = None.
Proof. run_attempt. repeat split_cond; try impossible_scan; reflexivity. Qed.

(** Without an entry of that title in the snapshot, the attempt writes
    nothing. *)
Lemma implement_attempt_no_write p chosen st :
  snapshot_has_title (exercise_to_swap_title p) (current_exercises p) = false ->
  writes (trace (snd (Optimizer.implement_attempt W p chosen st)))
  = writes (trace st).
Proof.
  intros Hs. run_attempt.
  repeat split_cond; try impossible_scan;
    repeat rewrite writes_app; cbn; repeat rewrite app_nil_r; reflexivity.
Qed.

(** What an attempt returns is the answer to a prompt that explains a
    failure, unless an entry of the snapshot had the title. *)
Lemma implement_attempt_explains p chosen st r :
  snapshot_has_title (exercise_to_swap_title p) (current_exercises p) = false ->
  fst (Optimizer.implement_attempt W p chosen st) = Ok r ->
  exists pr,
    explains_failure pr = true /\
    conversation_history (snd (Optimizer.implement_attempt W p chosen st))
    = conversation_history st ++ [mkTurn user (Built pr); mkTurn assistant (Raw r)].
Proof.
  intros Hs. run_attempt.
  repeat split_cond; try impossible_scan; intros H; inversion H; subst;
    eexists; (split; [|reflexivity]); reflexivity.
Qed.

(** An attempt ends: it returns when the completion endpoint answers. *)
Lemma implement_attempt_returns p chosen st :
  (forall tr ms, completion W tr ms <> None) ->
  exists r, fst (Optimizer.implement_attempt W p chosen st) = Ok r.
Proof.
  intros Hc. run_attempt.
  repeat split_cond; try impossible_scan;
    try (eexists; reflexivity);
    match goal with
    | H : completion W ?t ?m = None |- _ => exfalso; exact (Hc t m H)
    end.
Qed.

(** With a choice extracted and the inputs validated, the handler is the
    attempt. *)
Lemma implement_enters_attempt message st p chosen :
  pending_swap_context st = Some p ->
  type_ p = "EXERCISE_SWAP" ->
  Optimizer.extract_choice (suggestions p) message = Some chosen ->
  validated p chosen = true ->
  Optimizer.handle_suggestion_implement W message st
  = Optimizer.implement_attempt W p chosen st.
Proof.
  intros Hp Ht Hx Hv. unfold Optimizer.handle_suggestion_implement.
  unfold bind at 1, get_state at 1. rewrite Hp, Ht. cbn. rewrite Hx.
  unfold validated in Hv. rewrite Hv. reflexivity.
Qed.

(** With a choice extracted and an input missing, the handler clears the
    pending context and asks for the swap again. *)
Lemma implement_lost_details message st p chosen :
  pending_swap_context st = Some p ->
  type_ p = "EXERCISE_SWAP" ->
  Optimizer.extract_choice (suggestions p) message = Some chosen ->
  validated p chosen = false ->
  Optimizer.handle_suggestion_implement W message st
  = (set_pending None ;;; Optimizer.get_chat_response W (Built PromptLostDetails)) st.
Proof.
  intros Hp Ht Hx Hv. unfold Optimizer.handle_suggestion_implement.
  unfold bind at 1, get_state at 1. rewrite Hp, Ht. cbn. rewrite Hx.
  unfold validated in Hv. rewrite Hv. reflexivity.
Qed.

(** Without a pending swap, the handler says so and stays in [NO_PENDING]. *)
Lemma implement_without_pending message st :
  pending_swap_context st = None ->
  Optimizer.handle_suggestion_implement W message st
  = Optimizer.get_chat_response W (Built PromptNoPending) st.
Proof.
  intros Hp. unfold Optimizer.handle_suggestion_implement.
  unfold bind at 1, get_state at 1. rewrite Hp.
  unfold bind, set_pending. destruct st; cbn in *; subst; reflexivity.
Qed.

(** The one path that keeps the pending swap: no choice can be extracted
    from the message, and the handler asks again. *)
Lemma clarification_keeps_pending message st p :
  pending_swap_context st = Some p ->
  type_ p = "EXERCISE_SWAP" ->
  Optimizer.extract_choice (suggestions p) message = None ->
  Optimizer.handle_suggestion_implement W message st
  = Optimizer.get_chat_response W (Built (PromptNoChoice message)) st
  /\ pending_swap_context
       (snd (Optimizer.handle_suggestion_implement W message st)) = Some p.
Proof.
  intros Hp Ht Hx.
  assert (Hrun :
    Optimizer.handle_suggestion_implement W message st
    = Optimizer.get_chat_response W (Built (PromptNoChoice message)) st).
  { unfold Optimizer.handle_suggestion_implement.
    unfold bind at 1, get_state at 1. rewrite Hp, Ht. cbn. rewrite Hx.
    reflexivity. }
  split; [exact Hrun|]. rewrite Hrun, get_chat_response_run.
  destruct (completion W _ _); exact Hp.
Qed.

End Implement.

Lemma str_truthy_true (s : string) : s <> "" -> str_truthy s = true.
Proof.
  intros H. unfold str_truthy. destruct (String.eqb_spec s ""); [contradiction | reflexivity].
Qed.

Section ImplementClaims.
Variable W : World.

(** C1 (as the code has it).  In the implement phase, when the Template
    Cache is empty or has no template titled as the chosen alternative, the
    handler sends the explanatory prompt to the completion step, writes
    nothing, and -- like every other outcome reached inside the [try] block --
    ends with the pending context cleared, because the [finally] clause runs
    on [return] too.  When the completion step answers, that answer is
    returned and recorded.  A second identical call finds no pending context
    and is answered by the no-pending-swap message. *)
Theorem transient_failures_clear_pending :
  forall message st p chosen,
    pending_swap_context st = Some p ->
    type_ p = "EXERCISE_SWAP" ->
    Optimizer.extract_choice (suggestions p) message = Some chosen ->
    validated p chosen = true ->
    Optimizer.cache_is_empty (_cached_templates st) = true
    \/ Optimizer.find_template chosen
         (Optimizer.cache_list (_cached_templates st)) = None ->
    exists o st',
      Optimizer.handle_suggestion_implement W message st = (o, st')
      /\ pending_swap_context st' = None
      /\ writes (trace st') = writes (trace st)
      /\ (exists rest,
            trace st' =
            trace st
            ++ EvCompletion (messages_for st (Built (transient_prompt st chosen)))
               :: rest)
      /\ (forall r,
            completion W (trace st)
              (messages_for st (Built (transient_prompt st chosen))) = Some r ->
            o = Ok r
            /\ conversation_history st' =
               conversation_history st
               ++ [mkTurn user (Built (transient_prompt st chosen));
                   mkTurn assistant (Raw r)])
      /\ (exists o2 st2,
            Optimizer.handle_suggestion_implement W message st' = (o2, st2)
            /\ pending_swap_context st2 = None
            /\ trace st2 =
               trace st' ++ [EvCompletion (messages_for st' (Built PromptNoPending))]).
Proof.
  intros message st p chosen Hp Ht Hx Hv Hcase.
  rewrite (implement_enters_attempt W message st Hp Ht Hx Hv).
  assert (Hbody :
    exists o st',
      Optimizer.implement_attempt W p chosen st = (o, st')
      /\ pending_swap_context st' = None
      /\ writes (trace st') = writes (trace st)
      /\ (exists rest,
            trace st' =
            trace st
            ++ EvCompletion (messages_for st (Built (transient_prompt st chosen)))
               :: rest)
      /\ (forall r,
            completion W (trace st)
              (messages_for st (Built (transient_prompt st chosen))) = Some r ->
            o = Ok r
            /\ conversation_history st' =
               conversation_history st
               ++ [mkTurn user (Built (transient_prompt st chosen));
                   mkTurn assistant (Raw r)])).
  { unfold transient_prompt, messages_for. run_attempt.
    destruct (Optimizer.cache_is_empty (_cached_templates st)) eqn:Hc; cbn;
      [ | destruct Hcase as [Hcase | Hcase]; [discriminate|];
          rewrite Hcase; cbn ];
      repeat split_cond;
      do 2 eexists; (split; [reflexivity|]); cbn;
      (split; [reflexivity|]);
      (split;
       [ repeat rewrite writes_app; cbn; repeat rewrite app_nil_r; reflexivity|]);
      (split;
       [ first [ exists []; reflexivity
               | eexists; rewrite <- app_assoc; reflexivity ] |]);
      intros r Hr; first [ discriminate | inversion Hr; subst; split; reflexivity ]. }
  destruct Hbody as (o & st' & Hrun & Hnone & Hw & Htr & Hans).
  exists o, st'. repeat split; try assumption.
  - apply Hans; assumption.
  - apply Hans; assumption.
  - rewrite (implement_without_pending W message st' Hnone).
    rewrite get_chat_response_run.
    destruct (completion W (trace st') _); do 2 eexists;
      (split; [reflexivity|]); cbn; split; (assumption || reflexivity).
Qed.

(** C2.  An implement-phase run that passes the input validation, finds the
    chosen alternative in the Template Cache with an id, and whose snapshot
    (a list of exercise entries) has an entry titled
    [exercise_to_swap_title], issues exactly one routine write: under the
    stored routine id and title, with the snapshot in which each entry of
    that title is replaced by the new exercise (the chosen template's id,
    three "normal" sets with weight and reps unset) and every other entry is
    kept without its ['index'].  Afterwards the pending context is [None];
    when the write and the completion step answer, the response is
    returned. *)
Theorem implement_writes_swapped_snapshot :
  forall message st p chosen cache t tid exercises,
    pending_swap_context st = Some p ->
    type_ p = "EXERCISE_SWAP" ->
    Optimizer.extract_choice (suggestions p) message = Some chosen ->
    validated p chosen = true ->
    _cached_templates st = Some cache ->
    Optimizer.find_template chosen cache = Some t ->
    id t = Some tid ->
    tid <> "" ->
    current_exercises p = VList (map VDict exercises) ->
    existsb (titled (exercise_to_swap_title p)) exercises = true ->
    let written :=
      EvUpdateRoutine (routine_id p)
        [("title", routine_name p);
         ("exercises",
          VList (swapped (exercise_to_swap_title p) chosen tid exercises))] in
    exists o st',
      Optimizer.handle_suggestion_implement W message st = (o, st')
      /\ writes (trace st') = writes (trace st) ++ [written]
      /\ pending_swap_context st' = None
      /\ Optimizer.new_exercise chosen tid =
         VDict [("title", VStr chosen); ("notes", VNone);
                ("exercise_template_id", VStr tid); ("superset_id", VNone);
                ("sets",
                 VList (repeat (VDict [("type", VStr "normal");
                                       ("weight_kg", VNone); ("reps", VNone)]) 3))]
      /\ (forall ack r,
            http_put_routine W (trace st) (routine_id p)
              [("title", routine_name p);
               ("exercises",
                VList (swapped (exercise_to_swap_title p) chosen tid exercises))]
            = Some ack ->
            completion W (trace st ++ [written])
              (messages_for st
                 (Built (PromptImplDone (routine_name p)
                           (exercise_to_swap_title p) chosen))) = Some r ->
            o = Ok r).
Proof.
  intros message st p chosen cache t tid exercises
    Hp Ht Hx Hv Hcache Hfind Hid Htid Hsnap Hhas written.
  rewrite (implement_enters_attempt W message st Hp Ht Hx Hv).
  assert (Hne : Optimizer.cache_is_empty (Some cache) = false).
  { destruct cache; [discriminate | reflexivity]. }
  unfold written, messages_for. run_attempt.
  rewrite Hcache, Hne. cbn. rewrite Hfind. rewrite Hid. cbn.
  rewrite (str_truthy_true Htid). cbn. rewrite Hsnap. cbn.
  rewrite rebuild_of_dicts, Hhas. cbn.
  destruct (http_put_routine W (trace st) _ _) eqn:Eput; cbn;
    destruct (completion W _ _) eqn:Ec; cbn;
    do 2 eexists; (split; [reflexivity|]); cbn;
    (repeat split;
     [ repeat rewrite writes_app; cbn; repeat rewrite app_nil_r; reflexivity
     | intros ack r Ha Hr; congruence || discriminate ]).
Qed.

(** C5 (as the code has it).  An implement-phase run (a pending swap and a
    choice extracted from the message) whose snapshot has no entry titled
    [exercise_to_swap_title] issues no routine write and ends with the
    pending context cleared; what it returns is the answer to a prompt
    explaining the failure, and it does return whenever the completion step
    answers. *)
Theorem stale_snapshot_is_not_written :
  forall message st p chosen,
    pending_swap_context st = Some p ->
    type_ p = "EXERCISE_SWAP" ->
    Optimizer.extract_choice (suggestions p) message = Some chosen ->
    snapshot_has_title (exercise_to_swap_title p) (current_exercises p) = false ->
    exists o st',
      Optimizer.handle_suggestion_implement W message st = (o, st')
      /\ writes (trace st') = writes (trace st)
      /\ pending_swap_context st' = None
      /\ (forall r,
            o = Ok r ->
            exists pr,
              explains_failure pr = true
              /\ conversation_history st' =
                 conversation_history st
                 ++ [mkTurn user (Built pr); mkTurn assistant (Raw r)])
      /\ ((forall tr ms, completion W tr ms <> None) -> exists r, o = Ok r).
Proof.
  intros message st p chosen Hp Ht Hx Hs.
  destruct (validated p chosen) eqn:Hv.
  - rewrite (implement_enters_attempt W message st Hp Ht Hx Hv).
    exists (fst (Optimizer.implement_attempt W p chosen st)),
           (snd (Optimizer.implement_attempt W p chosen st)).
    split; [apply surjective_pairing|].
    split; [apply implement_attempt_no_write; assumption|].
    split; [apply implement_attempt_clears|].
    split.
    + intros r Hr. apply implement_attempt_explains; assumption.
    + intros Hc. apply implement_attempt_returns; assumption.
  - rewrite (implement_lost_details W message st Hp Ht Hx Hv).
    unfold bind at 1, set_pending at 1. rewrite get_chat_response_run. cbn.
    destruct (completion W (trace st) _) eqn:Ec;
      do 2 eexists; (split; [reflexivity|]); cbn.
    + repeat split.
      * rewrite writes_app. cbn. apply app_nil_r.
      * intros r Hr. inversion Hr; subst. exists PromptLostDetails.
        split; reflexivity.
      * intros _. eexists; reflexivity.
    + repeat split.
      * rewrite writes_app. cbn. apply app_nil_r.
      * intros r Hr. discriminate.
      * intros Hc. exfalso. eapply Hc. exact Ec.
Qed.

End ImplementClaims.

(** C1 (as stated) fails: with the cache empty, and with the chosen title
    absent from the cache, the implement call leaves no pending context. *)
Lemma transient_failures_keep_pending_counterexample :
  (pending_swap_context Scenario.stalled = Some Scenario.proposal
   /\ Optimizer.cache_is_empty (_cached_templates Scenario.stalled) = true
   /\ pending_swap_context
        (snd (Optimizer.handle_suggestion_implement Scenario.world
                Scenario.choice Scenario.stalled))
      <> pending_swap_context Scenario.stalled)
  /\ (pending_swap_context Scenario.narrowed = Some Scenario.proposal
      /\ Optimizer.find_template "Incline Press"
           (Optimizer.cache_list (_cached_templates Scenario.narrowed)) = None
      /\ pending_swap_context
           (snd (Optimizer.handle_suggestion_implement Scenario.world
                   Scenario.choice Scenario.narrowed))
         <> pending_swap_context Scenario.narrowed).
Proof. repeat split; try reflexivity; vm_compute; discriminate. Qed.

Lemma transient_failures_clear_pending_witness :
  pending_swap_context Scenario.stalled = Some Scenario.proposal
  /\ type_ Scenario.proposal = "EXERCISE_SWAP"
  /\ Optimizer.extract_choice (suggestions Scenario.proposal) Scenario.choice
     = Some "Incline Press"
  /\ validated Scenario.proposal "Incline Press" = true
  /\ Optimizer.cache_is_empty (_cached_templates Scenario.stalled) = true
  /\ pending_swap_context
       (snd (Optimizer.handle_suggestion_implement Scenario.world
               Scenario.choice Scenario.stalled)) = None.
Proof.
  do 5 (split; [reflexivity|]).
  destruct (@transient_failures_clear_pending Scenario.world Scenario.choice
              Scenario.stalled Scenario.proposal "Incline Press"
              eq_refl eq_refl eq_refl eq_refl (or_introl eq_refl))
    as (o & st' & Hrun & Hnone & _).
  rewrite Hrun. exact Hnone.
Defined.

Lemma implement_writes_swapped_snapshot_witness :
  pending_swap_context Scenario.proposed = Some Scenario.proposal
  /\ Optimizer.find_template "Incline Press" Scenario.cache
     = Some Scenario.incline_press
  /\ existsb (titled "Bench Press")
       [ [("index", VInt 0); ("title", VStr "Bench Press");
          ("exercise_template_id", VStr "tpl-bench");
          ("sets", VList [Scenario.a_set])];
         [("index", VInt 1); ("title", VStr "Dips");
          ("exercise_template_id", VStr "tpl-dips");
          ("sets", VList [Scenario.a_set; Scenario.a_set])] ] = true
  /\ writes (trace (snd (Optimizer.handle_suggestion_implement Scenario.world
                           Scenario.choice Scenario.proposed)))
     = [EvUpdateRoutine (VStr "routine-1")
          [("title", VStr "Push Day");
           ("exercises",
            VList [Optimizer.new_exercise "Incline Press" "tpl-incline";
                   VDict [("title", VStr "Dips");
                          ("exercise_template_id", VStr "tpl-dips");
                          ("sets", VList [Scenario.a_set; Scenario.a_set])]])]]
  /\ pending_swap_context
       (snd (Optimizer.handle_suggestion_implement Scenario.world
               Scenario.choice Scenario.proposed)) = None.
Proof.
  do 3 (split; [reflexivity|]). split;
  destruct (@implement_writes_swapped_snapshot Scenario.world Scenario.choice
              Scenario.proposed Scenario.proposal "Incline Press"
              Scenario.cache Scenario.incline_press "tpl-incline"
              [ [("index", VInt 0); ("title", VStr "Bench Press");
                 ("exercise_template_id", VStr "tpl-bench");
                 ("sets", VList [Scenario.a_set])];
                [("index", VInt 1); ("title", VStr "Dips");
                 ("exercise_template_id", VStr "tpl-dips");
                 ("sets", VList [Scenario.a_set; Scenario.a_set])] ]
              eq_refl eq_refl eq_refl eq_refl eq_refl eq_refl eq_refl
              ltac:(discriminate) eq_refl eq_refl)
    as (o & st' & Hrun & Hw & Hnone & _);
  rewrite Hrun; [exact Hw | exact Hnone].
Defined.

Lemma stale_snapshot_is_not_written_witness :
  pending_swap_context Scenario.outdated = Some Scenario.stale_proposal
  /\ type_ Scenario.stale_proposal = "EXERCISE_SWAP"
  /\ Optimizer.extract_choice (suggestions Scenario.stale_proposal)
       Scenario.choice = Some "Incline Press"
  /\ snapshot_has_title (exercise_to_swap_title Scenario.stale_proposal)
       (current_exercises Scenario.stale_proposal) = false
  /\ writes (trace (snd (Optimizer.handle_suggestion_implement Scenario.world
                           Scenario.choice Scenario.outdated))) = []
  /\ pending_swap_context
       (snd (Optimizer.handle_suggestion_implement Scenario.world
               Scenario.choice Scenario.outdated)) = None.
Proof.
  do 4 (split; [reflexivity|]). split;
  destruct (@stale_snapshot_is_not_written Scenario.world Scenario.choice
              Scenario.outdated Scenario.stale_proposal "Incline Press"
              eq_refl eq_refl eq_refl eq_refl)
    as (o & st' & Hrun & Hw & Hnone & _);
  rewrite Hrun; [exact Hw | exact Hnone].
Defined.

(** C5 (as stated) fails: called with a message from which no choice can
    be extracted, the implement phase asks which exercise is meant before
    it looks at the snapshot, and the pending context stays, its snapshot
    without the exercise to swap included. *)
Lemma stale_snapshot_keeps_pending_counterexample :
  pending_swap_context Scenario.outdated = Some Scenario.stale_proposal
  /\ type_ Scenario.stale_proposal = "EXERCISE_SWAP"
  /\ snapshot_has_title (exercise_to_swap_title Scenario.stale_proposal)
       (current_exercises Scenario.stale_proposal) = false
  /\ Optimizer.extract_choice (suggestions Scenario.stale_proposal)
       "what's the weather" = None
  /\ fst (Optimizer.get_modification_response Scenario.world
            "what's the weather" "SUGGESTION_IMPLEMENT" empty_context
            Scenario.outdated) = Ok "Done."
  /\ pending_swap_context
       (snd (Optimizer.get_modification_response Scenario.world
               "what's the weather" "SUGGESTION_IMPLEMENT" empty_context
               Scenario.outdated)) = Some Scenario.stale_proposal
  /\ trace (snd (Optimizer.get_modification_response Scenario.world
                   "what's the weather" "SUGGESTION_IMPLEMENT" empty_context
                   Scenario.outdated))
     = [EvCompletion
          (messages_for Scenario.outdated
             (Built (PromptNoChoice "what's the weather")))].
Proof. repeat split. Qed.

(** ** The propose phase *)

Section Propose.
Variable W : World.

(** C3 (as the code has it).  A propose-phase request that names an exercise
    with a known primary muscle group, for which the cache holds at least
    one other template of that group, and whose target routine was resolved
    (non-empty routine details in the context), ends in [PENDING_SWAP] once
    the completion step has answered: the pending context stores the
    routine's id and name, the exercise title, the snapshot of the
    routine's exercises, and the suggestions shown, whose number is
    [min 5 (number of same-muscle alternatives)]. *)
Theorem proposal_creates_pending_swap :
  forall message context st exercise routine cache m r,
    exercise_name context = Some exercise ->
    exercise <> "" ->
    target_routine_details context = Some routine ->
    routine <> [] ->
    _cached_templates st = Some cache ->
    Optimizer.muscle_of exercise cache = Some m ->
    m <> "" ->
    Optimizer.potential_swaps exercise (Some m) cache <> [] ->
    completion W (trace st)
      (messages_for st
         (Built (PromptSwapCandidates exercise
                   (dict_get_or "title" (VStr "the routine") routine) (Some m)
                   (firstn 5 (Optimizer.potential_swaps exercise (Some m) cache)))))
    = Some r ->
    exists st',
      Optimizer.get_modification_response W message "EXERCISE_SWAP" context st
      = (Ok r, st')
      /\ Optimizer.PENDING_SWAP st'
      /\ pending_swap_context st' =
         Some (mkPending "EXERCISE_SWAP"
                 (dict_get "id" routine)
                 (dict_get_or "title" (VStr "the routine") routine)
                 exercise
                 (firstn 5 (Optimizer.potential_swaps exercise (Some m) cache))
                 (dict_get_or "exercises" (VList []) routine))
      /\ length (firstn 5 (Optimizer.potential_swaps exercise (Some m) cache))
         = Nat.min 5
             (length (filter (Optimizer.same_muscle_alternative exercise (Some m))
                             cache)).
Proof.
  intros message context st exercise routine cache m r
    Hname Hne Hroutine Hrne Hcache Hmuscle Hm Hswaps Hcompletion.
  assert (Hcne : Optimizer.cache_is_empty (Some cache) = false).
  { destruct cache; [discriminate | reflexivity]. }
  unfold Optimizer.get_modification_response. cbn [String.eqb Ascii.eqb Bool.eqb].
  unfold Optimizer.handle_exercise_swap.
  rewrite Hname, Hroutine. rewrite (str_truthy_true Hne). cbn [negb].
  unfold bind at 1, get_state at 1. rewrite Hcache, Hcne.
  cbn [Optimizer.cache_list]. rewrite Hmuscle.
  cbn [opt_truthy]. rewrite (str_truthy_true Hm).
  destruct routine as [|kv routine]; [contradiction|].
  assert (Hlen :
    length (firstn 5 (Optimizer.potential_swaps exercise (Some m) cache))
    = Nat.min 5
        (length (filter (Optimizer.same_muscle_alternative exercise (Some m))
                        cache))).
  { unfold Optimizer.potential_swaps. rewrite length_firstn, length_map.
    reflexivity. }
  unfold Optimizer.max_suggestions.
  revert Hcompletion Hlen.
  destruct (Optimizer.potential_swaps exercise (Some m) cache)
    as [|s swaps] eqn:Hs; [contradiction|].
  intros Hcompletion Hlen.
  unfold bind at 1. rewrite get_chat_response_run.
  rewrite Hcompletion. unfold bind, set_pending, ret.
  eexists. split; [reflexivity|]. split; [|split].
  - eexists. split; reflexivity.
  - reflexivity.
  - exact Hlen.
Qed.

End Propose.

(** C3 (as stated) fails: Bench Press has a known muscle group and one
    same-muscle alternative in the cache, but the request names no routine;
    the suggestions are answered and no pending context is created.  Nor is
    one created, for the request that names Push Day, when the completion
    call raises: the handler raises before the store. *)
Lemma proposal_without_routine_counterexample :
  Optimizer.muscle_of "Bench Press" Scenario.cache = Some "Chest"
  /\ length (Optimizer.potential_swaps "Bench Press" (Some "Chest") Scenario.cache) = 1
  /\ _cached_templates Scenario.started = Some Scenario.cache
  /\ fst (Optimizer.get_modification_response Scenario.world
            "swap Bench Press" "EXERCISE_SWAP" Scenario.bench_anywhere
            Scenario.started) = Ok "Done."
  /\ pending_swap_context
       (snd (Optimizer.get_modification_response Scenario.world
               "swap Bench Press" "EXERCISE_SWAP" Scenario.bench_anywhere
               Scenario.started)) = None
  /\ fst (Optimizer.get_modification_response Scenario.mute_world
            Scenario.swap_request "EXERCISE_SWAP" Scenario.bench_in_push_day
            Scenario.started) = Raise OpenAIError
  /\ pending_swap_context
       (snd (Optimizer.get_modification_response Scenario.mute_world
               Scenario.swap_request "EXERCISE_SWAP" Scenario.bench_in_push_day
               Scenario.started)) = None.
Proof. repeat split. Qed.

Lemma proposal_creates_pending_swap_witness :
  exercise_name Scenario.bench_in_push_day = Some "Bench Press"
  /\ target_routine_details Scenario.bench_in_push_day = Some Scenario.push_day
  /\ Optimizer.muscle_of "Bench Press" Scenario.cache = Some "Chest"
  /\ Optimizer.PENDING_SWAP
       (snd (Optimizer.get_modification_response Scenario.world
               Scenario.swap_request "EXERCISE_SWAP" Scenario.bench_in_push_day
               Scenario.started)).
Proof.
  do 3 (split; [reflexivity|]).
  destruct (@proposal_creates_pending_swap Scenario.world Scenario.swap_request
              Scenario.bench_in_push_day Scenario.started "Bench Press"
              Scenario.push_day Scenario.cache "Chest" "Done."
              eq_refl ltac:(discriminate) eq_refl ltac:(discriminate) eq_refl
              eq_refl ltac:(discriminate) ltac:(discriminate) eq_refl)
    as (st' & Hrun & Hpending & _).
  rewrite Hrun. exact Hpending.
Defined.

(** ** The template cache *)

Ltac split_swap :=
  match goal with
  | |- context [match exercise_name ?c with _ => _ end] =>
      destruct (exercise_name c) eqn:?
  | |- context [str_truthy ?s] => destruct (str_truthy s) eqn:?
  | |- context [Optimizer.cache_is_empty ?c] =>
      destruct (Optimizer.cache_is_empty c) eqn:?
  | |- context [match target_routine_details ?c with _ => _ end] =>
      destruct (target_routine_details c) as [[|? ?]|] eqn:?
  | |- context [match Optimizer.potential_swaps ?a ?b ?c with _ => _ end] =>
      destruct (Optimizer.potential_swaps a b c) eqn:?
  | |- context [opt_truthy ?x] => destruct (opt_truthy x) eqn:?
  | |- context [completion ?W ?t ?m] => destruct (completion W t m) eqn:?
  end; cbn.

Ltac run_swap :=
  unfold Optimizer.handle_exercise_swap, Optimizer.get_chat_response,
    bind, get_state, set_pending, set_history, emit, ret, raise, lift; cbn.

Section Cache.
Variable W : World.

(** The first call: the cache is [None], the templates are fetched, and
    what is stored is their list, or the empty list if the fetch raised. *)
Lemma load_templates_cache_first_call (fuel : nat) (st : Process) :
  _cached_templates st = None ->
  Optimizer.load_templates_cache W fuel st =
  match HevyAPI.get_all_exercise_templates W fuel st with
  | (Ok ts, st1) =>
      (Ok tt, mkProcess (conversation_history st1) (pending_swap_context st1)
                        (Some ts) (trace st1))
  | (Raise _, st1) =>
      (Ok tt, mkProcess (conversation_history st1) (pending_swap_context st1)
                        (Some []) (trace st1))
  | (Diverged, st1) => (Diverged, st1)
  end.
Proof.
  intros Hc. unfold Optimizer.load_templates_cache.
  unfold bind at 1, get_state at 1. rewrite Hc.
  unfold try_except, bind, set_cache.
  destruct (HevyAPI.get_all_exercise_templates W fuel st) as [[ts|e|] st1];
    reflexivity.
Qed.

(** A proposal never writes the cache. *)
Lemma proposal_keeps_cache (context : HandlerContext) (st : Process) :
  _cached_templates (snd (Optimizer.handle_exercise_swap W context st))
  = _cached_templates st.
Proof. run_swap. repeat split_swap; reflexivity. Qed.

(** Neither does the implement phase. *)
Lemma implement_attempt_keeps_cache p chosen st :
  _cached_templates (snd (Optimizer.implement_attempt W p chosen st))
  = _cached_templates st.
Proof. run_attempt. repeat split_cond; try impossible_scan; reflexivity. Qed.

Lemma implementation_keeps_cache (message : string) (st : Process) :
  _cached_templates (snd (Optimizer.handle_suggestion_implement W message st))
  = _cached_templates st.
Proof.
  unfold Optimizer.handle_suggestion_implement.
  unfold bind at 1, get_state at 1.
  destruct (pending_swap_context st) as [p|] eqn:Hp.
  - destruct (String.eqb (type_ p) "EXERCISE_SWAP"); cbn [negb].
    + destruct (Optimizer.extract_choice (suggestions p) message) as [chosen|].
      * destruct (negb _).
        -- unfold bind, set_pending. rewrite get_chat_response_run.
           cbn. destruct (completion W _ _); reflexivity.
        -- apply implement_attempt_keeps_cache.
      * rewrite get_chat_response_run. destruct (completion W _ _); reflexivity.
    + unfold bind, set_pending. rewrite get_chat_response_run.
      cbn. destruct (completion W _ _); reflexivity.
  - unfold bind, set_pending. rewrite get_chat_response_run.
    cbn. destruct (completion W _ _); reflexivity.
Qed.

Lemma modification_keeps_cache (message intent : string)
    (context : HandlerContext) (st : Process) :
  _cached_templates
    (snd (Optimizer.get_modification_response W message intent context st))
  = _cached_templates st.
Proof.
  unfold Optimizer.get_modification_response.
  destruct (String.eqb intent "EXERCISE_SWAP").
  - apply proposal_keeps_cache.
  - destruct (String.eqb intent "SUGGESTION_IMPLEMENT").
    + apply implementation_keeps_cache.
    + rewrite get_chat_response_run. destruct (completion W _ _); reflexivity.
Qed.

(** With an empty cache a proposal is one completion call, on the
    missing-name prompt or on the cache-empty prompt. *)
Lemma stalled_proposal (message : string) (context : HandlerContext)
    (st : Process) :
  Optimizer.cache_is_empty (_cached_templates st) = true ->
  Optimizer.get_modification_response W message "EXERCISE_SWAP" context st
  = Optimizer.get_chat_response W (Built (stalled_proposal_prompt context)) st.
Proof.
  intros Hc. unfold Optimizer.get_modification_response.
  cbn [String.eqb Ascii.eqb Bool.eqb].
  unfold Optimizer.handle_exercise_swap, stalled_proposal_prompt.
  destruct (exercise_name context) as [exercise|]; [|reflexivity].
  destruct (str_truthy exercise); cbn [negb]; [|reflexivity].
  unfold bind at 1, get_state at 1. rewrite Hc. reflexivity.
Qed.

(** C10 (as the code has it).  Once the cache holds a list -- the empty
    list of a failed load included -- [load_templates_cache] returns without
    fetching and leaves the whole process state unchanged, the lookup of
    [analyze_program] reads that list without reloading, and the
    Modification Handler never writes the cache: the value is pinned.  With
    the empty list pinned, a swap proposal that names an exercise takes the
    cache-empty failure branch, one that names none takes the missing-name
    branch, and neither touches the pending context. *)
Theorem template_cache_loads_once :
  forall fuel st c,
    _cached_templates st = Some c ->
    Optimizer.load_templates_cache W fuel st = (Ok tt, st)
    /\ Optimizer.analyze_program_templates W fuel st = (Ok c, st)
    /\ (forall message intent context,
          _cached_templates
            (snd (Optimizer.get_modification_response W message intent context st))
          = Some c)
    /\ (c = [] ->
        forall message context,
          Optimizer.get_modification_response W message "EXERCISE_SWAP" context st
          = Optimizer.get_chat_response W
              (Built (stalled_proposal_prompt context)) st
          /\ pending_swap_context
               (snd (Optimizer.get_modification_response W message
                       "EXERCISE_SWAP" context st))
             = pending_swap_context st
          /\ (forall exercise,
                exercise_name context = Some exercise -> exercise <> "" ->
                stalled_proposal_prompt context = PromptSwapCacheEmpty exercise)).
Proof.
  intros fuel st c Hc. split; [|split; [|split]].
  - unfold Optimizer.load_templates_cache.
    unfold bind at 1, get_state at 1. rewrite Hc. reflexivity.
  - unfold Optimizer.analyze_program_templates.
    unfold bind at 1, get_state at 1. rewrite Hc. reflexivity.
  - intros. rewrite modification_keeps_cache. exact Hc.
  - intros Hnil message context. subst c.
    assert (He : Optimizer.cache_is_empty (_cached_templates st) = true)
      by (rewrite Hc; reflexivity).
    rewrite (stalled_proposal message context st He).
    split; [reflexivity|]. split.
    + rewrite get_chat_response_run. destruct (completion W _ _); reflexivity.
    + intros exercise Hn Hne. unfold stalled_proposal_prompt.
      rewrite Hn, (str_truthy_true Hne). reflexivity.
Qed.

End Cache.

(** A failed startup load stores the empty list. *)
Lemma failed_load_stores_empty_list :
  Optimizer.load_templates_cache Scenario.offline_world 5 Scenario.fresh
  = (Ok tt, mkProcess [] None (Some []) [EvGet "/exercise_templates" 1 10]).
Proof. reflexivity. Qed.

(** C10 (as stated) fails in its last part: with the empty list pinned, a
    swap proposal from which no exercise name was extracted is answered by
    the missing-name branch, before the cache is read. *)
Lemma nameless_proposal_counterexample :
  _cached_templates Scenario.unloaded = Some []
  /\ exercise_name Scenario.nameless = None
  /\ trace (snd (Optimizer.get_modification_response Scenario.world
                   "swap it" "EXERCISE_SWAP" Scenario.nameless Scenario.unloaded))
     = [EvCompletion (messages_for Scenario.unloaded (Built PromptSwapNoName))].
Proof. repeat split. Qed.

Lemma template_cache_loads_once_witness :
  _cached_templates Scenario.unloaded = Some []
  /\ Optimizer.load_templates_cache Scenario.world 5 Scenario.unloaded
     = (Ok tt, Scenario.unloaded).
Proof.
  split; [reflexivity|].
  exact (proj1 (@template_cache_loads_once Scenario.world 5 Scenario.unloaded
                  [] eq_refl)).
Defined.

(** ** The head of a turn: resume the pending swap or classify *)

(** A suggestion is matched when the message mentions its name: the result
    is the name of a suggestion, non-empty, and a substring of the message
    up to case. *)
Lemma match_suggestion_mentions (suggs : list Suggestion) (message s : string) :
  Optimizer.match_suggestion suggs (Text.lower message) = Some s ->
  exists sugg,
    In sugg suggs /\ name sugg = Some s /\ s <> ""
    /\ Text.contains (Text.lower s) (Text.lower message) = true.
Proof.
  induction suggs as [|sugg suggs IH]; cbn; [discriminate|].
  destruct (name sugg) as [t|] eqn:Hn.
  - destruct (str_truthy t) eqn:Ht; cbn.
    + destruct (Text.contains (Text.lower t) (Text.lower message)) eqn:Hc.
      * intros H; inversion H; subst. exists sugg. repeat split; auto.
        intros ->. discriminate.
      * intros H. destruct (IH H) as (x & Hin & Hx). exists x. auto.
    + intros H. destruct (IH H) as (x & Hin & Hx). exists x. auto.
  - intros H. destruct (IH H) as (x & Hin & Hx). exists x. auto.
Qed.

(** And a mentioned suggestion is never missed. *)
Lemma mentioned_suggestion_matches (suggs : list Suggestion) (message : string) :
  (exists sugg s,
     In sugg suggs /\ name sugg = Some s /\ s <> ""
     /\ Text.contains (Text.lower s) (Text.lower message) = true) ->
  Optimizer.match_suggestion suggs (Text.lower message) <> None.
Proof.
  intros (sugg & s & Hin & Hn & Hs & Hc).
  induction suggs as [|x suggs IH]; [contradiction|]. cbn.
  destruct Hin as [-> | Hin].
  - rewrite Hn, (str_truthy_true Hs), Hc. discriminate.
  - destruct (name x) as [t|]; [|auto].
    destruct (str_truthy t && _); [discriminate | auto].
Qed.

(** The two follow-ups of the specification, on the suggestions Leg Press
    and Hack Squat. *)
Example choice_of_hack_squat :
  Optimizer.extract_choice
    [mkSuggestion (Some "Leg Press") None None;
     mkSuggestion (Some "Hack Squat") None None]
    "let's go with Hack Squat" = Some "Hack Squat".
Proof. reflexivity. Qed.

Example no_choice_in_small_talk :
  Optimizer.extract_choice
    [mkSuggestion (Some "Leg Press") None None;
     mkSuggestion (Some "Hack Squat") None None]
    "what's the weather" = None.
Proof. reflexivity. Qed.

Section Resume.
Variable W : World.

(** The classification flow, run with nothing pending. *)
Lemma classification_flow_run (message : string) (st : Process) :
  pending_swap_context st = None ->
  exists context st',
    Chat.classification_flow W message st
    = (Ok (classify_intent W (trace st) message (conversation_history st),
           context), st')
    /\ pending_swap_context st' = None
    /\ conversation_history st' = conversation_history st
    /\ _cached_templates st' = _cached_templates st
    /\ exists rest,
         trace st' =
         trace st ++ EvClassify message (conversation_history st) :: rest.
Proof.
  intros Hp. unfold Chat.classification_flow, Optimizer.get_conversation_history,
    Chat.classify, Chat.relevant_context.
  unfold bind, get_state, emit, ret. cbn.
  destruct (String.eqb _ "SUGGESTION_IMPLEMENT"); cbn; rewrite Hp;
    do 2 eexists; (split; [reflexivity|]); cbn;
    repeat split; try assumption;
    first [ exists []; reflexivity
          | eexists; rewrite <- app_assoc; reflexivity ].
Qed.

End Resume.

(** ** The history of a turn *)

Section History.
Variable W : World.

(** The head of a turn always yields an intent and never touches the
    history. *)
Lemma classification_flow_keeps_history (message : string) (st : Process) :
  exists ic st1,
    Chat.classification_flow W message st = (Ok ic, st1)
    /\ conversation_history st1 = conversation_history st.
Proof.
  unfold Chat.classification_flow, Optimizer.get_conversation_history,
    Chat.classify, Chat.relevant_context.
  unfold bind, get_state, emit, ret, set_pending. cbn.
  destruct (String.eqb _ "SUGGESTION_IMPLEMENT"); cbn;
    destruct (pending_swap_context st); cbn;
    do 2 eexists; split; reflexivity.
Qed.

Lemma resolve_intent_keeps_history (message : string) (st : Process) :
  exists ic st1,
    Chat.resolve_intent W message st = (Ok ic, st1)
    /\ conversation_history st1 = conversation_history st.
Proof.
  unfold Chat.resolve_intent. unfold bind at 1, get_state at 1.
  destruct (pending_swap_context st) as [p|];
    [destruct (String.eqb (type_ p) "EXERCISE_SWAP");
     [destruct (Optimizer.extract_choice (suggestions p) message) as [chosen|];
      [destruct (str_truthy chosen)|]|]|];
    try apply classification_flow_keeps_history;
    try (do 2 eexists; split; reflexivity);
    unfold bind at 1, set_pending at 1;
    match goal with
    | |- context [Chat.classification_flow W message ?s] =>
        destruct (classification_flow_keeps_history message s)
          as (ic & st1 & Hrun & Hh);
        exists ic, st1; split; [exact Hrun | exact Hh]
    end.
Qed.

(** A response of the Modification Handler is the answer to one prompt,
    and the completion step has recorded both. *)
Lemma implement_attempt_records p chosen st r :
  fst (Optimizer.implement_attempt W p chosen st) = Ok r ->
  exists pr,
    conversation_history (snd (Optimizer.implement_attempt W p chosen st))
    = conversation_history st ++ [mkTurn user (Built pr); mkTurn assistant (Raw r)].
Proof.
  run_attempt.
  repeat split_cond; try impossible_scan; intros H; inversion H; subst;
    eexists; reflexivity.
Qed.

Lemma completion_records (pr : prompt) (st : Process) (r : string) :
  fst (Optimizer.get_chat_response W (Built pr) st) = Ok r ->
  conversation_history (snd (Optimizer.get_chat_response W (Built pr) st))
  = conversation_history st ++ [mkTurn user (Built pr); mkTurn assistant (Raw r)].
Proof.
  rewrite get_chat_response_run.
  destruct (completion W _ _); cbn; intros H; inversion H; reflexivity.
Qed.

Lemma implementation_records (message : string) (st : Process) (r : string) :
  fst (Optimizer.handle_suggestion_implement W message st) = Ok r ->
  exists pr,
    conversation_history (snd (Optimizer.handle_suggestion_implement W message st))
    = conversation_history st ++ [mkTurn user (Built pr); mkTurn assistant (Raw r)].
Proof.
  unfold Optimizer.handle_suggestion_implement, bind, get_state, set_pending.
  cbn beta iota.
  destruct (pending_swap_context st) as [p|] eqn:Hp.
  - destruct (String.eqb (type_ p) "EXERCISE_SWAP"); cbn [negb].
    + destruct (Optimizer.extract_choice (suggestions p) message) as [chosen|].
      * destruct (negb _).
        -- intros H. eexists. apply (completion_records _ _ H).
        -- apply implement_attempt_records.
      * intros H. eexists. apply (completion_records _ _ H).
    + intros H. eexists. apply (completion_records _ _ H).
  - intros H. eexists. apply (completion_records _ _ H).
Qed.

Lemma proposal_records (context : HandlerContext) (st : Process) (r : string) :
  fst (Optimizer.handle_exercise_swap W context st) = Ok r ->
  exists pr,
    conversation_history (snd (Optimizer.handle_exercise_swap W context st))
    = conversation_history st ++ [mkTurn user (Built pr); mkTurn assistant (Raw r)].
Proof.
  run_swap.
  repeat split_swap; intros H; inversion H; subst; eexists; reflexivity.
Qed.

Lemma modification_records (message intent : string) (context : HandlerContext)
    (st : Process) (r : string) :
  fst (Optimizer.get_modification_response W message intent context st) = Ok r ->
  exists pr,
    conversation_history
      (snd (Optimizer.get_modification_response W message intent context st))
    = conversation_history st ++ [mkTurn user (Built pr); mkTurn assistant (Raw r)].
Proof.
  unfold Optimizer.get_modification_response.
  destruct (String.eqb intent "EXERCISE_SWAP").
  - apply proposal_records.
  - destruct (String.eqb intent "SUGGESTION_IMPLEMENT").
    + apply implementation_records.
    + intros H. eexists. apply (completion_records _ _ H).
Qed.

(** A served turn: the intent was resolved, the route answered, and the
    end of the turn appended the message and the response. *)
Lemma workout_chat_served (message : string) (st st' : Process)
    (r : Chat.ResponseData) :
  Chat.workout_chat W message st = (Ok (Chat.Served r), st') ->
  exists intent_ context st1 st2,
    Chat.resolve_intent W message st = (Ok (intent_, context), st1)
    /\ conversation_history st1 = conversation_history st
    /\ Chat.route W message intent_ context st1 = (Ok r, st2)
    /\ conversation_history st'
       = conversation_history st2 ++ recorded message (Chat.response r)
    /\ pending_swap_context st' = pending_swap_context st2.
Proof.
  unfold Chat.workout_chat, try_except. unfold bind at 1.
  destruct (resolve_intent_keeps_history message st) as ([i c] & st1 & Hres & Hh).
  rewrite Hres. cbn [fst snd]. unfold bind at 1.
  destruct (Chat.route W message i c st1) as [[rd|e|] st2] eqn:Hroute.
  - unfold Chat.record_turn, bind, get_state, set_history, ret, recorded. cbn.
    intros H. inversion H; subst. exists i, c, st1, st2.
    repeat split; try assumption.
    destruct (str_truthy message), (str_truthy (Chat.response r)); cbn;
      rewrite <- ?app_assoc, ?app_nil_r; reflexivity.
  - intros H. inversion H.
  - intros H. inversion H.
Qed.

Lemma mem_modification (i : string) :
  Chat.mem i Chat.modification_intents = true ->
  i = "EXERCISE_SWAP" \/ i = "PROGRAM_CREATE" \/ i = "ROUTINE_UPDATE"
  \/ i = "SUGGESTION_IMPLEMENT".
Proof.
  unfold Chat.mem, Chat.modification_intents. cbn [existsb].
  destruct (String.eqb_spec i "EXERCISE_SWAP"); [auto|].
  destruct (String.eqb_spec i "PROGRAM_CREATE"); [auto|].
  destruct (String.eqb_spec i "ROUTINE_UPDATE"); [auto|].
  destruct (String.eqb_spec i "SUGGESTION_IMPLEMENT"); [auto 6|].
  discriminate.
Qed.

(** What a route leaves in the history, by the intent of its response. *)
Lemma route_history (message intent_ : string) (context : HandlerContext)
    (st1 st2 : Process) (r : Chat.ResponseData) :
  Chat.route W message intent_ context st1 = (Ok r, st2) ->
  (Chat.intent r = "GREETING" \/ Chat.intent r = "UNKNOWN" -> st2 = st1)
  /\ (Chat.mem (Chat.intent r) Chat.modification_intents = true ->
      exists pr,
        conversation_history st2
        = conversation_history st1
          ++ [mkTurn user (Built pr); mkTurn assistant (Raw (Chat.response r))]).
Proof.
  unfold Chat.route.
  destruct (String.eqb_spec intent_ "SUGGESTION_IMPLEMENT") as [Hsi|Hsi].
  { unfold bind.
    destruct (Optimizer.get_modification_response W message intent_ context st1)
      as [[resp|e|] s] eqn:Hm; try discriminate.
    unfold ret. intros H; inversion H; subst; cbn. split.
    - intros [E|E]; discriminate.
    - intros _.
      pose proof (modification_records message "SUGGESTION_IMPLEMENT" context st1) as Hrec.
      rewrite Hm in Hrec. apply (Hrec resp eq_refl). }
  destruct (String.eqb_spec intent_ "GREETING") as [Hg|Hg].
  { unfold ret. intros H; inversion H; subst; cbn. split; [reflexivity|].
    intros E; discriminate. }
  destruct (String.eqb_spec intent_ "UNKNOWN") as [Hu|Hu].
  { unfold ret. intros H; inversion H; subst; cbn. split; [reflexivity|].
    intros E; discriminate. }
  destruct (Chat.mem intent_ Chat.info_intents) eqn:Hinfo.
  { unfold bind.
    destruct (get_info_response W message intent_ context st1)
      as [[resp|e|] s]; try discriminate.
    unfold ret. intros H; inversion H; subst; cbn. split.
    - intros [E|E]; contradiction.
    - intros Hmod. exfalso.
      destruct (mem_modification _ Hmod) as [E|[E|[E|E]]]; subst; discriminate. }
  destruct (Chat.mem intent_ Chat.analysis_intents) eqn:Hana.
  { unfold bind.
    destruct (get_analysis_response W message intent_ context st1)
      as [[resp|e|] s]; try discriminate.
    unfold ret. intros H; inversion H; subst; cbn. split.
    - intros [E|E]; contradiction.
    - intros Hmod. exfalso.
      destruct (mem_modification _ Hmod) as [E|[E|[E|E]]]; subst; discriminate. }
  destruct (Chat.mem intent_ Chat.modification_intents) eqn:Hmod.
  { unfold bind.
    destruct (Optimizer.get_modification_response W message intent_ context st1)
      as [[resp|e|] s] eqn:Hm; try discriminate.
    unfold ret. intros H; inversion H; subst; cbn. split.
    - intros [E|E]; contradiction.
    - intros _.
      pose proof (modification_records message intent_ context st1) as Hrec.
      rewrite Hm in Hrec. apply (Hrec resp eq_refl). }
  unfold ret. intros H; inversion H; subst; cbn. split; [reflexivity|].
  intros E; discriminate.
Qed.

(** C6 (as the code has it).  A served turn with a non-empty message and a
    non-empty final response ends the history with the user's message and
    then the response, in that order.  For a greeting, an unknown or an
    unrouted intent these two entries are all the turn adds.  When the
    Modification Handler answers, the completion step has already appended
    a pair of its own -- the handler's prompt as a user turn and the same
    response as an assistant turn -- so the history grows by four. *)
Theorem turn_is_recorded_last :
  forall message st r st',
    message <> "" ->
    Chat.response r <> "" ->
    Chat.workout_chat W message st = (Ok (Chat.Served r), st') ->
    (exists mid,
       conversation_history st'
       = mid ++ [mkTurn user (Raw message);
                 mkTurn assistant (Raw (Chat.response r))])
    /\ (Chat.intent r = "GREETING" \/ Chat.intent r = "UNKNOWN" ->
        conversation_history st'
        = conversation_history st
          ++ [mkTurn user (Raw message);
              mkTurn assistant (Raw (Chat.response r))])
    /\ (Chat.mem (Chat.intent r) Chat.modification_intents = true ->
        exists pr,
          conversation_history st'
          = conversation_history st
            ++ [mkTurn user (Built pr);
                mkTurn assistant (Raw (Chat.response r));
                mkTurn user (Raw message);
                mkTurn assistant (Raw (Chat.response r))]).
Proof.
  intros message st r st' Hm Hr Hrun.
  destruct (workout_chat_served _ _ Hrun)
    as (i & c & st1 & st2 & Hres & Hh1 & Hroute & Hh & _).
  unfold recorded in Hh.
  rewrite (str_truthy_true Hm), (str_truthy_true Hr) in Hh. cbn in Hh.
  destruct (route_history _ _ _ _ Hroute) as [Hfixed Hmod].
  split; [|split].
  - eexists. exact Hh.
  - intros Hi. rewrite Hh, (Hfixed Hi), Hh1. reflexivity.
  - intros Hi. destruct (Hmod Hi) as (pr & Hpr). exists pr.
    rewrite Hh, Hpr, Hh1, <- app_assoc. reflexivity.
Qed.

End History.

(** C6 (as stated) fails: the swap request of the scenario is served with a
    non-empty response, and the history, empty before, holds four entries
    after it. *)
Lemma history_grows_by_four_counterexample :
  fst (Chat.workout_chat Scenario.world Scenario.swap_request Scenario.started)
  = Ok (Chat.Served (Chat.mkResponse "Done." "EXERCISE_SWAP"))
  /\ conversation_history Scenario.started = []
  /\ length (conversation_history
               (snd (Chat.workout_chat Scenario.world Scenario.swap_request
                       Scenario.started))) = 4
  /\ conversation_history
       (snd (Chat.workout_chat Scenario.world Scenario.swap_request
               Scenario.started))
     <> conversation_history Scenario.started
        ++ [mkTurn user (Raw Scenario.swap_request);
            mkTurn assistant (Raw "Done.")].
Proof. repeat split; try reflexivity. vm_compute. discriminate. Qed.

Lemma turn_is_recorded_last_witness :
  Scenario.swap_request <> ""
  /\ Chat.workout_chat Scenario.world Scenario.swap_request Scenario.started
     = (Ok (Chat.Served (Chat.mkResponse "Done." "EXERCISE_SWAP")),
        snd (Chat.workout_chat Scenario.world Scenario.swap_request
               Scenario.started))
  /\ exists mid,
       conversation_history
         (snd (Chat.workout_chat Scenario.world Scenario.swap_request
                 Scenario.started))
       = mid ++ [mkTurn user (Raw Scenario.swap_request);
                 mkTurn assistant (Raw "Done.")].
Proof.
  split; [discriminate|]. split; [reflexivity|].
  exact (proj1 (@turn_is_recorded_last Scenario.world Scenario.swap_request
                  Scenario.started (Chat.mkResponse "Done." "EXERCISE_SWAP")
                  (snd (Chat.workout_chat Scenario.world Scenario.swap_request
                          Scenario.started))
                  ltac:(discriminate) ltac:(discriminate) eq_refl)).
Defined.

(** ** The history endpoints *)

(** [GET /history] reads the history and changes nothing, so two reads in a
    row agree; after [DELETE /history] the history read is empty. *)
Lemma get_chat_history_is_a_read (st : Process) :
  Chat.get_chat_history st = (Ok (conversation_history st), st).
Proof. reflexivity. Qed.

Lemma clear_then_get_chat_history (st : Process) :
  fst (Chat.get_chat_history (snd (Chat.clear_chat_history st))) = Ok [].
Proof. reflexivity. Qed.

(** ** One optimizer for every client *)

Section Sessions.
Variable W : World.

(** C9 (as the code has it).  The process has one optimizer and one
    pending-swap slot, shared by all clients: after a turn served to client
    [a], any client [b] observes the very state [a] observes -- the pending
    context that turn left, and a history ending with [a]'s message and the
    response to it. *)
Theorem one_optimizer_for_all_clients :
  forall a b message st r st',
    Chat.handle_turn W a message st = (Ok (Chat.Served r), st') ->
    Chat.get_ai_optimizer b st' = Chat.get_ai_optimizer a st'
    /\ Chat.view_pending (Chat.get_ai_optimizer b st') = pending_swap_context st'
    /\ exists mid,
         Chat.view_history (Chat.get_ai_optimizer b st')
         = mid ++ recorded message (Chat.response r).
Proof.
  intros a b message st r st' Hrun. unfold Chat.handle_turn in Hrun.
  destruct (workout_chat_served _ _ _ Hrun)
    as (i & c & st1 & st2 & _ & _ & _ & Hh & _).
  split; [reflexivity|]. split; [reflexivity|].
  eexists. exact Hh.
Qed.

End Sessions.

(** C9 (as stated) fails: Alice asks for a swap; Bob, who had observed an
    empty history and no pending swap, now observes her proposal and her
    four history entries, and his "use Incline Press" rewrites her routine. *)
Lemma pending_swap_is_shared_counterexample :
  "alice" <> "bob"
  /\ Chat.get_ai_optimizer "bob" Scenario.started = Chat.mkView [] None
  /\ Chat.view_pending
       (Chat.get_ai_optimizer "bob"
          (snd (Chat.handle_turn Scenario.world "alice" Scenario.swap_request
                  Scenario.started)))
     = Some Scenario.proposal
  /\ length
       (Chat.view_history
          (Chat.get_ai_optimizer "bob"
             (snd (Chat.handle_turn Scenario.world "alice" Scenario.swap_request
                     Scenario.started)))) = 4
  /\ writes
       (trace
          (snd (Chat.handle_turn Scenario.world "bob" Scenario.choice
                  (snd (Chat.handle_turn Scenario.world "alice"
                          Scenario.swap_request Scenario.started)))))
     = [EvUpdateRoutine (VStr "routine-1")
          [("title", VStr "Push Day");
           ("exercises",
            VList (swapped "Bench Press" "Incline Press" "tpl-incline"
                     [ [("index", VInt 0); ("title", VStr "Bench Press");
                        ("exercise_template_id", VStr "tpl-bench");
                        ("sets", VList [Scenario.a_set])];
                       [("index", VInt 1); ("title", VStr "Dips");
                        ("exercise_template_id", VStr "tpl-dips");
                        ("sets", VList [Scenario.a_set; Scenario.a_set])] ]))]].
Proof. repeat split; try reflexivity. discriminate. Qed.

Lemma one_optimizer_for_all_clients_witness :
  Chat.handle_turn Scenario.world "alice" Scenario.swap_request Scenario.started
  = (Ok (Chat.Served (Chat.mkResponse "Done." "EXERCISE_SWAP")),
     snd (Chat.handle_turn Scenario.world "alice" Scenario.swap_request
            Scenario.started))
  /\ Chat.get_ai_optimizer "bob"
       (snd (Chat.handle_turn Scenario.world "alice" Scenario.swap_request
               Scenario.started))
     = Chat.get_ai_optimizer "alice"
         (snd (Chat.handle_turn Scenario.world "alice" Scenario.swap_request
                 Scenario.started)).
Proof.
  split; [reflexivity|].
  exact (proj1 (@one_optimizer_for_all_clients Scenario.world "alice" "bob"
                  Scenario.swap_request Scenario.started
                  (Chat.mkResponse "Done." "EXERCISE_SWAP")
                  (snd (Chat.handle_turn Scenario.world "alice"
                          Scenario.swap_request Scenario.started))
                  eq_refl)).
Defined.

(** ** End to end *)

(** The two turns of the scenario: the swap request leaves the proposal
    pending; "use Incline Press" then writes Push Day with Bench Press
    replaced, once, and leaves nothing pending. *)
Example swap_end_to_end :
  pending_swap_context
    (snd (Chat.workout_chat Scenario.world Scenario.swap_request Scenario.started))
  = Some Scenario.proposal
  /\ writes
       (trace
          (snd (Chat.workout_chat Scenario.world Scenario.choice
                  (snd (Chat.workout_chat Scenario.world Scenario.swap_request
                          Scenario.started)))))
     = [EvUpdateRoutine (VStr "routine-1")
          [("title", VStr "Push Day");
           ("exercises",
            VList [Optimizer.new_exercise "Incline Press" "tpl-incline";
                   VDict [("title", VStr "Dips");
                          ("exercise_template_id", VStr "tpl-dips");
                          ("sets", VList [Scenario.a_set; Scenario.a_set])]])]]
  /\ pending_swap_context
       (snd (Chat.workout_chat Scenario.world Scenario.choice
               (snd (Chat.workout_chat Scenario.world Scenario.swap_request
                       Scenario.started))))
     = None.
Proof. repeat split. Qed.

(* ================================================================== *)
(** * Further properties of the swap dialogue *)

(** ** Substrings *)

Lemma append_assoc (a b c : string) :
  String.append (String.append a b) c = String.append a (String.append b c).
Proof. induction a as [|x a IH]; cbn; [reflexivity | now rewrite IH]. Qed.

Lemma append_empty_r (a : string) : String.append a "" = a.
Proof. induction a as [|x a IH]; cbn; [reflexivity | now rewrite IH]. Qed.

Lemma prefix_append (p s : string) :
  String.prefix p s = true <-> exists t, s = String.append p t.
Proof.
  revert s. induction p as [|a p IH]; intros s.
  - split; [intros _; exists s; reflexivity | intros _; destruct s; reflexivity].
  - destruct s as [|b s]; cbn.
    + split; [discriminate | intros [t H]; discriminate].
    + destruct (ascii_dec a b) as [->|Hab].
      * rewrite IH. split; intros [t H]; exists t.
        -- now rewrite H.
        -- now inversion H.
      * split; [discriminate|]. intros [t H]. congruence.
Qed.

(** [p in s] holds exactly when [s] is [a + p + b] for some [a] and [b]. *)
Lemma contains_append (p s : string) :
  Text.contains p s = true
  <-> exists a b, s = String.append a (String.append p b).
Proof.
  split.
  - induction s as [|c s IH]; cbn [Text.contains]; intros H;
      apply orb_true_iff in H; destruct H as [H|H].
    + apply prefix_append in H. destruct H as [t H]. exists "", t. exact H.
    + discriminate.
    + apply prefix_append in H. destruct H as [t H]. exists "", t. exact H.
    + destruct (IH H) as (a & b & ->). exists (String c a), b. reflexivity.
  - intros (a & b & ->). induction a as [|c a IH].
    + cbn [String.append].
      assert (Hp : String.prefix p (String.append p b) = true)
        by (apply prefix_append; exists b; reflexivity).
      destruct (String.append p b); cbn [Text.contains]; rewrite Hp; reflexivity.
    + cbn [String.append Text.contains]. rewrite IH. apply orb_true_r.
Qed.

Lemma contains_trans (a b m : string) :
  Text.contains a b = true -> Text.contains b m = true ->
  Text.contains a m = true.
Proof.
  intros Hab Hbm.
  apply contains_append in Hab. destruct Hab as (x & y & ->).
  apply contains_append in Hbm. destruct Hbm as (u & v & ->).
  apply contains_append. exists (String.append u x), (String.append y v).
  now rewrite !append_assoc.
Qed.

(** ** Which suggestion a message selects *)

(** X1.  The scan returns the first suggestion whose name the message
    mentions: when an earlier suggestion's name is part of the name the
    user typed, it is the earlier suggestion that is chosen. *)
Theorem earlier_suggestion_shadows :
  forall (before after : list Suggestion) (a : Suggestion)
         (short long message : string),
    name a = Some short ->
    short <> "" ->
    Text.contains (Text.lower short) (Text.lower long) = true ->
    Text.contains (Text.lower long) (Text.lower message) = true ->
    Optimizer.match_suggestion before (Text.lower message) = None ->
    Optimizer.extract_choice (before ++ a :: after) message = Some short.
Proof.
  intros before after a short long message Ha Hs Hsl Hlm Hb.
  unfold Optimizer.extract_choice.
  assert (H : Optimizer.match_suggestion (before ++ a :: after)
                (Text.lower message) = Some short).
  { induction before as [|x before IH]; cbn in *.
    - rewrite Ha, (str_truthy_true Hs), (contains_trans _ _ _ Hsl Hlm).
      reflexivity.
    - destruct (name x) as [t|]; [|auto].
      destruct (str_truthy t && _); [discriminate | auto]. }
  now rewrite H.
Qed.

Lemma earlier_suggestion_shadows_witness :
  Optimizer.match_suggestion [] (Text.lower "I'd like the Hack Squat") = None
  /\ Optimizer.extract_choice
       ([] ++ mkSuggestion (Some "Squat") (Some "tpl-squat") (Some "Quadriceps")
           :: [mkSuggestion (Some "Hack Squat") (Some "tpl-hack")
                 (Some "Quadriceps")])
       "I'd like the Hack Squat" = Some "Squat".
Proof.
  split; [reflexivity|].
  apply (@earlier_suggestion_shadows [] _ _ "Squat" "Hack Squat");
    [reflexivity | discriminate | reflexivity | reflexivity | reflexivity].
Defined.

(** ** Candidates come from the cache *)

Lemma potential_swaps_from_cache exercise muscle cache (s : Suggestion) :
  In s (Optimizer.potential_swaps exercise muscle cache) ->
  exists t,
    In t cache /\ title t = name s /\ id t = sugg_id s
    /\ primary_muscle_group t = muscles s
    /\ muscles s = muscle
    /\ name s <> Some exercise.
Proof.
  unfold Optimizer.potential_swaps. intros H.
  apply in_map_iff in H. destruct H as (t & <- & Ht).
  apply filter_In in Ht. destruct Ht as [Hin Hf].
  unfold Optimizer.same_muscle_alternative in Hf.
  apply andb_true_iff in Hf. destruct Hf as [Hm Hn].
  exists t. cbn. repeat split; auto.
  - unfold opt_eq in Hm.
    destruct (primary_muscle_group t) as [x|], muscle as [y|];
      try discriminate; [|reflexivity].
    apply String.eqb_eq in Hm. now subst.
  - intros E. rewrite E in Hn. cbn in Hn. rewrite String.eqb_refl in Hn.
    discriminate.
Qed.

Lemma in_firstn (A : Type) (n : nat) (l : list A) (x : A) :
  In x (firstn n l) -> In x l.
Proof.
  revert l. induction n as [|n IH]; intros l; destruct l as [|y l]; cbn;
    try contradiction.
  intros [->|H]; [now left | right; auto].
Qed.

Lemma find_template_titled (t : ExerciseTemplate) (s : string)
    (cache : list ExerciseTemplate) :
  In t cache -> title t = Some s ->
  exists t', Optimizer.find_template s cache = Some t' /\ title t' = Some s.
Proof.
  intros Hin Ht. induction cache as [|x cache IH]; [contradiction|]. cbn.
  destruct (opt_eq_str (title x) s) eqn:E.
  - exists x. split; [reflexivity|]. unfold opt_eq_str in E.
    destruct (title x); [|discriminate]. apply String.eqb_eq in E. now subst.
  - destruct Hin as [->|Hin]; [|auto].
    rewrite Ht in E. cbn in E. rewrite String.eqb_refl in E. discriminate.
Qed.

(** X2.  A name the user picks from the candidates of a proposal is the title
    of a template of the cache they were drawn from: the lookup of the
    implementation finds it (the first template of that title, which need
    not be the one the candidate was copied from). *)
Theorem chosen_suggestion_is_cached :
  forall exercise muscle cache n message s,
    Optimizer.match_suggestion
      (firstn n (Optimizer.potential_swaps exercise muscle cache))
      (Text.lower message) = Some s ->
    exists t,
      Optimizer.find_template s cache = Some t
      /\ title t = Some s
      /\ s <> exercise.
Proof.
  intros exercise muscle cache n message s H.
  apply match_suggestion_mentions in H.
  destruct H as (sugg & Hin & Hn & _ & _).
  apply in_firstn, potential_swaps_from_cache in Hin.
  destruct Hin as (t & Hc & Ht & _ & _ & _ & Hne).
  rewrite Hn in Ht.
  destruct (find_template_titled _ _ Hc Ht) as (t' & Hf & Ht').
  exists t'. repeat split; auto. intros ->. now apply Hne.
Qed.

Lemma chosen_suggestion_is_cached_witness :
  Optimizer.match_suggestion
    (firstn 5 (Optimizer.potential_swaps "Bench Press" (Some "Chest")
                 Scenario.cache))
    (Text.lower Scenario.choice) = Some "Incline Press"
  /\ exists t,
       Optimizer.find_template "Incline Press" Scenario.cache = Some t
       /\ title t = Some "Incline Press"
       /\ "Incline Press" <> "Bench Press".
Proof.
  split; [reflexivity|].
  apply (@chosen_suggestion_is_cached "Bench Press" (Some "Chest")
           Scenario.cache 5 Scenario.choice "Incline Press").
  reflexivity.
Defined.

(** ** What is pending between two turns *)

Section Invariant.
Variable W : World.

Lemma completion_keeps_pending (m : text) (st : Process) :
  pending_swap_context (snd (Optimizer.get_chat_response W m st))
  = pending_swap_context st.
Proof. rewrite get_chat_response_run. destruct (completion W _ _); reflexivity. Qed.

Lemma completion_writes_nothing (m : text) (st : Process) :
  writes (trace (snd (Optimizer.get_chat_response W m st))) = writes (trace st).
Proof.
  rewrite get_chat_response_run.
  destruct (completion W _ _); cbn; rewrite writes_app; cbn; apply app_nil_r.
Qed.

(** The implement handler leaves the pending context as it was (when it asks
    for the choice again) or cleared. *)
Lemma implementation_pending (message : string) (st : Process) :
  pending_swap_context
    (snd (Optimizer.handle_suggestion_implement W message st)) = None
  \/ pending_swap_context
       (snd (Optimizer.handle_suggestion_implement W message st))
     = pending_swap_context st
     /\ writes (trace (snd (Optimizer.handle_suggestion_implement W message st)))
        = writes (trace st).
Proof.
  remember (Optimizer.handle_suggestion_implement W message st) as res eqn:Hres.
  revert Hres. unfold Optimizer.handle_suggestion_implement.
  unfold bind at 1, get_state at 1.
  destruct (pending_swap_context st) as [p|] eqn:Hp.
  - destruct (String.eqb (type_ p) "EXERCISE_SWAP"); cbn [negb].
    + destruct (Optimizer.extract_choice (suggestions p) message) as [chosen|].
      * destruct (negb _); intros ->.
        -- left. unfold bind, set_pending. rewrite get_chat_response_run.
           cbn. destruct (completion W _ _); reflexivity.
        -- left. apply implement_attempt_clears.
      * intros ->. right.
        rewrite completion_keeps_pending, completion_writes_nothing.
        split; [exact Hp | reflexivity].
    + intros ->. left. unfold bind, set_pending. rewrite get_chat_response_run.
      cbn. destruct (completion W _ _); reflexivity.
  - intros ->. left. unfold bind, set_pending. rewrite get_chat_response_run.
    cbn. destruct (completion W _ _); reflexivity.
Qed.

Lemma swaps_well_formed exercise muscle cache rid rname snapshot shown :
  str_truthy exercise = true ->
  opt_truthy muscle = true ->
  Optimizer.potential_swaps exercise muscle cache <> [] ->
  shown = firstn Optimizer.max_suggestions
            (Optimizer.potential_swaps exercise muscle cache) ->
  well_formed_pending
    (mkPending "EXERCISE_SWAP" rid rname exercise shown snapshot).
Proof.
  intros He Hm Hs ->. unfold well_formed_pending;
    cbn [type_ exercise_to_swap_title suggestions].
  split; [reflexivity|]. split.
  { intros ->. discriminate. }
  split.
  { destruct (Optimizer.potential_swaps exercise muscle cache);
      [contradiction | cbn; discriminate]. }
  split.
  { rewrite length_firstn. apply Nat.le_min_l. }
  split.
  - destruct muscle as [m|]; [|discriminate]. exists m. split.
    + intros ->. discriminate.
    + apply Forall_forall. intros s Hin.
      apply in_firstn, potential_swaps_from_cache in Hin.
      destruct Hin as (_ & _ & _ & _ & _ & H & _). exact H.
  - apply Forall_forall. intros s Hin.
    apply in_firstn, potential_swaps_from_cache in Hin.
    destruct Hin as (_ & _ & _ & _ & _ & _ & H). exact H.
Qed.

(** X3.  Every pending context [get_modification_response] leaves behind is
    well formed, provided the one it found was: an exercise swap for a named
    exercise with one to five candidates, all of one named muscle group and
    none of them the exercise to replace. *)
Theorem stored_proposal_is_well_formed :
  forall message intent context st,
    (forall p, pending_swap_context st = Some p -> well_formed_pending p) ->
    forall p',
      pending_swap_context
        (snd (Optimizer.get_modification_response W message intent context st))
      = Some p' ->
      well_formed_pending p'.
Proof.
  intros message intent context st Hinv p'.
  unfold Optimizer.get_modification_response.
  destruct (String.eqb intent "EXERCISE_SWAP").
  - run_swap; repeat split_swap; intros H;
      try (apply Hinv; exact H); try discriminate;
      inversion H; subst;
      match goal with
      | Hs : Optimizer.potential_swaps ?e ?m ?c = _ :: _ |- _ =>
          apply (@swaps_well_formed e m c);
            [assumption | assumption | rewrite Hs; discriminate
            | rewrite Hs; reflexivity]
      end.
  - destruct (String.eqb intent "SUGGESTION_IMPLEMENT").
    + destruct (implementation_pending message st) as [E|[E _]];
        rewrite E; [discriminate | apply Hinv].
    + rewrite completion_keeps_pending. apply Hinv.
Qed.

(** X4.  A proposal that reaches its completion call and gets an answer
    replaces whatever was pending: what it leaves pending does not depend on
    what it found pending. *)
Theorem proposal_replaces_pending :
  forall context st q exercise r,
    exercise_name context = Some exercise ->
    exercise <> "" ->
    Optimizer.cache_is_empty (_cached_templates st) = false ->
    fst (Optimizer.handle_exercise_swap W context st) = Ok r ->
    fst (Optimizer.handle_exercise_swap W context (with_pending q st)) = Ok r
    /\ pending_swap_context
         (snd (Optimizer.handle_exercise_swap W context (with_pending q st)))
       = pending_swap_context (snd (Optimizer.handle_exercise_swap W context st)).
Proof.
  intros context st q exercise r Hn He Hc.
  unfold with_pending.
  run_swap. rewrite Hn. cbn. rewrite (str_truthy_true He). cbn.
  rewrite Hc. cbn.
  repeat split_swap; intros H; inversion H; subst; split; reflexivity.
Qed.

(** X5.  Whatever follows a stored proposal, the implement handler writes to
    the routine at most once: any number of implement messages adds at most
    one routine update to the calls made. *)
Theorem one_write_per_proposal :
  forall messages st,
    length (writes (trace (after_implements W messages st)))
    <= length (writes (trace st)) + 1.
Proof.
  assert (Hnone : forall messages st,
             pending_swap_context st = None ->
             writes (trace (after_implements W messages st)) = writes (trace st)).
  { induction messages as [|m messages IH]; intros st Hp; [reflexivity|].
    change (after_implements W (m :: messages) st)
      with (after_implements W messages
              (snd (Optimizer.handle_suggestion_implement W m st))).
    rewrite IH.
    - rewrite (implement_without_pending W m st Hp).
      apply completion_writes_nothing.
    - rewrite (implement_without_pending W m st Hp), completion_keeps_pending.
      exact Hp. }
  assert (Hstep : forall m st,
             length (writes (trace (snd (Optimizer.handle_suggestion_implement
                                            W m st))))
             <= length (writes (trace st)) + 1).
  { intros m st. unfold Optimizer.handle_suggestion_implement.
    unfold bind at 1, get_state at 1.
    destruct (pending_swap_context st) as [p|] eqn:Hp.
    - destruct (String.eqb (type_ p) "EXERCISE_SWAP"); cbn [negb].
      + destruct (Optimizer.extract_choice (suggestions p) m) as [chosen|].
        * destruct (negb _).
          -- unfold bind, set_pending. rewrite get_chat_response_run.
             cbn. destruct (completion W _ _); cbn; rewrite writes_app; cbn;
               rewrite app_nil_r; lia.
          -- run_attempt.
             repeat split_cond; try impossible_scan;
               repeat rewrite writes_app; cbn;
               repeat rewrite length_app; cbn; lia.
        * cbn beta iota. rewrite completion_writes_nothing. lia.
      + unfold bind, set_pending. rewrite get_chat_response_run.
        cbn. destruct (completion W _ _); cbn; rewrite writes_app; cbn;
          rewrite app_nil_r; lia.
    - unfold bind, set_pending. rewrite get_chat_response_run.
      cbn. destruct (completion W _ _); cbn; rewrite writes_app; cbn;
        rewrite app_nil_r; lia. }
  induction messages as [|m messages IH]; intros st; [cbn; lia|].
  change (after_implements W (m :: messages) st)
    with (after_implements W messages
            (snd (Optimizer.handle_suggestion_implement W m st))).
  destruct (implementation_pending m st) as [E|[E Ew]].
  - rewrite (Hnone _ _ E). apply Hstep.
  - specialize (IH (snd (Optimizer.handle_suggestion_implement W m st))).
    rewrite Ew in IH. exact IH.
Qed.

End Invariant.

Lemma stored_proposal_is_well_formed_witness :
  well_formed_pending Scenario.proposal.
Proof.
  apply (@stored_proposal_is_well_formed Scenario.world Scenario.swap_request
           "EXERCISE_SWAP" Scenario.bench_in_push_day Scenario.started).
  - intros p H. discriminate H.
  - reflexivity.
Defined.

Lemma proposal_replaces_pending_witness :
  exercise_name Scenario.bench_in_push_day = Some "Bench Press"
  /\ Optimizer.cache_is_empty (_cached_templates Scenario.started) = false
  /\ fst (Optimizer.handle_exercise_swap Scenario.world
            Scenario.bench_in_push_day Scenario.started) = Ok "Done."
  /\ pending_swap_context
       (snd (Optimizer.handle_exercise_swap Scenario.world
               Scenario.bench_in_push_day
               (with_pending (Some Scenario.stale_proposal) Scenario.started)))
     = pending_swap_context
         (snd (Optimizer.handle_exercise_swap Scenario.world
                 Scenario.bench_in_push_day Scenario.started)).
Proof.
  do 3 (split; [reflexivity|]).
  apply (@proposal_replaces_pending Scenario.world Scenario.bench_in_push_day
           Scenario.started (Some Scenario.stale_proposal) "Bench Press" "Done.");
    [reflexivity | discriminate | reflexivity | reflexivity].
Defined.

(** ** The router around the handlers *)

Section Router.
Variable W : World.

Ltac run_resolve :=
  unfold Chat.resolve_intent, Chat.classification_flow, Chat.classify,
    Chat.relevant_context, Optimizer.get_conversation_history,
    bind, get_state, set_pending, emit, ret; cbn.

(** X6.  When the head of a turn settles on any intent other than
    [SUGGESTION_IMPLEMENT], nothing is pending any more: the information,
    analysis and proposal handlers always start without a pending swap. *)
Theorem only_implement_turns_keep_pending :
  forall message st i c st',
    Chat.resolve_intent W message st = (Ok (i, c), st') ->
    i <> "SUGGESTION_IMPLEMENT" ->
    pending_swap_context st' = None.
Proof.
  intros message st i c st'. run_resolve.
  destruct (pending_swap_context st) as [p|] eqn:Hp;
    [destruct (String.eqb (type_ p) "EXERCISE_SWAP");
     [destruct (Optimizer.extract_choice (suggestions p) message) as [chosen|];
      [destruct (str_truthy chosen)|]|]|];
    cbn;
    try (intros H; inversion H; subst; congruence);
    destruct (String.eqb (classify_intent W (trace st) message
                            (conversation_history st))
                         "SUGGESTION_IMPLEMENT") eqn:E;
    cbn; try rewrite Hp; cbn;
    intros H Hi; inversion H; subst; try reflexivity;
    apply String.eqb_eq in E; contradiction.
Qed.

(** X7.  A swap can be applied and still be answered with an error.  When the
    routine update succeeds and the completion call that should confirm it
    fails, the chat endpoint answers HTTP 500; the routine has been written,
    the pending context is cleared, and the conversation history holds no
    line of the turn. *)
Theorem applied_swap_can_answer_500 :
  forall message st p chosen cache t tid exercises ack,
    pending_swap_context st = Some p ->
    type_ p = "EXERCISE_SWAP" ->
    Optimizer.extract_choice (suggestions p) message = Some chosen ->
    validated p chosen = true ->
    _cached_templates st = Some cache ->
    Optimizer.find_template chosen cache = Some t ->
    id t = Some tid ->
    tid <> "" ->
    current_exercises p = VList (map VDict exercises) ->
    existsb (titled (exercise_to_swap_title p)) exercises = true ->
    let routine :=
      [("title", routine_name p);
       ("exercises",
        VList (swapped (exercise_to_swap_title p) chosen tid exercises))] in
    http_put_routine W (trace st) (routine_id p) routine = Some ack ->
    completion W (trace st ++ [EvUpdateRoutine (routine_id p) routine])
      (messages_for st
         (Built (PromptImplDone (routine_name p)
                   (exercise_to_swap_title p) chosen))) = None ->
    exists st',
      Chat.workout_chat W message st = (Ok (Chat.HTTPException 500%Z), st')
      /\ writes (trace st')
         = writes (trace st) ++ [EvUpdateRoutine (routine_id p) routine]
      /\ pending_swap_context st' = None
      /\ conversation_history st' = conversation_history st.
Proof.
  intros message st p chosen cache t tid exercises ack
    Hp Ht Hx Hv Hcache Hfind Hid Htid Hsnap Hhas routine Hput Hcomp.
  assert (Hchosen : str_truthy chosen = true).
  { unfold validated in Hv. apply andb_true_iff in Hv. apply Hv. }
  assert (Hres :
    Chat.resolve_intent W message st
    = (Ok ("SUGGESTION_IMPLEMENT", Chat.pending_context_for p chosen), st)).
  { unfold Chat.resolve_intent. unfold bind at 1, get_state at 1.
    rewrite Hp, Ht. cbn. rewrite Hx, Hchosen. reflexivity. }
  assert (Hne : Optimizer.cache_is_empty (Some cache) = false).
  { destruct cache; [discriminate | reflexivity]. }
  unfold Chat.workout_chat, try_except. unfold bind at 1. rewrite Hres.
  cbn [fst snd]. unfold Chat.route. cbn [String.eqb Ascii.eqb Bool.eqb].
  unfold bind at 1. unfold bind at 1.
  unfold Optimizer.get_modification_response. cbn [String.eqb Ascii.eqb Bool.eqb].
  rewrite (implement_enters_attempt W message st Hp Ht Hx Hv).
  unfold routine in *. unfold messages_for in Hcomp. run_attempt.
  rewrite Hcache, Hne. cbn. rewrite Hfind. rewrite Hid. cbn.
  rewrite (str_truthy_true Htid). cbn. rewrite Hsnap. cbn.
  rewrite rebuild_of_dicts, Hhas. cbn.
  rewrite Hput. cbn. rewrite Hcomp. cbn.
  eexists. split; [reflexivity|]. cbn.
  repeat split.
  repeat rewrite writes_app; cbn; repeat rewrite app_nil_r; reflexivity.
Qed.

(** X8.  A turn the classifier files under no handler (a greeting, an unknown
    request, or a label outside the catalog) is answered by the router
    itself: with nothing pending, the only calls made are the classification
    and the context lookup -- no completion call, no request to the fitness
    API -- the cache and the pending context are untouched, and the history
    grows by exactly the turn. *)
Theorem canned_replies_are_local :
  forall message st,
    pending_swap_context st = None ->
    let i := classify_intent W (trace st) message (conversation_history st) in
    Chat.mem i Chat.info_intents = false ->
    Chat.mem i Chat.analysis_intents = false ->
    Chat.mem i Chat.modification_intents = false ->
    exists r st',
      Chat.workout_chat W message st = (Ok (Chat.Served r), st')
      /\ r = (if String.eqb i "GREETING" then Chat.mkResponse Chat.greeting_reply i
              else if String.eqb i "UNKNOWN" then Chat.mkResponse Chat.unknown_reply i
              else Chat.mkResponse Chat.fallback_reply "UNKNOWN")
      /\ conversation_history st'
         = conversation_history st ++ recorded message (Chat.response r)
      /\ trace st'
         = trace st ++ [EvClassify message (conversation_history st);
                        EvContext i message]
      /\ pending_swap_context st' = None
      /\ _cached_templates st' = _cached_templates st.
Proof.
  intros message st Hp i Hinfo Hana Hmod.
  assert (Hsi : String.eqb i "SUGGESTION_IMPLEMENT" = false).
  { destruct (String.eqb i "SUGGESTION_IMPLEMENT") eqn:E; [|reflexivity].
    unfold Chat.mem, Chat.modification_intents in Hmod. cbn [existsb] in Hmod.
    rewrite E in Hmod. repeat rewrite orb_true_r in Hmod. discriminate. }
  unfold Chat.workout_chat, try_except. run_resolve. rewrite Hp. cbn.
  fold i. rewrite Hsi. cbn. rewrite Hp. cbn.
  unfold Chat.route, Chat.record_turn, bind, get_state, set_history, ret.
  rewrite Hsi, Hinfo, Hana, Hmod. unfold recorded.
  destruct (String.eqb i "GREETING"); [|destruct (String.eqb i "UNKNOWN")];
    cbn; do 2 eexists; (split; [reflexivity|]); cbn;
    (split; [reflexivity|]);
    (split; [destruct (str_truthy message); cbn;
             rewrite <- ?app_assoc; reflexivity|]);
    (split; [rewrite <- app_assoc; reflexivity|]);
    split; reflexivity.
Qed.

End Router.

Lemma only_implement_turns_keep_pending_witness :
  pending_swap_context Scenario.proposed = Some Scenario.proposal
  /\ pending_swap_context
       (snd (Chat.resolve_intent Scenario.world "what's the weather"
               Scenario.proposed)) = None.
Proof.
  split; [reflexivity|].
  apply (@only_implement_turns_keep_pending Scenario.world "what's the weather"
           Scenario.proposed "UNKNOWN" empty_context);
    [reflexivity | discriminate].
Defined.


Lemma applied_swap_can_answer_500_witness :
  pending_swap_context Scenario.proposed = Some Scenario.proposal
  /\ http_put_routine Scenario.mute_world [] (VStr "routine-1") [] = Some VNone
  /\ exists st',
       Chat.workout_chat Scenario.mute_world Scenario.choice Scenario.proposed
       = (Ok (Chat.HTTPException 500%Z), st')
       /\ writes (trace st')
          = writes (trace Scenario.proposed)
            ++ [EvUpdateRoutine (routine_id Scenario.proposal)
                  [("title", routine_name Scenario.proposal);
                   ("exercises",
                    VList (swapped "Bench Press" "Incline Press" "tpl-incline"
                             [ [("index", VInt 0); ("title", VStr "Bench Press");
                                ("exercise_template_id", VStr "tpl-bench");
                                ("sets", VList [Scenario.a_set])];
                               [("index", VInt 1); ("title", VStr "Dips");
                                ("exercise_template_id", VStr "tpl-dips");
                                ("sets",
                                 VList [Scenario.a_set; Scenario.a_set])] ]))]]
       /\ pending_swap_context st' = None
       /\ conversation_history st' = conversation_history Scenario.proposed.
Proof.
  do 2 (split; [reflexivity|]).
  apply (@applied_swap_can_answer_500 Scenario.mute_world Scenario.choice
           Scenario.proposed Scenario.proposal "Incline Press" Scenario.cache
           Scenario.incline_press "tpl-incline"
           [ [("index", VInt 0); ("title", VStr "Bench Press");
              ("exercise_template_id", VStr "tpl-bench");
              ("sets", VList [Scenario.a_set])];
             [("index", VInt 1); ("title", VStr "Dips");
              ("exercise_template_id", VStr "tpl-dips");
              ("sets", VList [Scenario.a_set; Scenario.a_set])] ]
           VNone);
    first [reflexivity | discriminate].
Defined.

Lemma canned_replies_are_local_witness :
  pending_swap_context Scenario.started = None
  /\ classify_intent Scenario.world [] "hello" [] = "UNKNOWN"
  /\ exists r st',
       Chat.workout_chat Scenario.world "hello" Scenario.started
       = (Ok (Chat.Served r), st')
       /\ r = Chat.mkResponse Chat.unknown_reply "UNKNOWN"
       /\ conversation_history st'
          = conversation_history Scenario.started
            ++ recorded "hello" (Chat.response r)
       /\ trace st'
          = trace Scenario.started
            ++ [EvClassify "hello" []; EvContext "UNKNOWN" "hello"]
       /\ pending_swap_context st' = None
       /\ _cached_templates st' = _cached_templates Scenario.started.
Proof.
  do 2 (split; [reflexivity|]).
  apply (@canned_replies_are_local Scenario.world "hello" Scenario.started);
    reflexivity.
Defined.

(** * Further properties of the resource client *)

(** ** Looking a routine up across the pages *)

Lemma first_with_dicts (key : string) (v : pyval) (ds : list pydict) :
  HevyAPI.first_with key v (map VDict ds)
  = Ok (find (fun d => py_eq (dict_get key d) v) ds).
Proof.
  induction ds as [|d ds IH]; cbn; [reflexivity|].
  destruct (py_eq (dict_get key d) v); [reflexivity | exact IH].
Qed.

Lemma select_with_dicts (key : string) (v : pyval) (ds : list pydict) :
  HevyAPI.select_with key v (map VDict ds)
  = Ok (map VDict (filter (fun d => py_eq (dict_get key d) v) ds)).
Proof.
  induction ds as [|d ds IH]; cbn; [reflexivity|]. rewrite IH.
  destruct (py_eq (dict_get key d) v); reflexivity.
Qed.

Lemma find_app (A : Type) (f : A -> bool) (l m : list A) :
  find f (l ++ m) = match find f l with Some x => Some x | None => find f m end.
Proof.
  induction l as [|x l IH]; cbn; [reflexivity|].
  destruct (f x); [reflexivity | exact IH].
Qed.

Section Lookup.
Variable W : World.
Variable routine_pages : list (list pydict).
Hypothesis Hserve : serves_routines W (map (map VDict) routine_pages).
Hypothesis Hfull : Forall (fun page => page <> []) routine_pages.

Let pages := map (map VDict) routine_pages.

Lemma nth_routine_page (k : nat) :
  nth k pages [] = map VDict (nth k routine_pages []).
Proof.
  unfold pages. change (@nil pyval) with (map VDict []).
  apply map_nth.
Qed.

Lemma routine_page_not_empty (k : nat) :
  k < length routine_pages -> nth k routine_pages [] <> [].
Proof.
  intros Hk. rewrite Forall_forall in Hfull. apply Hfull, nth_In, Hk.
Qed.

Lemma find_routine_by_title_loop_finds (fuel k : nat) (t : pyval) (st : Process) :
  k < length routine_pages ->
  length routine_pages - k <= fuel ->
  fst (HevyAPI.find_routine_by_title_loop W fuel t (Z.of_nat (S k)) st)
  = Ok (find (fun d => py_eq (dict_get "title" d) t)
             (concat (skipn k routine_pages))).
Proof.
  revert k st. induction fuel as [|fuel IH]; intros k st Hk Hfuel; [lia|].
  assert (Hlen : length pages = length routine_pages) by apply length_map.
  assert (Hk' : k < length pages) by (rewrite Hlen; exact Hk).
  cbn [HevyAPI.find_routine_by_title_loop]. unfold bind at 1.
  destruct (get_routines_page Hserve st Hk') as (st1 & Hpage). rewrite Hpage.
  cbn [HevyAPI.data HevyAPI.has_more]. fold pages. rewrite nth_routine_page.
  pose proof (routine_page_not_empty Hk) as Hne.
  rewrite (skipn_nth [] routine_pages Hk). cbn [concat]. rewrite find_app.
  destruct (nth k routine_pages []) as [|d ds] eqn:Hnth; [contradiction|].
  cbn [map truthy negb HevyAPI.py_iter]. unfold bind at 1, lift at 1.
  change (VDict d :: map VDict ds) with (map VDict (d :: ds)).
  unfold bind at 1, lift at 1. rewrite first_with_dicts.
  destruct (find _ (d :: ds)) as [found|]; [reflexivity|].
  rewrite Hlen.
  match goal with
  | |- context [Z.ltb ?a ?b] => destruct (Z.ltb_spec a b) as [Hlt|Hge]
  end; cbn [negb].
  - replace (Z.of_nat (S k) + 1)%Z with (Z.of_nat (S (S k))) by lia.
    apply IH; lia.
  - rewrite (skipn_all2 routine_pages) by lia. reflexivity.
Qed.

(** X9.  On a source that serves the routines in non-empty pages,
    [find_routine_by_title] returns the first routine, in page order, whose
    title equals the one asked for, and [None] when there is none: it
    neither raises nor runs out of rounds once it has one round per page. *)
Theorem find_routine_by_title_finds_the_first :
  forall (fuel : nat) (t : pyval) (st : Process),
    routine_pages <> [] ->
    length routine_pages <= fuel ->
    fst (HevyAPI.find_routine_by_title W fuel t st)
    = Ok (find (fun d => py_eq (dict_get "title" d) t) (concat routine_pages)).
Proof.
  intros fuel t st Hne Hfuel. unfold HevyAPI.find_routine_by_title.
  change 1%Z with (Z.of_nat 1).
  rewrite find_routine_by_title_loop_finds.
  - reflexivity.
  - destruct routine_pages; [contradiction | cbn; lia].
  - lia.
Qed.

Lemma get_routines_in_folder_loop_filters (fuel k : nat) (fid : pyval)
    (acc : list pyval) (st : Process) :
  k < length routine_pages ->
  length routine_pages - k <= fuel ->
  fst (HevyAPI.get_routines_in_folder_loop W fuel fid acc (Z.of_nat (S k)) st)
  = Ok (acc ++ map VDict
          (filter (fun d => py_eq (dict_get "folder_id" d) fid)
                  (concat (skipn k routine_pages)))).
Proof.
  revert k acc st. induction fuel as [|fuel IH]; intros k acc st Hk Hfuel; [lia|].
  assert (Hlen : length pages = length routine_pages) by apply length_map.
  assert (Hk' : k < length pages) by (rewrite Hlen; exact Hk).
  cbn [HevyAPI.get_routines_in_folder_loop]. unfold bind at 1.
  destruct (get_routines_page Hserve st Hk') as (st1 & Hpage). rewrite Hpage.
  cbn [HevyAPI.data HevyAPI.has_more]. fold pages. rewrite nth_routine_page.
  pose proof (routine_page_not_empty Hk) as Hne.
  rewrite (skipn_nth [] routine_pages Hk). cbn [concat].
  rewrite filter_app, map_app.
  destruct (nth k routine_pages []) as [|d ds] eqn:Hnth; [contradiction|].
  cbn [map truthy negb HevyAPI.py_iter]. unfold bind at 1, lift at 1.
  change (VDict d :: map VDict ds) with (map VDict (d :: ds)).
  unfold bind at 1, lift at 1. rewrite select_with_dicts.
  rewrite Hlen.
  match goal with
  | |- context [Z.ltb ?a ?b] => destruct (Z.ltb_spec a b) as [Hlt|Hge]
  end; cbn [negb].
  - replace (Z.of_nat (S k) + 1)%Z with (Z.of_nat (S (S k))) by lia.
    rewrite IH by lia. rewrite app_assoc. reflexivity.
  - rewrite (skipn_all2 routine_pages) by lia. cbn [concat filter map].
    rewrite app_nil_r. reflexivity.
Qed.

(** X10.  On such a source [get_routines_in_folder] returns exactly the
    routines whose [folder_id] equals the given id, in page order. *)
Theorem get_routines_in_folder_is_a_filter :
  forall (fuel : nat) (fid : pyval) (st : Process),
    routine_pages <> [] ->
    length routine_pages <= fuel ->
    fst (HevyAPI.get_routines_in_folder W fuel fid st)
    = Ok (map VDict
            (filter (fun d => py_eq (dict_get "folder_id" d) fid)
                    (concat routine_pages))).
Proof.
  intros fuel fid st Hne Hfuel. unfold HevyAPI.get_routines_in_folder.
  change 1%Z with (Z.of_nat 1).
  rewrite get_routines_in_folder_loop_filters.
  - reflexivity.
  - destruct routine_pages; [contradiction | cbn; lia].
  - lia.
Qed.

End Lookup.

(** ** The current program *)

Lemma bind_ok (A B : Type) (m : M A) (k : A -> M B) (st st' : Process) (b : B) :
  bind m k st = (Ok b, st') ->
  exists a st1, m st = (Ok a, st1) /\ k a st1 = (Ok b, st').
Proof.
  unfold bind. destruct (m st) as [[a| |] st1]; try discriminate.
  intros H. exists a, st1. split; [reflexivity | exact H].
Qed.

Lemma lift_ok (A : Type) (o : outcome A) (st st' : Process) (a : A) :
  lift o st = (Ok a, st') -> o = Ok a /\ st' = st.
Proof. unfold lift. intros H. inversion H. split; reflexivity. Qed.

Lemma first_with_sound (key : string) (v : pyval) (items : list pyval)
    (d : pydict) :
  HevyAPI.first_with key v items = Ok (Some d) ->
  py_eq (dict_get key d) v = true /\ In (VDict d) items.
Proof.
  induction items as [|x items IH]; cbn; [discriminate|].
  destruct x as [| | | | |e]; try discriminate.
  destruct (py_eq (dict_get key e) v) eqn:E.
  - intros H. inversion H; subst. split; [exact E | now left].
  - intros H. destruct (IH H) as [H1 H2]. split; [exact H1 | now right].
Qed.

Lemma select_with_sound (key : string) (v : pyval) (items found : list pyval) :
  HevyAPI.select_with key v items = Ok found ->
  Forall (fun r => exists d, r = VDict d /\ In r items
                             /\ py_eq (dict_get key d) v = true) found.
Proof.
  revert found. induction items as [|x items IH]; cbn; intros found.
  - intros H. inversion H. constructor.
  - destruct x as [| | | | |e]; try discriminate.
    destruct (HevyAPI.select_with key v items) as [l| |]; try discriminate.
    specialize (IH l eq_refl).
    assert (IH' : Forall (fun r => exists d, r = VDict d
                            /\ In r (VDict e :: items)
                            /\ py_eq (dict_get key d) v = true) l).
    { eapply Forall_impl; [|exact IH]. cbn.
      intros r (d & Hr & Hin & Hd). exists d. auto. }
    destruct (py_eq (dict_get key e) v) eqn:E; intros H; inversion H; subst.
    + constructor; [|exact IH']. exists e. repeat split; auto; now left.
    + exact IH'.
Qed.

Section Program.
Variable W : World.

Lemma find_routine_by_title_sound (fuel : nat) (t : pyval) (page_no : Z)
    (st st' : Process) (d : pydict) :
  HevyAPI.find_routine_by_title_loop W fuel t page_no st = (Ok (Some d), st') ->
  py_eq (dict_get "title" d) t = true.
Proof.
  revert page_no st. induction fuel as [|fuel IH]; intros page_no st;
    cbn [HevyAPI.find_routine_by_title_loop]; [discriminate|].
  intros H. apply bind_ok in H. destruct H as (r & st1 & _ & H).
  destruct (negb (truthy (HevyAPI.data r))); [discriminate|].
  apply bind_ok in H. destruct H as (items & st2 & _ & H).
  apply bind_ok in H. destruct H as (found & st3 & Hf & H).
  apply lift_ok in Hf. destruct Hf as [Hf _].
  destruct found as [routine|].
  - inversion H; subst. now apply first_with_sound in Hf.
  - destruct (negb (HevyAPI.has_more r)); [discriminate|]. exact (IH _ _ H).
Qed.

Lemma find_routine_folder_by_id_sound (fuel : nat) (fid : pyval) (page_no : Z)
    (st st' : Process) (d : pydict) :
  HevyAPI.find_routine_folder_by_id_loop W fuel fid page_no st
  = (Ok (Some d), st') ->
  py_eq (dict_get "id" d) fid = true.
Proof.
  revert page_no st. induction fuel as [|fuel IH]; intros page_no st;
    cbn [HevyAPI.find_routine_folder_by_id_loop]; [discriminate|].
  intros H. apply bind_ok in H. destruct H as (r & st1 & _ & H).
  destruct (negb (truthy (HevyAPI.data r))); [discriminate|].
  apply bind_ok in H. destruct H as (items & st2 & _ & H).
  apply bind_ok in H. destruct H as (found & st3 & Hf & H).
  apply lift_ok in Hf. destruct Hf as [Hf _].
  destruct found as [found|].
  - inversion H; subst. now apply first_with_sound in Hf.
  - apply bind_ok in H. destruct H as (n & st4 & _ & H).
    apply bind_ok in H. destruct H as (l & st5 & _ & H).
    destruct (n <? l)%Z; [discriminate|]. exact (IH _ _ H).
Qed.

Lemma get_routines_in_folder_sound (fuel : nat) (fid : pyval)
    (acc : list pyval) (page_no : Z) (st st' : Process) (found : list pyval) :
  Forall (in_folder fid) acc ->
  HevyAPI.get_routines_in_folder_loop W fuel fid acc page_no st
  = (Ok found, st') ->
  Forall (in_folder fid) found.
Proof.
  revert acc page_no st. induction fuel as [|fuel IH]; intros acc page_no st Hacc;
    cbn [HevyAPI.get_routines_in_folder_loop]; [discriminate|].
  intros H. apply bind_ok in H. destruct H as (r & st1 & _ & H).
  destruct (negb (truthy (HevyAPI.data r))).
  { inversion H; subst. exact Hacc. }
  apply bind_ok in H. destruct H as (items & st2 & _ & H).
  apply bind_ok in H. destruct H as (sel & st3 & Hs & H).
  apply lift_ok in Hs. destruct Hs as [Hs _].
  assert (Hacc' : Forall (in_folder fid) (acc ++ sel)).
  { apply Forall_app. split; [exact Hacc|].
    apply select_with_sound in Hs. eapply Forall_impl; [|exact Hs].
    intros x (d & Hx & _ & Hd). exists d. auto. }
  destruct (negb (HevyAPI.has_more r)).
  - inversion H; subst. exact Hacc'.
  - exact (IH _ _ _ Hacc' H).
Qed.

(** X11.  [get_current_program_details] never raises, whatever the remote API
    answers; and a program it returns hangs together: the current routine
    has a [folder_id], the folder's [id] equals it, and every routine listed
    is a dict whose [folder_id] equals it. *)
Theorem current_program_is_consistent :
  forall (fuel : nat) (st : Process),
    (forall e, fst (HevyAPI.get_current_program_details W fuel st) <> Raise e)
    /\ (forall details,
          fst (HevyAPI.get_current_program_details W fuel st) = Ok (Some details) ->
          let folder_id :=
            dict_get "folder_id" (HevyAPI.current_routine details) in
          truthy folder_id = true
          /\ py_eq (dict_get "id" (HevyAPI.folder details)) folder_id = true
          /\ Forall (in_folder folder_id) (HevyAPI.routines details)).
Proof.
  intros fuel st. unfold HevyAPI.get_current_program_details, try_except.
  match goal with
  | |- context [match ?m st with _ => _ end] =>
      destruct (m st) as [[o|e|] st1] eqn:Hrun
  end; cbn [fst].
  2: { split; [intros e'; unfold ret; cbn; discriminate|].
       unfold ret; cbn; discriminate. }
  2: { split; [intros e'; discriminate | discriminate]. }
  split; [intros e; discriminate|].
  intros details Ho. inversion Ho; subst o. clear Ho.
  apply bind_ok in Hrun. destruct Hrun as (wr & s1 & _ & H).
  destruct (negb (truthy (HevyAPI.data wr))); [discriminate|].
  apply bind_ok in H. destruct H as (recent & s2 & _ & H).
  apply bind_ok in H. destruct H as (wt & s3 & _ & H).
  destruct (negb (truthy wt)); [discriminate|].
  apply bind_ok in H. destruct H as (mr & s4 & _ & H).
  destruct mr as [[|kv d]|]; try discriminate.
  destruct (truthy (dict_get "folder_id" (kv :: d))) eqn:Hfid;
    cbn [negb] in H; [|discriminate].
  apply bind_ok in H. destruct H as (mf & s5 & Hmf & H).
  destruct mf as [[|kv' d']|]; try discriminate.
  apply bind_ok in H. destruct H as (pr & s6 & Hpr & H).
  inversion H; subst. cbn.
  split; [exact Hfid|]. split.
  - eapply find_routine_folder_by_id_sound. exact Hmf.
  - eapply get_routines_in_folder_sound; [apply Forall_nil | exact Hpr].
Qed.

End Program.

(** The program of the user of [Scenario.program_world]. *)
Example current_program_of_program_world :
  fst (HevyAPI.get_current_program_details Scenario.program_world 5
         Scenario.fresh)
  = Ok (Some (HevyAPI.mkProgram Scenario.program_folder
                [VDict Scenario.upper_a; VDict Scenario.lower_a]
                Scenario.upper_a)).
Proof. reflexivity. Qed.

(** With the remote API down, there is no program, and no exception. *)
Example current_program_offline :
  fst (HevyAPI.get_current_program_details Scenario.offline_world 5
         Scenario.fresh) = Ok None.
Proof. reflexivity. Qed.

Lemma scenario_serves_routines :
  serves_routines Scenario.world
    (map (map VDict)
       [[Scenario.push_day];
        [[("id", VStr "routine-2"); ("title", VStr "Leg Day")]]]).
Proof.
  intros tr k size Hk. destruct k as [|[|k]].
  - eexists. repeat split; reflexivity.
  - eexists. repeat split; reflexivity.
  - cbn in Hk. lia.
Qed.

Lemma find_routine_by_title_finds_the_first_witness :
  fst (HevyAPI.find_routine_by_title Scenario.world 2 (VStr "Leg Day")
         Scenario.fresh)
  = Ok (Some [("id", VStr "routine-2"); ("title", VStr "Leg Day")]).
Proof.
  apply (@find_routine_by_title_finds_the_first Scenario.world
           [[Scenario.push_day];
            [[("id", VStr "routine-2"); ("title", VStr "Leg Day")]]]
           scenario_serves_routines).
  - repeat constructor; discriminate.
  - discriminate.
  - cbn. lia.
Defined.

Lemma get_routines_in_folder_is_a_filter_witness :
  fst (HevyAPI.get_routines_in_folder Scenario.world 2 VNone Scenario.fresh)
  = Ok [VDict Scenario.push_day;
        VDict [("id", VStr "routine-2"); ("title", VStr "Leg Day")]].
Proof.
  apply (@get_routines_in_folder_is_a_filter Scenario.world
           [[Scenario.push_day];
            [[("id", VStr "routine-2"); ("title", VStr "Leg Day")]]]
           scenario_serves_routines).
  - repeat constructor; discriminate.
  - discriminate.
  - cbn. lia.
Defined.

(** X12.  On a source that serves the routines as a list of pages,
    [get_all_routines] returns the items of every page, in page order, once
    it has a round per page: it neither raises nor stops early. *)
Theorem get_all_routines_returns_every_page :
  forall (W : World) (pages : list (list pyval)) (fuel : nat) (st : Process),
    serves_routines W pages ->
    pages <> [] ->
    length pages <= fuel ->
    fst (HevyAPI.get_all_routines W fuel st) = Ok (concat pages).
Proof.
  intros W pages fuel st Hserve Hne Hfuel.
  exact (get_all_routines_concat Hserve st Hne Hfuel).
Qed.

Lemma get_all_routines_returns_every_page_witness :
  fst (HevyAPI.get_all_routines Scenario.world 2 Scenario.fresh)
  = Ok [VDict Scenario.push_day;
        VDict [("id", VStr "routine-2"); ("title", VStr "Leg Day")]].
Proof.
  apply (@get_all_routines_returns_every_page Scenario.world
           (map (map VDict)
              [[Scenario.push_day];
               [[("id", VStr "routine-2"); ("title", VStr "Leg Day")]]])
           2 Scenario.fresh scenario_serves_routines).
  - discriminate.
  - cbn. lia.
Defined.

(** ** A catalog that fails part-way *)

Lemma extract_templates_dicts (ds : list pydict) :
  HevyAPI.extract_templates (map VDict ds) = (map template_of ds, true).
Proof.
  induction ds as [|d ds IH]; cbn [map HevyAPI.extract_templates];
    [reflexivity|].
  rewrite IH. reflexivity.
Qed.

Section PartialCatalog.
Variable W : World.
Variable catalog_pages : list (list pydict).
Variable page_count : Z.
Hypothesis Hserve :
  serves_pages W "/exercise_templates" "exercise_templates"
    (map (map VDict) catalog_pages) page_count.
Hypothesis Hfull : Forall (fun page => page <> []) catalog_pages.
Hypothesis Hmore : (Z.of_nat (length catalog_pages) < page_count)%Z.
Hypothesis Hfails :
  forall tr size,
    http_get W tr "/exercise_templates"
      (Z.of_nat (S (length catalog_pages))) size = None.

Lemma get_exercise_templates_page (k : nat) (st : Process) :
  k < length catalog_pages ->
  exists st1,
    HevyAPI.get_exercise_templates W 10 (Z.of_nat (S k)) st
    = (Ok (HevyAPI.mkPage (VList (map VDict (nth k catalog_pages [])))
             (VInt (page_count * 10)) (VInt (Z.of_nat (S k))) 10
             (Z.of_nat (S k) <? page_count)%Z), st1).
Proof.
  intros Hk.
  assert (Hk' : k < length (map (map VDict) catalog_pages))
    by (rewrite length_map; exact Hk).
  destruct (Hserve (trace st) 10%Z Hk') as (body & Hget & Hitems & Hcount & Hpage).
  unfold HevyAPI.get_exercise_templates, HevyAPI.get_page, HevyAPI.request_get.
  unfold try_except, bind, get_state, emit, ret, lift.
  change (Z.min 10 10) with 10%Z.
  rewrite Hget, Hitems, Hcount, Hpage.
  cbn [HevyAPI.as_int]. eexists.
  change (@nil pyval) with (map VDict []). rewrite map_nth. reflexivity.
Qed.

Lemma get_exercise_templates_failed (st : Process) :
  exists st1,
    HevyAPI.get_exercise_templates W 10
      (Z.of_nat (S (length catalog_pages))) st
    = (Ok (HevyAPI.empty_response (Z.of_nat (S (length catalog_pages))) 10), st1).
Proof.
  unfold HevyAPI.get_exercise_templates, HevyAPI.get_page, HevyAPI.request_get.
  unfold try_except, bind, get_state, emit, ret, lift, raise.
  change (Z.min 10 10) with 10%Z.
  rewrite Hfails. eexists. reflexivity.
Qed.

Lemma get_all_exercise_templates_loop_partial (fuel k : nat)
    (acc : list ExerciseTemplate) (st : Process) :
  k <= length catalog_pages ->
  length catalog_pages - k < fuel ->
  fst (HevyAPI.get_all_exercise_templates_loop W fuel acc (Z.of_nat (S k)) st)
  = Ok (acc ++ map template_of (concat (skipn k catalog_pages))).
Proof.
  revert k acc st. induction fuel as [|fuel IH]; intros k acc st Hk Hfuel;
    [lia|].
  cbn [HevyAPI.get_all_exercise_templates_loop]. unfold bind at 1.
  destruct (Nat.eq_dec k (length catalog_pages)) as [->|Hne].
  - destruct (get_exercise_templates_failed st) as (st1 & Hpage).
    rewrite Hpage. cbn. rewrite skipn_all. cbn. rewrite app_nil_r.
    reflexivity.
  - assert (Hlt : k < length catalog_pages) by lia.
    destruct (get_exercise_templates_page st Hlt) as (st1 & Hpage).
    rewrite Hpage. cbn [HevyAPI.data HevyAPI.has_more].
    assert (Hpagene : nth k catalog_pages [] <> []).
    { rewrite Forall_forall in Hfull. apply Hfull, nth_In, Hlt. }
    rewrite (skipn_nth [] catalog_pages Hlt). cbn [concat].
    rewrite map_app.
    destruct (nth k catalog_pages []) as [|d ds] eqn:Hnth; [contradiction|].
    cbn [map truthy negb HevyAPI.py_iter].
    change (VDict d :: map VDict ds) with (map VDict (d :: ds)).
    rewrite extract_templates_dicts. cbn [negb].
    destruct (Z.ltb_spec (Z.of_nat (S k)) page_count) as [_|Hge]; [|lia].
    cbn [negb].
    replace (Z.of_nat (S k) + 1)%Z with (Z.of_nat (S (S k))) by lia.
    rewrite IH by lia. rewrite app_assoc. reflexivity.
Qed.

(** X13.  A catalog fetch that fails part-way is not reported.  When the
    remote source serves the first pages of the exercise templates and then
    fails, the first [load_templates_cache] returns normally and caches the
    templates of the pages it got; from then on the cache counts as loaded
    and no later load fetches again. *)
Theorem partial_catalog_is_cached :
  forall (fuel : nat) (st : Process),
    _cached_templates st = None ->
    length catalog_pages < fuel ->
    exists st',
      Optimizer.load_templates_cache W fuel st = (Ok tt, st')
      /\ _cached_templates st' = Some (map template_of (concat catalog_pages))
      /\ forall fuel', Optimizer.load_templates_cache W fuel' st' = (Ok tt, st').
Proof.
  intros fuel st Hnone Hfuel.
  rewrite (load_templates_cache_first_call W fuel st Hnone).
  pose proof (@get_all_exercise_templates_loop_partial fuel 0 [] st) as Hrun.
  unfold HevyAPI.get_all_exercise_templates.
  change (Z.of_nat 1) with 1%Z in Hrun.
  destruct (HevyAPI.get_all_exercise_templates_loop W fuel [] 1 st)
    as [o st1].
  cbn [fst] in Hrun. rewrite Hrun by lia. cbn [skipn app].
  eexists. split; [reflexivity|]. split; [reflexivity|].
  intros fuel'. unfold Optimizer.load_templates_cache, bind, get_state, ret.
  reflexivity.
Qed.

End PartialCatalog.

Lemma flaky_world_serves_one_page :
  serves_pages Scenario.flaky_world "/exercise_templates" "exercise_templates"
    (map (map VDict)
       [[ [("id", VStr "tpl-bench"); ("title", VStr "Bench Press");
           ("type", VStr "weight_reps"); ("primary_muscle_group", VStr "Chest")];
          [("id", VStr "tpl-incline"); ("title", VStr "Incline Press");
           ("type", VStr "weight_reps"); ("primary_muscle_group", VStr "Chest")] ]])
    2.
Proof.
  intros tr k size Hk. destruct k as [|k].
  - eexists. repeat split; reflexivity.
  - cbn in Hk. lia.
Qed.

Lemma partial_catalog_is_cached_witness :
  exists st',
    Optimizer.load_templates_cache Scenario.flaky_world 5 Scenario.fresh
    = (Ok tt, st')
    /\ _cached_templates st'
       = Some [Scenario.bench_press; Scenario.incline_press]
    /\ forall fuel',
         Optimizer.load_templates_cache Scenario.flaky_world fuel' st'
         = (Ok tt, st').
Proof.
  apply (@partial_catalog_is_cached Scenario.flaky_world _ 2
           flaky_world_serves_one_page).
  - repeat constructor; discriminate.
  - cbn. lia.
  - reflexivity.
  - reflexivity.
  - cbn. lia.
Defined.

(** ** What the page accessors never do *)

Section Fetch.
Variable W : World.

(** [get_routines] and [get_exercise_templates] answer every call: one
    request, of at most ten items, and a response whatever comes back. *)
Lemma get_page_answers (endpoint key : string) (limit_ page_no : Z)
    (st : Process) :
  exists r,
    HevyAPI.get_page W endpoint key limit_ page_no st
    = (Ok r, mkProcess (conversation_history st) (pending_swap_context st)
               (_cached_templates st)
               (trace st ++ [EvGet endpoint page_no (Z.min limit_ 10)]))
    /\ HevyAPI.limit r = Z.min limit_ 10.
Proof.
  unfold HevyAPI.get_page, HevyAPI.request_get.
  unfold try_except, bind, get_state, emit, ret, lift, raise. cbn.
  destruct (http_get W (trace st) endpoint page_no (Z.min limit_ 10))
    as [body|]; [|eexists; split; reflexivity].
  destruct (dict_get_or "page_count" (VInt 1) body); cbn;
    try (eexists; split; reflexivity);
    destruct (dict_get_or "page" (VInt page_no) body); cbn;
    eexists; split; reflexivity.
Qed.

Lemma get_all_exercise_templates_loop_never_raises (fuel : nat)
    (acc : list ExerciseTemplate) (page_no : Z) (st : Process) (e : exn) :
  fst (HevyAPI.get_all_exercise_templates_loop W fuel acc page_no st) <> Raise e.
Proof.
  revert acc page_no st. induction fuel as [|fuel IH]; intros acc page_no st;
    cbn [HevyAPI.get_all_exercise_templates_loop]; [discriminate|].
  unfold bind at 1. unfold HevyAPI.get_exercise_templates.
  destruct (get_page_answers "/exercise_templates" "exercise_templates" 10
              page_no st) as (r & -> & _).
  destruct (negb (truthy (HevyAPI.data r))); [discriminate|].
  destruct (HevyAPI.py_iter (HevyAPI.data r)) as [items| |]; try discriminate.
  destruct (HevyAPI.extract_templates items) as [ts ok].
  destruct (negb ok); [discriminate|].
  destruct (negb (HevyAPI.has_more r)); [discriminate|]. apply IH.
Qed.

(** X14.  The catalog fetch never raises, whatever the remote source does: a
    failed or malformed page ends it with what was extracted so far.  So
    [load_templates_cache] never raises either, the [except] around it at
    startup never runs, and when the load returns the cache is a list,
    never [None]. *)
Theorem catalog_fetch_never_raises :
  forall (fuel : nat) (st : Process),
    (forall e, fst (HevyAPI.get_all_exercise_templates W fuel st) <> Raise e)
    /\ (forall e, fst (Optimizer.load_templates_cache W fuel st) <> Raise e)
    /\ Main.lifespan_startup W fuel st
       = Optimizer.load_templates_cache W fuel st
    /\ (fst (Optimizer.load_templates_cache W fuel st) = Ok tt ->
        exists ts,
          _cached_templates (snd (Optimizer.load_templates_cache W fuel st))
          = Some ts).
Proof.
  intros fuel st.
  assert (H1 : forall e,
             fst (HevyAPI.get_all_exercise_templates W fuel st) <> Raise e).
  { intros e. apply get_all_exercise_templates_loop_never_raises. }
  split; [exact H1|].
  assert (H2 : forall e,
             fst (Optimizer.load_templates_cache W fuel st) <> Raise e).
  { intros e. destruct (_cached_templates st) as [c|] eqn:Hc.
    - unfold Optimizer.load_templates_cache, bind, get_state, ret. rewrite Hc.
      cbn. discriminate.
    - rewrite (load_templates_cache_first_call W fuel st Hc).
      destruct (HevyAPI.get_all_exercise_templates W fuel st) as [[ts|e'|] st1];
        cbn; discriminate. }
  split; [exact H2|]. split.
  { unfold Main.lifespan_startup, try_except.
    pose proof H2 as Hno. revert Hno.
    destruct (Optimizer.load_templates_cache W fuel st) as [[u|e|] st1];
      intros Hno; try reflexivity.
    exfalso. exact (Hno e eq_refl). }
  destruct (_cached_templates st) as [c|] eqn:Hc.
  - unfold Optimizer.load_templates_cache, bind, get_state, ret. rewrite Hc.
    cbn. intros _. exists c. exact Hc.
  - rewrite (load_templates_cache_first_call W fuel st Hc).
    destruct (HevyAPI.get_all_exercise_templates W fuel st) as [[ts|e|] st1];
      cbn; try discriminate; intros _; eexists; reflexivity.
Qed.

(** X15.  [get_all_routines] ends only when the remote source says so.  Against
    a source whose every answer reports a page number below its page count
    (one that ignores the page asked for, say), the loop has not ended after
    any number of rounds. *)
Theorem get_all_routines_follows_the_source :
  (forall tr page_no size,
     exists body items current count,
       http_get W tr "/routines" page_no size = Some body
       /\ HevyAPI.py_iter (dict_get_or "routines" (VList []) body) = Ok items
       /\ HevyAPI.as_int (dict_get_or "page" (VInt page_no) body) = Ok current
       /\ HevyAPI.as_int (dict_get_or "page_count" (VInt 1) body) = Ok count
       /\ (current < count)%Z) ->
  forall (fuel : nat) (st : Process),
    fst (HevyAPI.get_all_routines W fuel st) = Diverged.
Proof.
  intros Hstuck fuel. unfold HevyAPI.get_all_routines.
  generalize (@nil pyval) as acc. generalize 1%Z as page_no.
  induction fuel as [|fuel IH]; intros page_no acc st;
    cbn [HevyAPI.get_all_routines_loop]; [reflexivity|].
  destruct (Hstuck (trace st) page_no 10%Z)
    as (body & items & current & count & Hget & Hiter & Hcur & Hcount & Hlt).
  unfold HevyAPI.get_routines, HevyAPI.get_page, HevyAPI.request_get.
  unfold try_except, bind, get_state, emit, ret, lift, raise.
  change (Z.min 10 10) with 10%Z. cbn [trace].
  rewrite Hget, Hcount, Hcur. cbn [HevyAPI.data HevyAPI.has_more].
  rewrite Hiter.
  destruct (Z.ltb_spec current count) as [_|Hge]; [|lia]. cbn [negb].
  apply IH.
Qed.

Lemma substring_length_le (n : nat) (s : string) :
  String.length (String.substring 0 n s) <= n.
Proof.
  revert s. induction n as [|n IH]; intros [|c s]; cbn; try lia.
  specialize (IH s). lia.
Qed.

(** X16.  A page of workouts holds at most [limit] of them, however many the
    remote source sends; the request is made once, with the page size
    asked for (this accessor does not clamp it to ten). *)
Theorem get_workouts_page_is_bounded :
  forall (limit_ page_no : Z) (st st' : Process) (r : HevyAPI.PaginatedResponse),
    (0 <= limit_)%Z ->
    HevyAPI.get_workouts W limit_ page_no st = (Ok r, st') ->
    (exists n, HevyAPI.py_len (HevyAPI.data r) = Ok n /\ (n <= limit_)%Z)
    /\ HevyAPI.limit r = limit_
    /\ trace st' = trace st ++ [EvGet "/workouts" page_no limit_].
Proof.
  intros limit_ page_no st st' r Hlimit.
  unfold HevyAPI.get_workouts, HevyAPI.request_get.
  unfold bind, get_state, emit, ret, lift, raise. cbn [trace].
  destruct (http_get W (trace st) "/workouts" page_no limit_) as [body|];
    [|discriminate].
  destruct (with_weight_lbs W _) as [workouts| |]; try discriminate.
  destruct (HevyAPI.slice_to limit_ workouts) as [shown| |] eqn:Hslice;
    try discriminate.
  destruct (HevyAPI.py_len workouts) as [n| |]; try discriminate.
  destruct (HevyAPI.as_int _) as [count| |]; try discriminate.
  intros H. inversion H; subst. cbn. split; [|split; reflexivity].
  unfold HevyAPI.slice_to in Hslice.
  destruct (Z.leb_spec 0 limit_) as [_|Hneg]; [|lia].
  destruct workouts as [| | |s|l|]; try discriminate;
    inversion Hslice; subst; cbn; eexists; (split; [reflexivity|]).
  - pose proof (substring_length_le (Z.to_nat limit_) s). lia.
  - rewrite length_firstn. lia.
Qed.

End Fetch.

Lemma get_all_routines_follows_the_source_witness :
  fst (HevyAPI.get_all_routines Scenario.stuck_world 50 Scenario.fresh)
  = Diverged.
Proof.
  apply (@get_all_routines_follows_the_source Scenario.stuck_world).
  intros tr page_no size.
  exists [("page", VInt 1); ("page_count", VInt 2);
          ("routines", VList [VDict Scenario.push_day])],
    [VDict Scenario.push_day], 1%Z, 2%Z.
  repeat split; reflexivity.
Defined.

Lemma get_workouts_page_is_bounded_witness :
  (exists n,
     HevyAPI.py_len
       (HevyAPI.data
          (HevyAPI.mkPage
             (VList [VDict [("id", VStr "w-1"); ("title", VStr "Push Day")]])
             (VInt 1) (VInt 1) 100 false)) = Ok n /\ (n <= 100)%Z)
  /\ HevyAPI.limit
       (HevyAPI.mkPage
          (VList [VDict [("id", VStr "w-1"); ("title", VStr "Push Day")]])
          (VInt 1) (VInt 1) 100 false) = 100%Z
  /\ trace (snd (HevyAPI.get_workouts Scenario.world 100 1 Scenario.fresh))
     = trace Scenario.fresh ++ [EvGet "/workouts" 1 100].
Proof.
  apply (@get_workouts_page_is_bounded Scenario.world 100 1 Scenario.fresh).
  - lia.
  - reflexivity.
Defined.

(* ================================================================== *)
(** * Properties of the text helpers *)

(** ** Reversal and stripping *)

Lemma rev_string_append (s acc : string) :
  Text.rev_string s acc = String.append (Text.reverse s) acc.
Proof.
  unfold Text.reverse. revert acc. induction s as [|c s IH]; intros acc; cbn.
  - reflexivity.
  - rewrite (IH (String c acc)), (IH (String c "")), append_assoc. reflexivity.
Qed.

Lemma srev_cons (c : ascii) (s : string) :
  Text.reverse (String c s) = String.append (Text.reverse s) (String c "").
Proof. unfold Text.reverse at 1. cbn. apply rev_string_append. Qed.

Lemma srev_append (a b : string) :
  Text.reverse (String.append a b) = String.append (Text.reverse b) (Text.reverse a).
Proof.
  induction a as [|c a IH]; cbn [String.append].
  - cbn. now rewrite append_empty_r.
  - rewrite !srev_cons, IH, append_assoc. reflexivity.
Qed.

Lemma srev_involutive (s : string) : Text.reverse (Text.reverse s) = s.
Proof.
  induction s as [|c s IH]; [reflexivity|].
  rewrite srev_cons, srev_append, IH. reflexivity.
Qed.

Lemma all_chars_append (f : ascii -> bool) (a b : string) :
  Text.all_chars f (String.append a b)
  = Text.all_chars f a && Text.all_chars f b.
Proof.
  induction a as [|c a IH]; cbn; [reflexivity|].
  rewrite IH. now rewrite andb_assoc.
Qed.

Lemma all_chars_srev (f : ascii -> bool) (s : string) :
  Text.all_chars f (Text.reverse s) = Text.all_chars f s.
Proof.
  induction s as [|c s IH]; [reflexivity|].
  rewrite srev_cons, all_chars_append, IH. cbn.
  rewrite andb_true_r. apply andb_comm.
Qed.

Lemma length_append (a b : string) :
  String.length (String.append a b) = String.length a + String.length b.
Proof. induction a as [|c a IH]; cbn; [reflexivity | now rewrite IH]. Qed.

Lemma last_char_append (a : string) (c : ascii) :
  Text.last_char (String.append a (String c "")) = Some c.
Proof.
  induction a as [|x a IH]; [reflexivity|].
  cbn [String.append Text.last_char]. rewrite IH.
  destruct (String.append a (String c "")) eqn:E; [|reflexivity].
  destruct a; discriminate.
Qed.

Lemma last_char_srev (s : string) : Text.last_char (Text.reverse s) = Text.first_char s.
Proof.
  destruct s as [|c s]; [reflexivity|].
  rewrite srev_cons. apply last_char_append.
Qed.

Lemma first_char_srev (s : string) : Text.first_char (Text.reverse s) = Text.last_char s.
Proof.
  rewrite <- (srev_involutive s) at 2. now rewrite last_char_srev.
Qed.

Lemma first_char_append (a b : string) :
  Text.first_char (String.append a b)
  = match Text.first_char a with Some c => Some c | None => Text.first_char b end.
Proof. destruct a; reflexivity. Qed.

(** [lstrip_chars] removes a prefix made of the characters of [f], and what
    is left does not start with one. *)
Lemma lstrip_chars_split (f : ascii -> bool) (s : string) :
  exists l,
    s = String.append l (Text.lstrip_chars f s)
    /\ Text.all_chars f l = true.
Proof.
  induction s as [|c s IH]; cbn.
  - exists "". split; reflexivity.
  - destruct (f c) eqn:E.
    + destruct IH as (l & Hs & Hl). exists (String c l). cbn.
      rewrite E, Hl. split; [now rewrite <- Hs | reflexivity].
    + exists "". split; reflexivity.
Qed.

Lemma lstrip_chars_first (f : ascii -> bool) (s : string) (c : ascii) :
  Text.first_char (Text.lstrip_chars f s) = Some c -> f c = false.
Proof.
  induction s as [|x s IH]; cbn; [discriminate|].
  destruct (f x) eqn:E; [exact IH|]. cbn. intros H. inversion H; subst. exact E.
Qed.

Lemma rstrip_chars_srev (f : ascii -> bool) (s : string) :
  Text.rstrip_chars f s = Text.reverse (Text.lstrip_chars f (Text.reverse s)).
Proof. reflexivity. Qed.

Lemma rstrip_chars_split (f : ascii -> bool) (s : string) :
  exists r,
    s = String.append (Text.rstrip_chars f s) r
    /\ Text.all_chars f r = true.
Proof.
  destruct (lstrip_chars_split f (Text.reverse s)) as (l & Hs & Hl).
  exists (Text.reverse l). split.
  - rewrite rstrip_chars_srev, <- srev_append, <- Hs.
    symmetry. apply srev_involutive.
  - now rewrite all_chars_srev.
Qed.

Lemma rstrip_chars_last (f : ascii -> bool) (s : string) (c : ascii) :
  Text.last_char (Text.rstrip_chars f s) = Some c -> f c = false.
Proof.
  rewrite rstrip_chars_srev, last_char_srev. apply lstrip_chars_first.
Qed.

Lemma rstrip_chars_first (f : ascii -> bool) (s : string) (c : ascii) :
  Text.first_char (Text.rstrip_chars f s) = Some c -> Text.first_char s = Some c.
Proof.
  destruct (rstrip_chars_split f s) as (r & Hs & _). intros H.
  rewrite Hs, first_char_append, H. reflexivity.
Qed.

(** [s.strip(chars)] is [s] without a prefix and a suffix made of those
    characters, and it neither starts nor ends with one. *)
Lemma strip_chars_split (f : ascii -> bool) (s : string) :
  exists l r,
    s = String.append l (String.append (Text.strip_chars f s) r)
    /\ Text.all_chars f l = true
    /\ Text.all_chars f r = true.
Proof.
  destruct (lstrip_chars_split f s) as (l & Hs & Hl).
  destruct (rstrip_chars_split f (Text.lstrip_chars f s)) as (r & Ht & Hr).
  exists l, r. unfold Text.strip_chars. rewrite <- Ht. auto.
Qed.

Lemma strip_chars_first (f : ascii -> bool) (s : string) (c : ascii) :
  Text.first_char (Text.strip_chars f s) = Some c -> f c = false.
Proof.
  unfold Text.strip_chars. intros H.
  apply rstrip_chars_first in H. exact (lstrip_chars_first _ _ H).
Qed.

Lemma strip_chars_last (f : ascii -> bool) (s : string) (c : ascii) :
  Text.last_char (Text.strip_chars f s) = Some c -> f c = false.
Proof. unfold Text.strip_chars. apply rstrip_chars_last. Qed.

(** [str.strip()] is [strip_chars] for the white space. *)
Lemma lstrip_is_lstrip_chars (s : string) :
  Text.lstrip s = Text.lstrip_chars Text.is_space s.
Proof.
  induction s as [|c s IH]; cbn; [reflexivity|].
  destruct (Text.is_space c); [exact IH | reflexivity].
Qed.

Lemma strip_is_strip_chars (s : string) :
  Text.strip s = Text.strip_chars Text.is_space s.
Proof.
  unfold Text.strip, Text.rstrip, Text.strip_chars, Text.rstrip_chars.
  now rewrite !lstrip_is_lstrip_chars.
Qed.

(** A string that neither starts nor ends with a character of [f] is left
    as it is. *)
Lemma strip_chars_fixed (f : ascii -> bool) (s : string) :
  (forall c, Text.first_char s = Some c -> f c = false) ->
  (forall c, Text.last_char s = Some c -> f c = false) ->
  Text.strip_chars f s = s.
Proof.
  intros Hfirst Hlast.
  assert (Hl : forall t, (forall c, Text.first_char t = Some c -> f c = false) ->
                         Text.lstrip_chars f t = t).
  { intros [|c t] H; [reflexivity|]. cbn. now rewrite (H c eq_refl). }
  unfold Text.strip_chars. rewrite (Hl s Hfirst), rstrip_chars_srev.
  rewrite Hl; [apply srev_involutive|].
  intros c. rewrite first_char_srev. apply Hlast.
Qed.

Lemma strip_chars_idempotent (f : ascii -> bool) (s : string) :
  Text.strip_chars f (Text.strip_chars f s) = Text.strip_chars f s.
Proof.
  apply strip_chars_fixed; [apply strip_chars_first | apply strip_chars_last].
Qed.

Lemma all_chars_middle (g : ascii -> bool) (l m r : string) :
  Text.all_chars g (String.append l (String.append m r)) = true ->
  Text.all_chars g m = true.
Proof.
  rewrite !all_chars_append. intros H.
  apply andb_true_iff in H. destruct H as [_ H].
  apply andb_true_iff in H. apply H.
Qed.

Lemma strip_chars_keeps (f g : ascii -> bool) (s : string) :
  Text.all_chars g s = true -> Text.all_chars g (Text.strip_chars f s) = true.
Proof.
  destruct (strip_chars_split f s) as (l & r & Hs & _ & _).
  intros H. rewrite Hs in H. exact (all_chars_middle _ _ _ _ H).
Qed.

Lemma span_split (f : ascii -> bool) (s a b : string) :
  Text.span f s = (a, b) ->
  s = String.append a b /\ Text.all_chars f a = true.
Proof.
  revert a b. induction s as [|c s IH]; cbn; intros a b H.
  - inversion H. split; reflexivity.
  - destruct (f c) eqn:E.
    + destruct (Text.span f s) as [a' b'] eqn:Es. inversion H; subst.
      destruct (IH _ _ eq_refl) as [Hs Ha]. cbn. rewrite E, Ha, <- Hs.
      split; reflexivity.
    + inversion H; subst. split; reflexivity.
Qed.

Lemma drop_take (n : nat) (s : string) :
  s = String.append (Text.take n s) (Text.drop n s).
Proof.
  revert s. induction n as [|n IH]; intros [|c s]; cbn; try reflexivity.
  now rewrite <- IH.
Qed.

Lemma lower_append (a b : string) :
  Text.lower (String.append a b) = String.append (Text.lower a) (Text.lower b).
Proof. induction a as [|c a IH]; cbn; [reflexivity | now rewrite IH]. Qed.

Lemma find_contains (p s : string) (i : nat) :
  Text.find p s = Some i -> Text.contains p s = true.
Proof.
  revert i. induction s as [|c s IH]; intros i; cbn [Text.find Text.contains].
  - destruct (String.prefix p ""); [reflexivity | discriminate].
  - destruct (String.prefix p (String c s)); [reflexivity|]. cbn.
    destruct (Text.find p s) as [j|]; [|discriminate]. intros _. exact (IH j eq_refl).
Qed.

(** * Properties of the intent service *)

(** ** Cleaning the classifier's answer *)

Lemma last_cons_default (A : Type) (x d : A) (l : list A) :
  last (x :: l) d = last l x.
Proof.
  revert x d. induction l as [|y l IH]; intros x d; [reflexivity|].
  change (last (x :: y :: l) d) with (last (y :: l) d).
  rewrite (IH y d), (IH y x). reflexivity.
Qed.

Lemma clean_loop_first_or_last (keys : list string) (r c : string) :
  IntentService.clean_loop keys r c
  = match List.find (fun k => IntentService.quoted_or_exact k r) keys with
    | Some k => k
    | None => last (filter (fun k => IntentService.as_a_word k r) keys) c
    end.
Proof.
  revert c. induction keys as [|k keys IH]; intros c; cbn; [reflexivity|].
  destruct (IntentService.quoted_or_exact k r); [reflexivity|].
  destruct (IntentService.as_a_word k r); rewrite IH;
    destruct (List.find _ keys); try reflexivity.
  symmetry. apply last_cons_default.
Qed.

(** X17.  The loop that cleans the classifier's answer returns the first key of
    the catalog that the answer quotes or equals, and, when it quotes or
    equals none, the last key of the catalog that occurs in it as a word;
    [UNKNOWN] when no key occurs at all. *)
Theorem cleaned_intent_is_first_quoted_else_last_word :
  forall r : string,
    IntentService.clean_intent_key r
    = match List.find (fun k => IntentService.quoted_or_exact k r)
                      IntentService.intents with
      | Some k => k
      | None =>
          last (filter (fun k => IntentService.as_a_word k r)
                       IntentService.intents) "UNKNOWN"
      end.
Proof.
  intros r. unfold IntentService.clean_intent_key.
  rewrite clean_loop_first_or_last.
  match goal with
  | |- (if negb (String.eqb ?c _) then _ else _) = _ =>
      destruct (String.eqb_spec c "UNKNOWN") as [E|E]; cbn [negb]
  end.
  - destruct (String.eqb r "ERROR_AI_CALL"); symmetry; exact E.
  - reflexivity.
Qed.

Lemma last_in_or_default (A : Type) (l : list A) (d : A) :
  last l d = d \/ In (last l d) l.
Proof.
  revert d. induction l as [|x l IH]; intros d; [now left|].
  right. rewrite last_cons_default.
  destruct (IH x) as [->|H]; [now left | now right].
Qed.

(** X18.  Whatever the classifier answers, the intent handed to the router is
    a key of the catalog, and the router has a branch for it: the fallback
    reply for an unexpected intent is never sent for a classified message.
    A key of the catalog answered as it is comes out unchanged. *)
Theorem classified_intent_is_routed :
  forall r : string,
    let i := IntentService.clean_intent_key r in
    In i IntentService.intents
    /\ (String.eqb i "SUGGESTION_IMPLEMENT" || String.eqb i "GREETING"
        || String.eqb i "UNKNOWN" || Chat.mem i Chat.info_intents
        || Chat.mem i Chat.analysis_intents
        || Chat.mem i Chat.modification_intents) = true
    /\ Forall (fun k => IntentService.clean_intent_key k = k)
              IntentService.intents.
Proof.
  intros r i.
  assert (Hin : In i IntentService.intents).
  { unfold i. unfold IntentService.clean_intent_key.
    rewrite clean_loop_first_or_last.
    assert (Hc : In (match List.find (fun k => IntentService.quoted_or_exact k r)
                             IntentService.intents with
                     | Some k => k
                     | None =>
                         last (filter (fun k => IntentService.as_a_word k r)
                                      IntentService.intents) "UNKNOWN"
                     end) IntentService.intents).
    { destruct (List.find _ IntentService.intents) as [k|] eqn:Ef.
      - apply find_some in Ef. apply Ef.
      - destruct (last_in_or_default
                    (filter (fun k => IntentService.as_a_word k r)
                            IntentService.intents) "UNKNOWN") as [->|H].
        + cbn. tauto.
        + apply filter_In in H. apply H. }
    match goal with
    | |- In (if negb (String.eqb ?c _) then _ else _) _ =>
        destruct (String.eqb_spec c "UNKNOWN") as [E|E]; cbn [negb]
    end; [|exact Hc].
    destruct (String.eqb r "ERROR_AI_CALL"); cbn; tauto. }
  split; [exact Hin|]. split.
  - cbn in Hin.
    repeat (destruct Hin as [<-|Hin]; [reflexivity|]). contradiction.
  - repeat constructor.
Qed.

(** ** The exercise name of a swap request *)

Lemma all_chars_last (f : ascii -> bool) (s : string) (c : ascii) :
  Text.all_chars f s = true -> Text.last_char s = Some c -> f c = true.
Proof.
  induction s as [|x s IH]; cbn; [discriminate|].
  intros H. apply andb_true_iff in H. destruct H as [Hx Hs].
  destruct s as [|y s].
  - intros E. inversion E; subst. exact Hx.
  - exact (IH Hs).
Qed.

Lemma space_is_name_char (c : ascii) :
  Text.is_space c = true -> Text.is_name_char c = true.
Proof.
  unfold Text.is_name_char. intros ->.
  rewrite orb_true_r. reflexivity.
Qed.

Lemma match_name_tail_chars (s g : string) :
  Text.match_name_tail s = Some g ->
  Text.all_chars Text.is_name_char g = true.
Proof.
  unfold Text.match_name_tail.
  destruct (Text.span Text.is_space s) as [ws after] eqn:Ews.
  destruct ws as [|w ws']; [discriminate|].
  destruct (Text.span Text.is_name_char after) as [body rest] eqn:Eb.
  destruct (match rest with EmptyString => true | String c _ => Text.is_terminator c end);
    [|discriminate].
  destruct body as [|b body'].
  - destruct ws' as [|w' ws'']; [discriminate|].
    destruct (Text.last_char (String w (String w' ws''))) as [c|] eqn:El;
      [|discriminate].
    intros H. inversion H; subst. cbn. rewrite andb_true_r.
    apply space_is_name_char.
    apply span_split in Ews. destruct Ews as [_ Hws].
    exact (all_chars_last _ _ Hws El).
  - intros H. inversion H; subst.
    apply span_split in Eb. apply Eb.
Qed.

Lemma skip_keyword_prefix (kw s rest : string) :
  Text.skip_keyword kw s = Some rest ->
  String.prefix kw (Text.lower s) = true.
Proof.
  revert s. induction kw as [|k kw IH]; intros s; cbn.
  - intros _. destruct s; reflexivity.
  - destruct s as [|c s]; [discriminate|]. cbn.
    destruct (Ascii.eqb_spec k (Text.lower_char c)) as [->|]; [|discriminate].
    intros H. destruct (ascii_dec _ _); [exact (IH _ H) | contradiction].
Qed.

Lemma search_name_sound (kw : string) (prev : bool) (s g : string) :
  Text.search_name kw prev s = Some g ->
  Text.all_chars Text.is_name_char g = true
  /\ Text.contains kw (Text.lower s) = true.
Proof.
  revert prev. induction s as [|c s IH]; intros prev; cbn [Text.search_name].
  - destruct prev; [discriminate|].
    destruct (Text.skip_keyword kw "") as [rest|] eqn:Ek; [|discriminate].
    destruct (Text.match_name_tail rest) as [g'|] eqn:Em; [|discriminate].
    intros H. inversion H; subst. split.
    + exact (match_name_tail_chars _ Em).
    + cbn [Text.lower Text.contains].
      change EmptyString with (Text.lower "").
      rewrite (skip_keyword_prefix _ _ Ek). reflexivity.
  - destruct (if prev then None
              else match Text.skip_keyword kw (String c s) with
                   | Some rest => Text.match_name_tail rest
                   | None => None
                   end) as [g'|] eqn:Eh.
    + destruct prev; [discriminate|].
      destruct (Text.skip_keyword kw (String c s)) as [rest|] eqn:Ek;
        [|discriminate].
      intros H. inversion H; subst. split.
      * exact (match_name_tail_chars _ Eh).
      * pose proof (skip_keyword_prefix _ _ Ek) as Hp.
        cbn [Text.lower] in *. cbn [Text.contains]. rewrite Hp. reflexivity.
    + intros H. destruct (IH _ H) as [H1 H2]. split; [exact H1|].
      cbn [Text.lower Text.contains]. rewrite H2. apply orb_true_r.
Qed.

Lemma last_char_split (s : string) (c : ascii) :
  Text.last_char s = Some c -> exists s0, s = String.append s0 (String c "").
Proof.
  induction s as [|x s IH]; cbn; [discriminate|].
  destruct s as [|y s].
  - intros H. inversion H; subst. exists "". reflexivity.
  - intros H. destruct (IH H) as (s0 & Hs). exists (String x s0).
    cbn. now rewrite <- Hs.
Qed.

Lemma match_name_tail_split (s g : string) :
  Text.match_name_tail s = Some g ->
  exists pre post,
    s = String.append pre (String.append g post) /\ ends_name post.
Proof.
  unfold Text.match_name_tail.
  destruct (Text.span Text.is_space s) as [ws after] eqn:Ews.
  destruct ws as [|w ws']; [discriminate|].
  destruct (Text.span Text.is_name_char after) as [body rest] eqn:Eb.
  apply span_split in Ews. destruct Ews as [Hs _].
  apply span_split in Eb. destruct Eb as [Ha _].
  assert (Hends :
    match rest with EmptyString => true | String c _ => Text.is_terminator c end
    = true -> ends_name rest).
  { unfold ends_name. destruct rest; cbn; auto. }
  destruct (match rest with EmptyString => true | String c _ => Text.is_terminator c end);
    [|discriminate].
  destruct body as [|b body'].
  - destruct ws' as [|w' ws'']; [discriminate|].
    destruct (Text.last_char (String w (String w' ws''))) as [c|] eqn:El;
      [|discriminate].
    intros H. inversion H; subst.
    destruct (last_char_split _ El) as (s0 & Hws).
    exists s0, rest. split; [|auto].
    rewrite Hws, append_assoc. reflexivity.
  - intros H. inversion H; subst.
    exists (String w ws'), rest. split; [reflexivity | auto].
Qed.

Lemma skip_keyword_split (kw s rest : string) :
  Text.skip_keyword kw s = Some rest -> exists k, s = String.append k rest.
Proof.
  revert s. induction kw as [|a kw IH]; intros s; cbn.
  - intros H. inversion H. exists "". reflexivity.
  - destruct s as [|c s]; [discriminate|].
    destruct (Ascii.eqb a (Text.lower_char c)); [|discriminate].
    intros H. destruct (IH _ H) as (k & ->). exists (String c k). reflexivity.
Qed.

Lemma search_name_split (kw : string) (prev : bool) (s g : string) :
  Text.search_name kw prev s = Some g ->
  exists pre post,
    s = String.append pre (String.append g post) /\ ends_name post.
Proof.
  assert (Hhead : forall prev s g,
    (if prev : bool then None
     else match Text.skip_keyword kw s with
          | Some rest => Text.match_name_tail rest
          | None => None
          end) = Some g ->
    exists pre post,
      s = String.append pre (String.append g post) /\ ends_name post).
  { intros [|] s0 g0; [discriminate|].
    destruct (Text.skip_keyword kw s0) as [rest|] eqn:Ek; [|discriminate].
    intros Hm. destruct (skip_keyword_split _ _ Ek) as (k & ->).
    destruct (match_name_tail_split _ Hm) as (pre & post & -> & He).
    exists (String.append k pre), post. split; [|exact He].
    now rewrite append_assoc. }
  revert prev. induction s as [|c s IH]; intros prev; cbn [Text.search_name].
  - destruct (if prev then None else _) as [g'|] eqn:Eh; [|discriminate].
    intros H. inversion H; subst. exact (Hhead _ _ _ Eh).
  - destruct (if prev then None else _) as [g'|] eqn:Eh.
    + intros H. inversion H; subst. exact (Hhead _ _ _ Eh).
    + intros H. destruct (IH _ H) as (pre & post & -> & He).
      exists (String c pre), post. split; [reflexivity | exact He].
Qed.

Lemma lstrip_append_spaces (r post : string) :
  Text.all_chars Text.is_space r = true ->
  Text.lstrip (String.append r post) = Text.lstrip post.
Proof.
  induction r as [|c r IH]; cbn; [reflexivity|].
  intros H. apply andb_true_iff in H. destruct H as [Hc Hr].
  rewrite Hc. exact (IH Hr).
Qed.

Lemma terminator_is_no_space (c : ascii) :
  Text.is_terminator c = true -> Text.is_space c = false.
Proof.
  destruct c as [[] [] [] [] [] [] [] []]; cbn; intros H;
    first [reflexivity | discriminate H].
Qed.

Lemma ends_name_lstrip (post : string) :
  ends_name post -> ends_name (Text.lstrip post).
Proof.
  unfold ends_name. destruct post as [|c post]; cbn; [auto|].
  intros H. rewrite (terminator_is_no_space _ H). exact H.
Qed.

Lemma extract_after_sound (keywords : list string) (message n : string) :
  IntentService.extract_after keywords message = Some n ->
  exists kw g,
    In kw keywords
    /\ Text.search_name kw false message = Some g
    /\ n = Text.strip g
    /\ 0 < String.length n < 100.
Proof.
  induction keywords as [|kw keywords IH]; cbn [IntentService.extract_after];
    [discriminate|].
  destruct (Text.search_name kw false message) as [g|] eqn:Es.
  - destruct ((0 <? String.length (Text.strip g))
              && (String.length (Text.strip g) <? 100)) eqn:El.
    + intros H. inversion H; subst. exists kw, g.
      apply andb_true_iff in El. destruct El as [Hlo Hhi].
      apply Nat.ltb_lt in Hlo. apply Nat.ltb_lt in Hhi.
      split; [now left|]. repeat split; auto.
    + intros H. destruct (IH H) as (kw' & g' & Hin & Hr). exists kw', g'.
      split; [now right | exact Hr].
  - intros H. destruct (IH H) as (kw' & g' & Hin & Hr). exists kw', g'.
    split; [now right | exact Hr].
Qed.

(** X19.  On a message of ASCII characters (where the classes [\w] and [\s]
    of the pattern are the ones of the model; Python's also hold the letters
    and spaces beyond ASCII), a name [_extract_exercise_name] returns is
    never blank: it has between 1 and 99 characters, all of them ASCII
    letters, digits, underscores, white space, parentheses or hyphens, it
    neither starts nor ends with white space, and the message it was taken
    from holds one of the swap keywords.  The name runs on to the end of the
    message or to the next full stop, question mark, exclamation mark or
    quote: whatever else follows the exercise in the sentence is part of the
    name. *)
Theorem extracted_exercise_name_is_well_formed :
  forall message n : string,
    Text.isascii message = true ->
    IntentService._extract_exercise_name message = Some n ->
    n <> ""
    /\ String.length n < 100
    /\ Text.all_chars Text.is_name_char n = true
    /\ Text.strip n = n
    /\ (exists kw,
          In kw IntentService.swap_keywords
          /\ Text.contains kw (Text.lower message) = true)
    /\ exists before after,
         message = String.append before (String.append n after)
         /\ ends_name (Text.lstrip after).
Proof.
  intros message n _ H. apply extract_after_sound in H.
  destruct H as (kw & g & Hin & Hs & -> & Hlen).
  pose proof (search_name_split _ _ _ Hs) as (pre & post & Hm & Hends).
  apply search_name_sound in Hs. destruct Hs as [Hchars Hkw].
  split.
  { intros E. rewrite E in Hlen. cbn in Hlen. lia. }
  split; [lia|]. split.
  { rewrite strip_is_strip_chars. apply strip_chars_keeps, Hchars. }
  split.
  { rewrite !strip_is_strip_chars. apply strip_chars_idempotent. }
  split; [exists kw; auto|].
  destruct (strip_chars_split Text.is_space g) as (l & r & Hg & _ & Hr).
  exists (String.append pre l), (String.append r post). split.
  - rewrite strip_is_strip_chars, Hm, Hg at 1.
    now rewrite !append_assoc.
  - rewrite (lstrip_append_spaces _ _ Hr). apply ends_name_lstrip, Hends.
Qed.

Lemma extracted_exercise_name_is_well_formed_witness :
  Text.isascii "Can I swap  Bench Press (Barbell) ?" = true
  /\ IntentService._extract_exercise_name "Can I swap  Bench Press (Barbell) ?"
     = Some "Bench Press (Barbell)"
  /\ "Bench Press (Barbell)" <> ""
  /\ String.length "Bench Press (Barbell)" < 100
  /\ Text.all_chars Text.is_name_char "Bench Press (Barbell)" = true
  /\ Text.strip "Bench Press (Barbell)" = "Bench Press (Barbell)"
  /\ (exists kw,
        In kw IntentService.swap_keywords
        /\ Text.contains kw (Text.lower "Can I swap  Bench Press (Barbell) ?")
           = true)
  /\ exists before after,
       "Can I swap  Bench Press (Barbell) ?"
       = String.append before (String.append "Bench Press (Barbell)" after)
       /\ ends_name (Text.lstrip after).
Proof.
  do 2 (split; [reflexivity|]).
  apply (@extracted_exercise_name_is_well_formed
           "Can I swap  Bench Press (Barbell) ?" "Bench Press (Barbell)");
    reflexivity.
Defined.

(** The name runs to the end of the sentence: a routine named after the
    exercise is taken along with it; a comma after the name leaves no name
    at all; the request of the scenario names the routine first. *)
Example exercise_name_takes_the_routine_along :
  IntentService._extract_exercise_name "swap Bench Press in my Push Day"
  = Some "Bench Press in my Push Day".
Proof. reflexivity. Qed.

Example exercise_name_of_the_swap_request :
  IntentService._extract_exercise_name Scenario.swap_request
  = Some "Bench Press".
Proof. reflexivity. Qed.

Example no_exercise_name_before_a_comma :
  IntentService._extract_exercise_name "swap Bench Press, please" = None.
Proof. reflexivity. Qed.

(** * Properties of the optimizer's helpers *)

(** ** The goal named in a message *)

Lemma extract_goal_after_sound (keywords : list string)
    (message_lower message g : string) :
  Optimizer.extract_goal_after keywords message_lower message = Some g ->
  exists kw i,
    In kw keywords
    /\ Text.find kw message_lower = Some i
    /\ g = Text.strip_chars Optimizer.is_goal_trim
             (Text.drop (i + String.length kw) message)
    /\ 0 < String.length g < 100.
Proof.
  induction keywords as [|kw keywords IH]; cbn [Optimizer.extract_goal_after];
    [discriminate|].
  destruct (Text.find kw message_lower) as [i|] eqn:Ef.
  - match goal with
    | |- (if ?b then _ else _) = _ -> _ => destruct b eqn:El
    end.
    + intros H. inversion H; subst. exists kw, i.
      apply andb_true_iff in El. destruct El as [Hlo Hhi].
      apply Nat.ltb_lt in Hlo. apply Nat.ltb_lt in Hhi.
      split; [now left|]. repeat split; auto.
    + intros H. destruct (IH H) as (kw' & i' & Hin & Hr). exists kw', i'.
      split; [now right | exact Hr].
  - intros H. destruct (IH H) as (kw' & i' & Hin & Hr). exists kw', i'.
    split; [now right | exact Hr].
Qed.

(** X20.  A goal [_extract_user_goal] returns has between 1 and 99 characters,
    neither starts nor ends with a space, a full stop, an exclamation or
    question mark or a quote, and is the rest of the message after one of
    the goal keywords: it runs to the end of the message, up to such
    characters. *)
Theorem extracted_goal_is_the_rest_of_the_message :
  forall message g : string,
    Optimizer._extract_user_goal message = Some g ->
    g <> ""
    /\ String.length g < 100
    /\ (forall c, Text.first_char g = Some c -> Optimizer.is_goal_trim c = false)
    /\ (forall c, Text.last_char g = Some c -> Optimizer.is_goal_trim c = false)
    /\ (exists before after,
          message = String.append before (String.append g after)
          /\ Text.all_chars Optimizer.is_goal_trim after = true)
    /\ exists kw,
         In kw Optimizer.goal_keywords
         /\ Text.contains kw (Text.lower message) = true.
Proof.
  intros message g H. apply extract_goal_after_sound in H.
  destruct H as (kw & i & Hin & Hf & -> & Hlen).
  split.
  { intros E. rewrite E in Hlen. cbn in Hlen. lia. }
  split; [lia|].
  split; [apply strip_chars_first|].
  split; [apply strip_chars_last|].
  split.
  - destruct (strip_chars_split Optimizer.is_goal_trim
                (Text.drop (i + String.length kw) message))
      as (l & r & Hs & _ & Hr).
    exists (String.append (Text.take (i + String.length kw) message) l), r.
    split; [|exact Hr].
    rewrite append_assoc, <- Hs. apply drop_take.
  - exists kw. split; [exact Hin | exact (find_contains _ _ Hf)].
Qed.

Lemma extracted_goal_is_the_rest_of_the_message_witness :
  Optimizer._extract_user_goal "I want to improve my squat. Also list my routines!"
  = Some "improve my squat. Also list my routines"
  /\ exists before after,
       "I want to improve my squat. Also list my routines!"
       = String.append before
           (String.append "improve my squat. Also list my routines" after)
       /\ Text.all_chars Optimizer.is_goal_trim after = true.
Proof.
  split; [reflexivity|].
  apply (@extracted_goal_is_the_rest_of_the_message
           "I want to improve my squat. Also list my routines!"
           "improve my squat. Also list my routines").
  reflexivity.
Defined.

(** ** The parsed insights *)

Lemma split_on_lines (sep : ascii) (s : string) :
  Forall (fun line =>
            Text.all_chars (fun c => negb (Ascii.eqb c sep)) line = true)
         (Text.split_on sep s).
Proof.
  induction s as [|c s IH]; cbn [Text.split_on].
  - repeat constructor.
  - destruct (Ascii.eqb c sep) eqn:E.
    + constructor; [reflexivity | exact IH].
    + destruct (Text.split_on sep s) as [|line lines].
      * repeat constructor. cbn. now rewrite E.
      * inversion IH; subst. constructor; [|assumption].
        cbn. rewrite E. assumption.
Qed.

Lemma length_take (n : nat) (s : string) :
  String.length (Text.take n s) = Nat.min n (String.length s).
Proof.
  revert s. induction n as [|n IH]; intros [|c s]; cbn; try reflexivity.
  now rewrite IH.
Qed.

(** X21.  The insights parsed from a completion keep the response as it is,
    summarise it by its first 200 characters and an ellipsis, and list as
    recommendations only non-blank lines: each is non-empty, has no white
    space at either end and no line feed inside, and there are no more of
    them than lines. *)
Theorem parsed_recommendations_are_the_non_blank_lines :
  forall response : string,
    let parsed := Optimizer._parse_ai_response response in
    Optimizer.raw_response parsed = response
    /\ String.length (Optimizer.summary parsed)
       = Nat.min 200 (String.length response) + 3
    /\ String.prefix (Text.take 200 response) response = true
    /\ Forall (fun r =>
                 r <> ""
                 /\ Text.strip r = r
                 /\ Text.all_chars
                      (fun c => negb (Ascii.eqb c Text.newline)) r = true)
              (Optimizer.recommendations parsed)
    /\ length (Optimizer.recommendations parsed)
       <= length (Text.split_on Text.newline response).
Proof.
  intros response parsed. unfold parsed, Optimizer._parse_ai_response.
  cbn [Optimizer.raw_response Optimizer.summary Optimizer.recommendations].
  split; [reflexivity|]. split.
  { rewrite length_append, length_take. reflexivity. }
  split.
  { apply prefix_append. exists (Text.drop 200 response). apply drop_take. }
  split.
  - apply Forall_forall. intros r Hr.
    apply in_map_iff in Hr. destruct Hr as (line & <- & Hin).
    apply filter_In in Hin. destruct Hin as [Hin Hne].
    split.
    { intros E. rewrite E in Hne. discriminate. }
    split.
    { rewrite !strip_is_strip_chars. apply strip_chars_idempotent. }
    rewrite strip_is_strip_chars. apply strip_chars_keeps.
    pose proof (split_on_lines Text.newline response) as Hl.
    rewrite Forall_forall in Hl. exact (Hl _ Hin).
  - rewrite length_map. apply filter_length_le.
Qed.

(** ** The endpoints of the other routers *)

Section OtherRouters.
Variable W : World.

(** X22.  [POST /api/optimizer/chat] never answers with an error status: the
    optimizer's fallback chat catches every exception itself and returns a
    text, so the router's own [except] never runs.  A failed completion
    leaves the history as it was; an answered one appends the prompt and
    the answer; the pending swap is not touched either way. *)
Theorem optimizer_chat_is_always_served :
  forall (message : string) (st : Process),
    exists t st',
      Routers.chat_about_workout_optimization W message st
      = (Ok (Chat.Served t), st')
      /\ match t with
         | Optimizer.Answer r =>
             conversation_history st'
             = conversation_history st
               ++ [mkTurn user (Raw (Optimizer.fallback_prompt message));
                   mkTurn assistant (Raw r)]
         | Optimizer.ErrorText e =>
             e = OpenAIError
             /\ conversation_history st' = conversation_history st
         end
      /\ pending_swap_context st' = pending_swap_context st
      /\ trace st'
         = trace st
           ++ [EvCompletion
                 (messages_for st (Raw (Optimizer.fallback_prompt message)))].
Proof.
  intros message st.
  unfold Routers.chat_about_workout_optimization,
    Optimizer.chat_about_workout_optimization, try_except.
  unfold bind at 1. unfold bind at 1. rewrite get_chat_response_run.
  destruct (completion W (trace st) _) as [r|]; cbn;
    do 2 eexists; (split; [reflexivity|]); cbn; auto.
Qed.

End OtherRouters.

(** X23.  Three endpoints fail on every request.  [POST /api/analysis/optimize]
    and [GET /api/analysis/recommendations] call
    [get_workout_specific_response], which the optimizer class does not
    define; [DELETE /api/workouts/routines/{routine_id}] calls
    [delete_routine], which the API client does not define.  Nothing
    catches the [AttributeError], and the process state is left as it
    was. *)
Theorem endpoints_calling_missing_methods_always_raise :
  forall (workout_data : pydict) (focus_area equipment : pyval)
         (routine_id : string) (st : Process),
    Routers.optimize_workout workout_data st = (Raise AttributeError, st)
    /\ Routers.get_recommendations focus_area equipment st
       = (Raise AttributeError, st)
    /\ Routers.delete_routine routine_id st = (Raise AttributeError, st).
Proof. intros. repeat split; reflexivity. Qed.

(** ** The routine name of a modification request *)

(** What the matcher captures is made of characters of the text it
    searched. *)
Section Captures.
Variable f : ascii -> bool.

Lemma drop_prefix_chars (l s rest : string) :
  Text.drop_prefix l s = Some rest ->
  Text.all_chars f s = true -> Text.all_chars f rest = true.
Proof.
  revert s. induction l as [|a l IH]; intros s; cbn.
  - intros H. inversion H; subst. auto.
  - destruct s as [|c s]; [discriminate|].
    destruct (Ascii.eqb a c); [|discriminate].
    intros H Hs. cbn in Hs. apply andb_true_iff in Hs. exact (IH _ H (proj2 Hs)).
Qed.

Lemma take_chars (n : nat) (s : string) :
  Text.all_chars f s = true -> Text.all_chars f (Text.take n s) = true.
Proof.
  revert s. induction n as [|n IH]; intros [|c s]; cbn; auto.
  intros H. apply andb_true_iff in H. destruct H as [Hc Hs].
  rewrite Hc. exact (IH _ Hs).
Qed.

Lemma rep_greedy_chars (R : Type) (g : ascii -> bool) (s : string) :
  forall (min : nat) (prev : option ascii)
         (k : option ascii -> string -> option R) (res : R),
    Text.all_chars f s = true ->
    Regex.rep_greedy g min prev s k = Some res ->
    exists prev' rest,
      Text.all_chars f rest = true /\ k prev' rest = Some res.
Proof.
  induction s as [|c s IH]; intros min prev k res Hs; cbn [Regex.rep_greedy].
  - destruct (min =? 0); [|discriminate]. intros H. exists prev, "". auto.
  - assert (Hhere : (if min =? 0 then k prev (String c s) else None) = Some res ->
                    exists prev' rest,
                      Text.all_chars f rest = true /\ k prev' rest = Some res).
    { destruct (min =? 0); [|discriminate]. intros H.
      exists prev, (String c s). auto. }
    destruct (g c); [|exact Hhere].
    destruct (Regex.rep_greedy g (pred min) (Some c) s k) as [r|] eqn:Er;
      [|exact Hhere].
    intros H. inversion H; subst.
    cbn in Hs. apply andb_true_iff in Hs.
    exact (IH _ _ _ _ (proj2 Hs) Er).
Qed.

Lemma run_chars (R : Type) (r : Regex.regex) :
  forall (prev : option ascii) (s : string) (caps : list string)
         (k : option ascii -> string -> list string -> option R) (res : R),
    Text.all_chars f s = true ->
    Forall (fun c => Text.all_chars f c = true) caps ->
    Regex.run r prev s caps k = Some res ->
    exists prev' rest caps',
      Text.all_chars f rest = true
      /\ Forall (fun c => Text.all_chars f c = true) caps'
      /\ k prev' rest caps' = Some res.
Proof.
  induction r as [l|g min|a IHa b IHb|a IHa b IHb|a IHa|a IHa| |];
    intros prev s caps k res Hs Hc; cbn [Regex.run].
  - destruct (Text.drop_prefix l s) as [rest|] eqn:Ed; [|discriminate].
    intros H. do 3 eexists. split; [exact (drop_prefix_chars _ _ Ed Hs)|].
    split; [exact Hc | exact H].
  - intros H. apply (rep_greedy_chars _ _ _ _ _ Hs) in H.
    destruct H as (p & rest & Hr & Hk). exists p, rest, caps. auto.
  - destruct (Regex.run a prev s caps k) as [x|] eqn:Ea.
    + intros H. inversion H; subst. exact (IHa _ _ _ _ _ Hs Hc Ea).
    + exact (IHb _ _ _ _ _ Hs Hc).
  - intros H. apply (IHa _ _ _ _ _ Hs Hc) in H.
    destruct H as (p & rest & caps' & Hr & Hc' & Hb).
    exact (IHb _ _ _ _ _ Hr Hc' Hb).
  - destruct (Regex.run a prev s caps k) as [x|] eqn:Ea.
    + intros H. inversion H; subst. exact (IHa _ _ _ _ _ Hs Hc Ea).
    + intros H. exists prev, s, caps. auto.
  - intros H. apply (IHa _ _ _ _ _ Hs Hc) in H.
    destruct H as (p & rest & caps' & Hr & Hc' & Hk).
    do 3 eexists. split; [exact Hr|]. split; [|exact Hk].
    apply Forall_app. split; [exact Hc'|].
    constructor; [|constructor]. apply take_chars, Hs.
  - destruct (xorb _ _); [|discriminate]. intros H. exists prev, s, caps. auto.
  - destruct s as [|c [|c' s']]; try discriminate.
    + intros H. exists prev, "", caps. auto.
    + destruct (Ascii.eqb c Text.newline); [|discriminate].
      intros H. exists prev, (String c ""), caps. auto.
Qed.

Lemma search_from_chars (r : Regex.regex) (s : string) :
  forall (prev : option ascii) (caps : list string),
    Text.all_chars f s = true ->
    Regex.search_from r prev s = Some caps ->
    Forall (fun c => Text.all_chars f c = true) caps.
Proof.
  induction s as [|c s IH]; intros prev caps Hs; cbn [Regex.search_from].
  - destruct (Regex.run r prev "" [] _) as [x|] eqn:Er; [|discriminate].
    intros H. inversion H; subst.
    eapply run_chars in Er; [|exact Hs|constructor].
    destruct Er as (p & rest & caps' & _ & Hc & Hk). inversion Hk; subst.
    exact Hc.
  - destruct (Regex.run r prev (String c s) [] _) as [x|] eqn:Er.
    + intros H. inversion H; subst.
      eapply run_chars in Er; [|exact Hs|constructor].
      destruct Er as (p & rest & caps' & _ & Hc & Hk). inversion Hk; subst.
      exact Hc.
    + cbn in Hs. apply andb_true_iff in Hs. exact (IH _ _ (proj2 Hs)).
Qed.

End Captures.

Lemma lower_has_no_upper (s : string) :
  Text.all_chars (fun c => negb (Text.is_upper c)) (Text.lower s) = true.
Proof.
  induction s as [|c s IH]; cbn; [reflexivity|]. rewrite IH, andb_true_r.
  destruct c as [[] [] [] [] [] [] [] []]; reflexivity.
Qed.

Lemma isupper_needs_upper (s : string) :
  Text.all_chars (fun c => negb (Text.is_upper c)) s = true ->
  Text.isupper s = false.
Proof.
  unfold Text.isupper. intros H.
  assert (E : Text.has_char Text.is_cased s = Text.has_char Text.is_lower s).
  { induction s as [|c s IH]; [reflexivity|]. cbn in *.
    apply andb_true_iff in H. destruct H as [Hc Hs]. rewrite (IH Hs).
    unfold Text.is_cased. apply negb_true_iff in Hc. rewrite Hc. reflexivity. }
  rewrite E. destruct (Text.has_char Text.is_lower s); reflexivity.
Qed.

Lemma title_char_fixed (b : bool) (c : ascii) :
  let x := if b then Text.lower_char c else Text.upper_char c in
  Text.is_cased x = Text.is_cased c
  /\ (if b then Text.lower_char x else Text.upper_char x) = x.
Proof.
  destruct b; destruct c as [[] [] [] [] [] [] [] []]; split; reflexivity.
Qed.

Lemma title_from_idempotent (s : string) :
  forall b, Text.title_from b (Text.title_from b s) = Text.title_from b s.
Proof.
  induction s as [|c s IH]; intros b; cbn; [reflexivity|].
  destruct (title_char_fixed b c) as [Hc Hx]. cbn in Hc, Hx.
  rewrite Hx, Hc, IH. reflexivity.
Qed.

Lemma extract_routine_name_title (message n : string) :
  IntentService._extract_routine_name message = Some n -> Text.title n = n.
Proof.
  unfold IntentService._extract_routine_name.
  destruct (Regex.search IntentService.routine_pattern (Text.lower message))
    as [[|g caps]|] eqn:Es; try discriminate.
  apply (search_from_chars (fun c => negb (Text.is_upper c))) in Es;
    [|apply lower_has_no_upper].
  inversion Es as [|? ? Hg _]; subst.
  assert (Hup : Text.isupper (Text.strip g) = false).
  { apply isupper_needs_upper. rewrite strip_is_strip_chars.
    apply strip_chars_keeps, Hg. }
  rewrite Hup. cbn [negb orb]. intros H. inversion H; subst.
  apply title_from_idempotent.
Qed.

(** X24.  On a message of ASCII characters (where [str.lower], [str.isupper]
    and [str.title] are the ones of the model; beyond ASCII Python has
    letters whose lower case is still an upper-case or a title-case letter),
    a routine name [_extract_routine_name] returns is always in title case:
    the pattern is searched in the lower-cased message, so the branch that
    keeps an all-capitals name as it is never runs.  A routine whose title
    is not in title case -- an acronym, a second word in lower case -- is
    therefore never named by the extraction from such a message. *)
Theorem extracted_routine_name_is_title_cased :
  forall message n : string,
    Text.isascii message = true ->
    IntentService._extract_routine_name message = Some n ->
    Text.title n = n
    /\ forall t, Text.title t <> t ->
                 IntentService._extract_routine_name message <> Some t.
Proof.
  intros message n _ H. split; [exact (extract_routine_name_title _ H)|].
  intros t Ht E. exact (Ht (extract_routine_name_title _ E)).
Qed.

Lemma extracted_routine_name_is_title_cased_witness :
  Text.isascii "swap curls. in my PPL routine, please" = true
  /\ IntentService._extract_routine_name "swap curls. in my PPL routine, please"
     = Some "Ppl Routine"
  /\ Text.title "Ppl Routine" = "Ppl Routine"
  /\ forall t, Text.title t <> t ->
               IntentService._extract_routine_name
                 "swap curls. in my PPL routine, please" <> Some t.
Proof.
  do 2 (split; [reflexivity|]).
  apply (@extracted_routine_name_is_title_cased
           "swap curls. in my PPL routine, please" "Ppl Routine");
    reflexivity.
Defined.

(** ** The context of a swap request, and the proposal made from it *)

Lemma same_memory_refl (st : Process) : same_memory st st.
Proof. repeat split. Qed.

Lemma same_memory_trans (a b c : Process) :
  same_memory a b -> same_memory b c -> same_memory a c.
Proof.
  intros (H1 & H2 & H3 & H4) (K1 & K2 & K3 & K4). repeat split; congruence.
Qed.

Lemma quiet_ret (A : Type) (a : A) : quiet (ret a).
Proof. intros st. apply same_memory_refl. Qed.

Lemma quiet_lift (A : Type) (o : outcome A) : quiet (lift o).
Proof. intros st. apply same_memory_refl. Qed.

Lemma quiet_raise (A : Type) (e : exn) : quiet (@raise A e).
Proof. intros st. apply same_memory_refl. Qed.

Lemma quiet_bind (A B : Type) (m : M A) (k : A -> M B) :
  quiet m -> (forall a, quiet (k a)) -> quiet (bind m k).
Proof.
  intros Hm Hk st. unfold bind. specialize (Hm st).
  destruct (m st) as [[a|e|] st1]; cbn in *; auto.
  exact (same_memory_trans Hm (Hk a st1)).
Qed.

Lemma quiet_try_except (A : Type) (m : M A) (h : exn -> M A) :
  quiet m -> (forall e, quiet (h e)) -> quiet (try_except m h).
Proof.
  intros Hm Hh st. unfold try_except. specialize (Hm st).
  destruct (m st) as [[a|e|] st1]; cbn in *; auto.
  exact (same_memory_trans Hm (Hh e st1)).
Qed.

Section Context.
Variable W : World.

Lemma quiet_request_get (endpoint : string) (page_no size : Z) :
  quiet (HevyAPI.request_get W endpoint page_no size).
Proof.
  intros st. repeat split. cbn. rewrite writes_app. cbn. apply app_nil_r.
Qed.

Lemma quiet_get_page (endpoint key : string) (limit_ page_no : Z) :
  quiet (HevyAPI.get_page W endpoint key limit_ page_no).
Proof.
  intros st.
  destruct (get_page_answers W endpoint key limit_ page_no st) as (r & -> & _).
  repeat split. cbn. rewrite writes_app. cbn. apply app_nil_r.
Qed.

Lemma quiet_find_routine_by_title_loop (fuel : nat) (t : pyval) :
  forall page_no, quiet (HevyAPI.find_routine_by_title_loop W fuel t page_no).
Proof.
  induction fuel as [|fuel IH]; intros page_no;
    cbn [HevyAPI.find_routine_by_title_loop]; [apply quiet_lift|].
  apply quiet_bind; [apply quiet_get_page|]. intros r.
  destruct (negb (truthy (HevyAPI.data r))); [apply quiet_ret|].
  apply quiet_bind; [apply quiet_lift|]. intros items.
  apply quiet_bind; [apply quiet_lift|]. intros [found|]; [apply quiet_ret|].
  destruct (negb (HevyAPI.has_more r)); [apply quiet_ret | apply IH].
Qed.

Lemma quiet_get_all_routines_loop (fuel : nat) :
  forall acc page_no, quiet (HevyAPI.get_all_routines_loop W fuel acc page_no).
Proof.
  induction fuel as [|fuel IH]; intros acc page_no;
    cbn [HevyAPI.get_all_routines_loop]; [apply quiet_lift|].
  apply quiet_bind; [apply quiet_get_page|]. intros r.
  apply quiet_bind; [apply quiet_lift|]. intros items.
  destruct (negb (HevyAPI.has_more r)); [apply quiet_ret | apply IH].
Qed.

Lemma quiet_get_routine_folders (limit_ page_no : Z) :
  quiet (HevyAPI.get_routine_folders W limit_ page_no).
Proof.
  unfold HevyAPI.get_routine_folders.
  apply quiet_bind; [apply quiet_request_get|]. intros [body|];
    [|apply quiet_raise].
  repeat (apply quiet_bind; [apply quiet_lift|]; intros ?). apply quiet_ret.
Qed.

Lemma quiet_modification_context (fuel : nat) (message : string) :
  quiet (IntentService.modification_context W fuel message).
Proof.
  unfold IntentService.modification_context.
  apply quiet_try_except; [|intros e; apply quiet_ret].
  apply quiet_bind.
  { destruct (IntentService._extract_routine_name message) as [n|];
      [|apply quiet_ret].
    destruct (str_truthy n); [|apply quiet_ret].
    apply quiet_find_routine_by_title_loop. }
  intros target.
  apply quiet_try_except; [|intros e; apply quiet_ret].
  apply quiet_bind; [apply quiet_get_all_routines_loop|]. intros all.
  apply quiet_try_except; [|intros e; apply quiet_ret].
  apply quiet_bind; [apply quiet_get_routine_folders|]. intros r.
  apply quiet_ret.
Qed.

Lemma py_eq_str_inv (v : pyval) (n : string) :
  py_eq v (VStr n) = true -> v = VStr n.
Proof.
  destruct v; cbn; try discriminate.
  intros H. apply String.eqb_eq in H. now subst.
Qed.

Lemma try_except_ok (A : Type) (m : M A) (h : exn -> M A)
    (st st' : Process) (a : A) :
  try_except m h st = (Ok a, st') ->
  m st = (Ok a, st')
  \/ exists e st1, m st = (Raise e, st1) /\ h e st1 = (Ok a, st').
Proof.
  unfold try_except. destruct (m st) as [[x|e|] st1]; intros H.
  - now left.
  - right. exists e, st1. auto.
  - discriminate.
Qed.

(** What the context of a modification request holds: the exercise name is
    the extracted one, and a target routine is a routine the source served
    under the extracted routine name. *)
Lemma modification_context_fields (fuel : nat) (message : string)
    (st st' : Process) (ctx : HandlerContext) :
  IntentService.modification_context W fuel message st = (Ok ctx, st') ->
  exercise_name ctx = IntentService._extract_exercise_name message
  /\ forall d,
       target_routine_details ctx = Some d ->
       d <> []
       /\ exists n,
            IntentService._extract_routine_name message = Some n
            /\ dict_get "title" d = VStr n.
Proof.
  unfold IntentService.modification_context.
  assert (Hex :
    match IntentService._extract_exercise_name message with
    | Some extracted_exercise =>
        if str_truthy extracted_exercise then Some extracted_exercise else None
    | None => None
    end = IntentService._extract_exercise_name message).
  { destruct (IntentService._extract_exercise_name message) as [x|] eqn:E;
      [|reflexivity].
    unfold IntentService._extract_exercise_name in E.
    apply extract_after_sound in E. destruct E as (_ & _ & _ & _ & _ & Hlen).
    rewrite str_truthy_true; [reflexivity|].
    intros ->. cbn in Hlen. lia. }
  rewrite Hex.
  set (exercise := IntentService._extract_exercise_name message).
  intros H. apply try_except_ok in H.
  destruct H as [H|(e & s1 & _ & H)].
  2: { inversion H; subst. cbn. split; [reflexivity | discriminate]. }
  apply bind_ok in H. destruct H as (target_routine & s1 & Hfind & H).
  assert (Htarget : forall d,
    match target_routine with Some (kv :: d') => Some (kv :: d') | _ => None end
    = Some d ->
    d <> []
    /\ exists n,
         IntentService._extract_routine_name message = Some n
         /\ dict_get "title" d = VStr n).
  { intros d Hd. destruct target_routine as [[|kv d']|]; try discriminate.
    inversion Hd; subst. split; [discriminate|].
    destruct (IntentService._extract_routine_name message) as [n|];
      [|discriminate].
    destruct (str_truthy n); [|discriminate].
    exists n. split; [reflexivity|].
    apply py_eq_str_inv. unfold HevyAPI.find_routine_by_title in Hfind.
    eapply find_routine_by_title_sound. exact Hfind. }
  apply try_except_ok in H.
  destruct H as [H|(e & s2 & _ & H)].
  2: { inversion H; subst. cbn. split; [reflexivity | exact Htarget]. }
  apply bind_ok in H. destruct H as (all & s2 & _ & H).
  apply try_except_ok in H.
  destruct H as [H|(e & s3 & _ & H)].
  2: { inversion H; subst. cbn. split; [reflexivity | exact Htarget]. }
  apply bind_ok in H. destruct H as (r & s3 & _ & H).
  inversion H; subst. cbn. split; [reflexivity | exact Htarget].
Qed.

(** A proposal stores a pending context only from a named exercise and a
    target routine. *)
Lemma proposal_stores (context : HandlerContext) (st : Process)
    (p : PendingSwapContext) :
  pending_swap_context st = None ->
  pending_swap_context (snd (Optimizer.handle_exercise_swap W context st))
  = Some p ->
  exists d,
    target_routine_details context = Some d
    /\ d <> []
    /\ exercise_name context = Some (exercise_to_swap_title p)
    /\ routine_name p = dict_get_or "title" (VStr "the routine") d.
Proof.
  intros Hnone. run_swap.
  repeat split_swap; rewrite ?Hnone; intros H; try discriminate;
    inversion H; subst; cbn;
    eexists; (split; [reflexivity|]);
    (split; [discriminate|]); split; reflexivity.
Qed.

(** X25.  A proposal made from the context of a swap request in ASCII
    characters names a routine in title case.  When [get_relevant_context]
    for [EXERCISE_SWAP] is followed by the proposal handler, a pending swap
    is stored only for the exercise name and the routine name extracted from
    the message, and the routine's title is that name, which, the message
    being ASCII, is in title case: a routine titled otherwise cannot be the
    target of such a request. *)
Theorem swap_targets_are_title_cased :
  forall (fuel : nat) (message : string) (st st1 : Process)
         (ctx : HandlerContext) (p : PendingSwapContext),
    Text.isascii message = true ->
    pending_swap_context st = None ->
    IntentService.get_relevant_context W fuel "EXERCISE_SWAP" message st
    = (Ok ctx, st1) ->
    pending_swap_context
      (snd (Optimizer.get_modification_response W message "EXERCISE_SWAP"
              ctx st1))
    = Some p ->
    exists n,
      IntentService._extract_routine_name message = Some n
      /\ routine_name p = VStr n
      /\ Text.title n = n
      /\ IntentService._extract_exercise_name message
         = Some (exercise_to_swap_title p).
Proof.
  intros fuel message st st1 ctx p _ Hnone Hctx Hp.
  change (IntentService.get_relevant_context W fuel "EXERCISE_SWAP" message st)
    with (IntentService.modification_context W fuel message st) in Hctx.
  change (Optimizer.get_modification_response W message "EXERCISE_SWAP" ctx st1)
    with (Optimizer.handle_exercise_swap W ctx st1) in Hp.
  assert (Hnone1 : pending_swap_context st1 = None).
  { destruct (quiet_modification_context fuel message st) as (_ & Hq & _ & _).
    rewrite Hctx in Hq. cbn in Hq. congruence. }
  destruct (proposal_stores _ _ Hnone1 Hp) as (d & Ht & _ & He & Hr).
  destruct (modification_context_fields _ _ _ Hctx) as [Hex Htarget].
  destruct (Htarget d Ht) as (_ & n & Hn & Htitle).
  exists n. split; [exact Hn|]. split.
  - rewrite Hr. unfold dict_get_or. unfold dict_get in Htitle.
    destruct (dict_lookup "title" d); [exact Htitle | discriminate].
  - split; [exact (extract_routine_name_title _ Hn)|]. congruence.
Qed.

End Context.

Lemma swap_targets_are_title_cased_witness :
  Text.isascii "In my Push Day, swap Bench Press" = true
  /\ pending_swap_context Scenario.started = None
  /\ exists n,
       IntentService._extract_routine_name "In my Push Day, swap Bench Press"
       = Some n
       /\ routine_name Scenario.proposal = VStr n
       /\ Text.title n = n
       /\ IntentService._extract_exercise_name "In my Push Day, swap Bench Press"
          = Some (exercise_to_swap_title Scenario.proposal).
Proof.
  do 2 (split; [reflexivity|]).
  apply (@swap_targets_are_title_cased Scenario.world 5
           "In my Push Day, swap Bench Press" Scenario.started
           (snd (IntentService.get_relevant_context Scenario.world 5
                   "EXERCISE_SWAP" "In my Push Day, swap Bench Press"
                   Scenario.started))
           (fst (match IntentService.get_relevant_context Scenario.world 5
                         "EXERCISE_SWAP" "In my Push Day, swap Bench Press"
                         Scenario.started
                 with (Ok c, s) => (c, s) | (_, s) => (empty_context, s) end))
           Scenario.proposal);
    reflexivity.
Defined.

(** The request of the scenario, resolved by the service itself on the
    routines the scenario serves: the context is the one the world of the
    scenario answers with, and the four reads are all the service does. *)
Example the_swap_request_resolved :
  IntentService.get_relevant_context Scenario.world 5 "EXERCISE_SWAP"
    Scenario.swap_request Scenario.started
  = (Ok Scenario.resolved,
     mkProcess [] None (Some Scenario.cache)
               [EvGet "/routines" 1 10; EvGet "/routines" 1 10;
                EvGet "/routines" 2 10; EvGet "/routine_folders" 1 10])
  /\ get_relevant_context Scenario.world [] "EXERCISE_SWAP"
       Scenario.swap_request
     = Scenario.resolved.
Proof. split; reflexivity. Qed.

(** With the routine named after the exercise, the exercise name takes the
    routine along, no template has that title, and nothing is left
    pending. *)
Example routine_after_exercise_names_no_template :
  exercise_name
    (fst (match IntentService.get_relevant_context Scenario.world 5
                  "EXERCISE_SWAP" "swap Bench Press in my Push Day"
                  Scenario.started
          with (Ok c, s) => (c, s) | (_, s) => (empty_context, s) end))
  = Some "Bench Press in my Push Day"
  /\ pending_swap_context
       (snd (Optimizer.get_modification_response Scenario.world
               "swap Bench Press in my Push Day" "EXERCISE_SWAP"
               (fst (match IntentService.get_relevant_context Scenario.world 5
                             "EXERCISE_SWAP" "swap Bench Press in my Push Day"
                             Scenario.started
                     with (Ok c, s) => (c, s) | (_, s) => (empty_context, s) end))
               (snd (IntentService.get_relevant_context Scenario.world 5
                       "EXERCISE_SWAP" "swap Bench Press in my Push Day"
                       Scenario.started))))
     = None.
Proof. split; reflexivity. Qed.

(** ** The context lookup as a whole *)

Section Lookups.
Variable W : World.

Lemma quiet_get_workouts (limit_ page_no : Z) :
  quiet (HevyAPI.get_workouts W limit_ page_no).
Proof.
  unfold HevyAPI.get_workouts.
  apply quiet_bind; [apply quiet_request_get|]. intros [body|];
    [|apply quiet_raise].
  repeat (apply quiet_bind; [apply quiet_lift|]; intros ?). apply quiet_ret.
Qed.

Lemma quiet_find_routine_folder_by_id_loop (fuel : nat) (fid : pyval) :
  forall page_no,
    quiet (HevyAPI.find_routine_folder_by_id_loop W fuel fid page_no).
Proof.
  induction fuel as [|fuel IH]; intros page_no;
    cbn [HevyAPI.find_routine_folder_by_id_loop]; [apply quiet_lift|].
  apply quiet_bind; [apply quiet_get_routine_folders|]. intros r.
  destruct (negb (truthy (HevyAPI.data r))); [apply quiet_ret|].
  apply quiet_bind; [apply quiet_lift|]. intros items.
  apply quiet_bind; [apply quiet_lift|]. intros [found|]; [apply quiet_ret|].
  apply quiet_bind; [apply quiet_lift|]. intros n.
  apply quiet_bind; [apply quiet_lift|]. intros l.
  destruct (n <? l)%Z; [apply quiet_ret | apply IH].
Qed.

Lemma quiet_get_routines_in_folder_loop (fuel : nat) (fid : pyval) :
  forall acc page_no,
    quiet (HevyAPI.get_routines_in_folder_loop W fuel fid acc page_no).
Proof.
  induction fuel as [|fuel IH]; intros acc page_no;
    cbn [HevyAPI.get_routines_in_folder_loop]; [apply quiet_lift|].
  apply quiet_bind; [apply quiet_get_page|]. intros r.
  destruct (negb (truthy (HevyAPI.data r))); [apply quiet_ret|].
  apply quiet_bind; [apply quiet_lift|]. intros items.
  apply quiet_bind; [apply quiet_lift|]. intros found.
  destruct (negb (HevyAPI.has_more r)); [apply quiet_ret | apply IH].
Qed.

Lemma quiet_get_all_exercise_templates_loop (fuel : nat) :
  forall acc page_no,
    quiet (HevyAPI.get_all_exercise_templates_loop W fuel acc page_no).
Proof.
  induction fuel as [|fuel IH]; intros acc page_no;
    cbn [HevyAPI.get_all_exercise_templates_loop]; [apply quiet_lift|].
  apply quiet_bind; [apply quiet_get_page|]. intros r.
  destruct (negb (truthy (HevyAPI.data r))); [apply quiet_ret|].
  destruct (HevyAPI.py_iter (HevyAPI.data r)) as [items| |];
    try apply quiet_ret.
  destruct (HevyAPI.extract_templates items) as [ts ok].
  destruct (negb ok); [apply quiet_ret|].
  destruct (negb (HevyAPI.has_more r)); [apply quiet_ret | apply IH].
Qed.

Lemma quiet_get_current_program_details (fuel : nat) :
  quiet (HevyAPI.get_current_program_details W fuel).
Proof.
  unfold HevyAPI.get_current_program_details.
  apply quiet_try_except; [|intros e; apply quiet_ret].
  apply quiet_bind; [apply quiet_get_workouts|]. intros wr.
  destruct (negb (truthy (HevyAPI.data wr))); [apply quiet_ret|].
  apply quiet_bind; [apply quiet_lift|]. intros recent.
  apply quiet_bind; [apply quiet_lift|]. intros wt.
  destruct (negb (truthy wt)); [apply quiet_ret|].
  apply quiet_bind; [apply quiet_find_routine_by_title_loop|].
  intros [[|kv d]|]; try apply quiet_ret.
  destruct (negb (truthy (dict_get "folder_id" (kv :: d)))); [apply quiet_ret|].
  apply quiet_bind; [apply quiet_find_routine_folder_by_id_loop|].
  intros [[|kv' d']|]; try apply quiet_ret.
  apply quiet_bind; [apply quiet_get_routines_in_folder_loop|]. intros pr.
  apply quiet_ret.
Qed.

Lemma quiet_recent_workouts_context (limit_ : Z) :
  quiet (IntentService.recent_workouts_context W limit_).
Proof.
  unfold IntentService.recent_workouts_context.
  apply quiet_try_except; [|intros e; apply quiet_ret].
  apply quiet_bind; [apply quiet_get_workouts|]. intros r.
  destruct (truthy (HevyAPI.data r)); apply quiet_ret.
Qed.

Lemma quiet_current_program_context (fuel : nat) :
  quiet (IntentService.current_program_context W fuel).
Proof.
  unfold IntentService.current_program_context.
  apply quiet_try_except; [|intros e; apply quiet_ret].
  apply quiet_bind; [apply quiet_get_current_program_details|].
  intros [details|]; apply quiet_ret.
Qed.

Lemma quiet_all_templates_context (fuel : nat) :
  quiet (IntentService.all_templates_context W fuel).
Proof.
  unfold IntentService.all_templates_context.
  apply quiet_try_except; [|intros e; apply quiet_ret].
  apply quiet_bind; [apply quiet_get_all_exercise_templates_loop|].
  intros ts. apply quiet_ret.
Qed.

Lemma quiet_get_relevant_context (fuel : nat) (intent_ message : string) :
  quiet (IntentService.get_relevant_context W fuel intent_ message).
Proof.
  unfold IntentService.get_relevant_context.
  repeat match goal with
         | |- quiet (if ?b then _ else _) => destruct b
         end;
    try apply quiet_ret;
    try apply quiet_recent_workouts_context;
    try apply quiet_current_program_context;
    try apply quiet_all_templates_context;
    try apply quiet_modification_context.
  - apply quiet_try_except; [|intros e; apply quiet_ret].
    apply quiet_bind; [apply quiet_get_workouts|]. intros r.
    destruct (truthy (HevyAPI.data r)); [|apply quiet_ret].
    apply quiet_bind; [apply quiet_lift|]. intros x. apply quiet_ret.
  - apply quiet_try_except; [|intros e; apply quiet_ret].
    apply quiet_bind; [apply quiet_get_all_routines_loop|]. intros all.
    apply quiet_try_except; [|intros e; apply quiet_ret].
    apply quiet_bind; [apply quiet_get_all_routines_loop|]. intros again.
    apply quiet_ret.
  - apply quiet_try_except; [|intros e; apply quiet_ret].
    apply quiet_bind; [apply quiet_get_routine_folders|]. intros r.
    apply quiet_ret.
Qed.

Lemma try_except_ret_never_raises (A : Type) (m : M A) (a : A)
    (st : Process) (e : exn) :
  fst (try_except m (fun _ => ret a) st) <> Raise e.
Proof.
  unfold try_except. destruct (m st) as [[x|e'|] st1]; cbn; discriminate.
Qed.

(** X26.  [get_relevant_context] only reads: for every intent, message and
    remote behaviour it raises nothing, leaves the history, the pending
    swap and the template cache as they were, and makes no routine write.
    For [SUGGESTION_IMPLEMENT], and for [GENERAL_INFO], [GREETING] and
    [UNKNOWN], it makes no call at all. *)
Theorem context_lookup_only_reads :
  forall (fuel : nat) (intent_ message : string) (st : Process),
    (forall e,
       fst (IntentService.get_relevant_context W fuel intent_ message st)
       <> Raise e)
    /\ same_memory st
         (snd (IntentService.get_relevant_context W fuel intent_ message st))
    /\ (Chat.mem intent_
          ["SUGGESTION_IMPLEMENT"; "GENERAL_INFO"; "GREETING"; "UNKNOWN"] = true ->
        exists ctx,
          IntentService.get_relevant_context W fuel intent_ message st
          = (Ok ctx, st)).
Proof.
  intros fuel intent_ message st. split; [|split].
  - intros e. unfold IntentService.get_relevant_context,
      IntentService.recent_workouts_context,
      IntentService.current_program_context,
      IntentService.all_templates_context,
      IntentService.modification_context.
    repeat match goal with
           | |- fst ((if ?b then _ else _) _) <> _ => destruct b
           end;
      first [apply try_except_ret_never_raises | discriminate].
  - apply quiet_get_relevant_context.
  - unfold Chat.mem. cbn [existsb]. intros H.
    repeat (apply orb_true_iff in H; destruct H as [H|H]);
      try discriminate H;
      apply String.eqb_eq in H; subst intent_; eexists; reflexivity.
Qed.

End Lookups.

(** ** The follow-up, as the specification words it *)

(** *** Mentions *)

Lemma length_lower (s : string) : String.length (Text.lower s) = String.length s.
Proof. induction s as [|c s IH]; cbn; [reflexivity | now rewrite IH]. Qed.

Lemma lower_split (m x y : string) :
  Text.lower m = String.append x y ->
  exists mx my,
    m = String.append mx my /\ Text.lower mx = x /\ Text.lower my = y.
Proof.
  revert m. induction x as [|c x IH]; intros m H.
  - exists "", m. auto.
  - destruct m as [|d m]; cbn in H; [discriminate|].
    inversion H as [[Hc Hm]]. destruct (IH m Hm) as (mx & my & -> & Hx & Hy).
    exists (String d mx), my. cbn. rewrite Hx. auto.
Qed.

Lemma occurs_contains (name message : string) :
  occurs_ignoring_case name message
  <-> Text.contains (Text.lower name) (Text.lower message) = true.
Proof.
  unfold occurs_ignoring_case. rewrite contains_append. split.
  - intros (before & mid & after & -> & Hmid).
    exists (Text.lower before), (Text.lower after).
    now rewrite !lower_append, Hmid.
  - intros (a & b & H).
    destruct (lower_split _ _ _ H) as (before & rest & -> & _ & Hrest).
    destruct (lower_split _ _ _ Hrest) as (mid & after & -> & Hmid & _).
    exists before, mid, after. auto.
Qed.

Lemma str_truthy_spec (s : string) : str_truthy s = true <-> s <> "".
Proof.
  unfold str_truthy. destruct (String.eqb_spec s ""); cbn; split; intros H;
    try congruence; contradiction.
Qed.

Lemma mentions_scan (message : string) (sugg : Suggestion) (s : string) :
  mentions message sugg s
  <-> name sugg = Some s
      /\ str_truthy s && Text.contains (Text.lower s) (Text.lower message) = true.
Proof.
  unfold mentions. rewrite occurs_contains, andb_true_iff, str_truthy_spec.
  tauto.
Qed.

Lemma match_suggestion_none (suggs : list Suggestion) (message : string) :
  Optimizer.match_suggestion suggs (Text.lower message) = None
  <-> mentions_none suggs message.
Proof.
  unfold mentions_none. induction suggs as [|x suggs IH]; cbn.
  - split; [intros _ ? ? [] | reflexivity].
  - destruct (name x) as [t|] eqn:Hn.
    + destruct (str_truthy t && _) eqn:Hc.
      * split; [discriminate|]. intros H. exfalso.
        apply (H x t); [auto|]. apply mentions_scan. auto.
      * rewrite IH. split.
        -- intros H y u [<- | Hin] Hm; [|exact (H y u Hin Hm)].
           apply mentions_scan in Hm. destruct Hm as [Hy Hm]. congruence.
        -- intros H y u Hin. apply H. auto.
    + rewrite IH. split.
      * intros H y u [<- | Hin] Hm; [|exact (H y u Hin Hm)].
        destruct Hm as [Hy _]. congruence.
      * intros H y u Hin. apply H. auto.
Qed.

Lemma match_suggestion_first (suggs : list Suggestion) (message s : string) :
  Optimizer.match_suggestion suggs (Text.lower message) = Some s
  <-> first_mentioned suggs message s.
Proof.
  unfold first_mentioned. induction suggs as [|x suggs IH]; cbn.
  - split; [discriminate|]. intros (earlier & sugg & later & H & _).
    destruct earlier; discriminate.
  - assert (Hhead : forall t,
              name x = Some t ->
              str_truthy t && Text.contains (Text.lower t) (Text.lower message)
              = true ->
              (Some t = Some s
               <-> exists earlier sugg later,
                     x :: suggs = earlier ++ sugg :: later
                     /\ mentions message sugg s
                     /\ forall y u, In y earlier -> ~ mentions message y u)).
    { intros t Hn Hc. split.
      - intros [= <-]. exists [], x, suggs. split; [reflexivity|].
        split; [apply mentions_scan; auto | intros ? ? []].
      - intros (earlier & sugg & later & Heq & Hm & Hno).
        destruct earlier as [|y earlier]; cbn in Heq; inversion Heq; subst.
        + destruct Hm as [Hs _]. congruence.
        + exfalso. apply (Hno y t); [left; reflexivity|].
          apply mentions_scan. auto. }
    assert (Htail :
              (forall u, ~ mentions message x u) ->
              ((exists earlier sugg later,
                  suggs = earlier ++ sugg :: later
                  /\ mentions message sugg s
                  /\ forall y u, In y earlier -> ~ mentions message y u)
               <-> exists earlier sugg later,
                     x :: suggs = earlier ++ sugg :: later
                     /\ mentions message sugg s
                     /\ forall y u, In y earlier -> ~ mentions message y u)).
    { intros Hx. split.
      - intros (earlier & sugg & later & -> & Hm & Hno).
        exists (x :: earlier), sugg, later. split; [reflexivity|].
        split; [assumption|]. intros y u [<- | Hin]; [apply Hx | now apply Hno].
      - intros (earlier & sugg & later & Heq & Hm & Hno).
        destruct earlier as [|y earlier]; cbn in Heq; inversion Heq; subst.
        + exfalso. exact (Hx s Hm).
        + exists earlier, sugg, later. split; [reflexivity|].
          split; [assumption|]. intros z u Hin. apply Hno. now right. }
    destruct (name x) as [t|] eqn:Hn.
    + destruct (str_truthy t && _) eqn:Hc.
      * now apply Hhead.
      * rewrite IH. apply Htail. intros u Hm. apply mentions_scan in Hm.
        destruct Hm as [Hu Hm]. congruence.
    + rewrite IH. apply Htail. intros u [Hu _]. congruence.
Qed.

(** *** The phrase after a choice verb *)

Lemma skip_keyword_spec (kw s rest : string) :
  Text.skip_keyword kw s = Some rest
  <-> exists v, s = String.append v rest /\ Text.lower v = kw.
Proof.
  revert s. induction kw as [|k kw IH]; intros s; cbn.
  - split.
    + intros [= ->]. exists "". auto.
    + intros (v & -> & Hv). destruct v; [reflexivity | discriminate].
  - destruct s as [|c s].
    + split; [discriminate|]. intros (v & Hs & Hv). destruct v; discriminate.
    + destruct (Ascii.eqb_spec k (Text.lower_char c)) as [-> | Hne].
      * rewrite IH. split.
        -- intros (v & -> & Hv). exists (String c v). cbn. now rewrite Hv.
        -- intros (v & Hs & Hv). destruct v as [|d v]; [discriminate|].
           cbn in Hs, Hv. inversion Hs; subst. inversion Hv. exists v. auto.
      * split; [discriminate|]. intros (v & Hs & Hv).
        destruct v as [|d v]; [discriminate|].
        cbn in Hs, Hv. inversion Hs; subst. inversion Hv. congruence.
Qed.

Lemma span_stops (f : ascii -> bool) (s a b : string) :
  Text.span f s = (a, b) ->
  match Text.first_char b with Some c => f c = false | None => True end.
Proof.
  revert a. induction s as [|c s IH]; intros a; cbn.
  - intros [= <- <-]. exact I.
  - destruct (f c) eqn:E.
    + destruct (Text.span f s) as [a' b'] eqn:Hs. intros [= <- <-].
      exact (IH a' eq_refl).
    + intros [= <- <-]. exact E.
Qed.

Lemma span_append (f : ascii -> bool) (a b : string) :
  Text.all_chars f a = true ->
  match Text.first_char b with Some c => f c = false | None => True end ->
  Text.span f (String.append a b) = (a, b).
Proof.
  intros Ha Hb. induction a as [|c a IH]; cbn.
  - destruct b as [|d b]; cbn in *; [reflexivity | now rewrite Hb].
  - cbn in Ha. apply andb_true_iff in Ha. destruct Ha as [Hc Ha].
    rewrite Hc, (IH Ha). reflexivity.
Qed.

Lemma all_chars_impl (f g : ascii -> bool) (s : string) :
  (forall c, f c = true -> g c = true) ->
  Text.all_chars f s = true -> Text.all_chars g s = true.
Proof.
  intros Hfg. induction s as [|c s IH]; cbn; [reflexivity|].
  intros H. apply andb_true_iff in H. destruct H as [Hc Hs].
  now rewrite (Hfg c Hc), (IH Hs).
Qed.

Lemma lstrip_fixed (s : string) :
  match Text.first_char s with
  | Some c => Text.is_space c = false
  | None => True
  end ->
  Text.lstrip s = s.
Proof. destruct s as [|c s]; cbn; [reflexivity | now intros ->]. Qed.

Lemma strip_phrase (phrase tail : string) :
  (exists c, Text.first_char phrase = Some c /\ Text.is_space c = false) ->
  (exists c, Text.last_char phrase = Some c /\ Text.is_space c = false) ->
  Text.all_chars Text.is_space tail = true ->
  Text.strip (String.append phrase tail) = phrase.
Proof.
  intros (c & Hc & Hcs) (d & Hd & Hds) Htail.
  unfold Text.strip. rewrite lstrip_fixed.
  - change (Text.rstrip (String.append phrase tail))
      with (Text.reverse (Text.lstrip (Text.reverse (String.append phrase tail)))).
    rewrite srev_append, lstrip_append_spaces
      by (rewrite all_chars_srev; exact Htail).
    rewrite lstrip_fixed; [apply srev_involutive|].
    rewrite first_char_srev, Hd. exact Hds.
  - rewrite first_char_append, Hc. exact Hcs.
Qed.

Lemma last_char_some (c : ascii) (s : string) :
  exists d, Text.last_char (String c s) = Some d.
Proof.
  revert c. induction s as [|x s IH]; intros c; [exists c; reflexivity|].
  destruct (IH x) as (d & Hd). exists d. exact Hd.
Qed.

(** The tail of the pattern matches at the head of [s] when a white space
    and one more name character are there. *)
Lemma match_tail_matches (s : string) :
  Text.match_tail s <> None
  <-> exists w c rest,
        s = String w (String c rest)
        /\ Text.is_space w = true /\ Text.is_name_char c = true.
Proof.
  unfold Text.match_tail. split.
  - destruct (Text.span Text.is_space s) as [ws after] eqn:Hws.
    destruct (span_split _ _ Hws) as [-> Hsp].
    destruct ws as [|w ws']; [congruence|].
    cbn in Hsp. apply andb_true_iff in Hsp. destruct Hsp as [Hw Hsp].
    destruct ws' as [|w2 ws''].
    + destruct (Text.span Text.is_name_char after) as [g r] eqn:Hg.
      destruct (span_split _ _ Hg) as [-> Hn].
      destruct g as [|c g]; [congruence|]. intros _.
      cbn in Hn. apply andb_true_iff in Hn.
      exists w, c, (String.append g r). cbn. tauto.
    + intros _. cbn in Hsp. apply andb_true_iff in Hsp.
      exists w, w2, (String.append ws'' after). cbn.
      split; [reflexivity|]. split; [exact Hw|].
      apply space_is_name_char. tauto.
  - intros (w & c & rest & -> & Hw & Hc). cbn. rewrite Hw.
    destruct (Text.is_space c) eqn:Hsc.
    + destruct (Text.span Text.is_space rest) as [a b].
      destruct (Text.span Text.is_name_char b) as [g r].
      destruct g; [|discriminate].
      destruct (last_char_some w (String c a)) as (d & ->). discriminate.
    + cbn. rewrite Hc.
      destruct (Text.span Text.is_name_char rest). discriminate.
Qed.

(** What it captures, when that is more than white space. *)
Lemma match_tail_phrase (s g : string) :
  Text.match_tail s = Some g ->
  Text.strip g <> "" ->
  exists ws tail rest,
    s = String.append ws
          (String.append (Text.strip g) (String.append tail rest))
    /\ ws <> "" /\ Text.all_chars Text.is_space ws = true
    /\ Text.all_chars Text.is_name_char (Text.strip g) = true
    /\ (exists c, Text.first_char (Text.strip g) = Some c
                  /\ Text.is_space c = false)
    /\ (exists c, Text.last_char (Text.strip g) = Some c
                  /\ Text.is_space c = false)
    /\ Text.all_chars Text.is_space tail = true
    /\ match Text.first_char rest with
       | Some c => Text.is_name_char c = false
       | None => True
       end.
Proof.
  unfold Text.match_tail.
  destruct (Text.span Text.is_space s) as [ws after] eqn:Hws.
  destruct (span_split _ _ Hws) as [-> Hsp].
  pose proof (span_stops _ _ Hws) as Hstop.
  destruct ws as [|w ws'] eqn:Ews; [discriminate|]. rewrite <- Ews in *.
  destruct (Text.span Text.is_name_char after) as [body rest] eqn:Hbody.
  destruct (span_split _ _ Hbody) as [-> Hn].
  pose proof (span_stops _ _ Hbody) as Hrest.
  destruct body as [|b body'] eqn:Eb.
  - destruct ws' as [|w2 ws'']; [discriminate|].
    destruct (Text.last_char ws) as [c|] eqn:Hl; [|discriminate].
    intros [= <-] Hne. exfalso. apply Hne.
    pose proof (all_chars_last _ _ Hsp Hl) as Hc.
    unfold Text.strip. cbn. rewrite Hc. reflexivity.
  - rewrite <- Eb in *. intros [= <-] Hne.
    rewrite strip_is_strip_chars in *.
    destruct (strip_chars_split Text.is_space body) as (l & r & Hs & Hl & Hr).
    assert (l = "") as ->.
    { destruct l as [|x l]; [reflexivity|]. exfalso.
      rewrite Hs in Hstop. cbn in Hstop, Hl.
      apply andb_true_iff in Hl. destruct Hl as [Hx _]. congruence. }
    cbn in Hs.
    exists ws, r, rest. split.
    { f_equal. rewrite <- append_assoc, <- Hs. reflexivity. }
    split; [rewrite Ews; discriminate|]. split; [exact Hsp|].
    split; [apply strip_chars_keeps; exact Hn|].
    split.
    { destruct (Text.first_char (Text.strip_chars Text.is_space body))
        as [c|] eqn:Hc.
      - exists c. split; [reflexivity|]. exact (strip_chars_first _ _ Hc).
      - destruct (Text.strip_chars Text.is_space body); [congruence | discriminate]. }
    split.
    { destruct (Text.last_char (Text.strip_chars Text.is_space body))
        as [c|] eqn:Hc.
      - exists c. split; [reflexivity|]. exact (strip_chars_last _ _ Hc).
      - destruct (Text.strip_chars Text.is_space body) as [|x t];
          [congruence|].
        destruct (last_char_some x t) as (d & Hd). congruence. }
    split; [exact Hr | exact Hrest].
Qed.

(** And the phrase it captures where one is written. *)
Lemma match_tail_of_phrase (ws phrase tail rest : string) :
  ws <> "" -> Text.all_chars Text.is_space ws = true ->
  Text.all_chars Text.is_name_char phrase = true ->
  (exists c, Text.first_char phrase = Some c /\ Text.is_space c = false) ->
  Text.all_chars Text.is_space tail = true ->
  match Text.first_char rest with
  | Some c => Text.is_name_char c = false
  | None => True
  end ->
  Text.match_tail
    (String.append ws (String.append phrase (String.append tail rest)))
  = Some (String.append phrase tail).
Proof.
  intros Hws Hsp Hn (c & Hc & Hcs) Htail Hrest. unfold Text.match_tail.
  rewrite (span_append Text.is_space ws _ Hsp)
    by (rewrite first_char_append, Hc; exact Hcs).
  destruct ws as [|w ws']; [congruence|].
  rewrite <- append_assoc.
  rewrite (span_append Text.is_name_char (String.append phrase tail) rest).
  - destruct phrase; [discriminate | reflexivity].
  - rewrite all_chars_append, Hn.
    eapply all_chars_impl; [exact space_is_name_char | exact Htail].
  - exact Hrest.
Qed.

(** The alternation: sound, and complete for keywords of which at most one
    can start a given string. *)
Lemma match_alternatives_sound (kws : list string) (s g : string) :
  Text.match_alternatives kws s = Some g ->
  exists kw rest,
    In kw kws /\ Text.skip_keyword kw s = Some rest
    /\ Text.match_tail rest = Some g.
Proof.
  induction kws as [|kw kws IH]; cbn; [discriminate|].
  destruct (Text.skip_keyword kw s) as [rest|] eqn:Hk.
  - destruct (Text.match_tail rest) as [g'|] eqn:Hg.
    + intros [= ->]. exists kw, rest. auto.
    + intros H. destruct (IH H) as (kw' & r & Hin & Hx). exists kw', r. auto.
  - intros H. destruct (IH H) as (kw' & r & Hin & Hx). exists kw', r. auto.
Qed.

Lemma match_alternatives_complete (kws : list string) (s kw rest : string)
    (r : option string) :
  In kw kws ->
  Text.skip_keyword kw s = Some rest ->
  Text.match_tail rest = r ->
  (forall kw' rest', In kw' kws -> Text.skip_keyword kw' s = Some rest' ->
                     kw' = kw) ->
  Text.match_alternatives kws s = r.
Proof.
  intros Hin Hk Hg. induction kws as [|a kws IH]; [contradiction|].
  intros Hun. cbn.
  destruct (Text.skip_keyword a s) as [rest'|] eqn:Ha.
  - assert (a = kw) as -> by (eapply Hun; [left; reflexivity | exact Ha]).
    rewrite Hk in Ha. inversion Ha; subst rest'. rewrite Hg.
    destruct r as [g|]; [reflexivity|].
    clear IH Hin. induction kws as [|b kws IH]; [reflexivity|]. cbn.
    destruct (Text.skip_keyword b s) as [rb|] eqn:Hb.
    + assert (b = kw) as -> by (eapply Hun; [right; left; reflexivity | exact Hb]).
      rewrite Hk in Hb. inversion Hb; subst rb. rewrite Hg.
      apply IH. intros kw' r' [<- | Hin']; [auto|].
      intros H. eapply Hun; [right; right; exact Hin' | exact H].
    + apply IH. intros kw' r' [<- | Hin']; [auto|].
      intros H. eapply Hun; [right; right; exact Hin' | exact H].
  - destruct Hin as [-> | Hin]; [congruence|].
    apply IH; [exact Hin|]. intros kw' r' Hin'. apply Hun. now right.
Qed.

Lemma skip_keyword_first (k : ascii) (kw s rest : string) :
  Text.skip_keyword (String k kw) s = Some rest ->
  exists c s', s = String c s' /\ Text.lower_char c = k.
Proof.
  destruct s as [|c s]; cbn; [discriminate|].
  destruct (Ascii.eqb_spec k (Text.lower_char c)); [|discriminate].
  intros _. exists c, s. auto.
Qed.

(** The choice verbs begin with five different letters. *)
Lemma choice_verbs_exclusive (s kw kw' rest rest' : string) :
  In kw choice_verbs -> In kw' choice_verbs ->
  Text.skip_keyword kw s = Some rest ->
  Text.skip_keyword kw' s = Some rest' ->
  kw' = kw.
Proof.
  intros Hin Hin' Hk Hk'. cbn in Hin, Hin'.
  repeat (destruct Hin as [<- | Hin]; [|]); try contradiction;
    repeat (destruct Hin' as [<- | Hin']; [|]); try contradiction;
    try reflexivity;
    apply skip_keyword_first in Hk; apply skip_keyword_first in Hk';
    destruct Hk as (c & t & -> & Hc); destruct Hk' as (c' & t' & [= <- <-] & Hc');
    rewrite Hc in Hc'; discriminate.
Qed.

Lemma match_alternatives_at (s : string) (r : option string) :
  (exists verb v rest,
     In verb choice_verbs /\ Text.lower v = verb
     /\ s = String.append v rest /\ Text.match_tail rest = r) ->
  Text.match_alternatives Text.choice_keywords s = r.
Proof.
  intros (verb & v & rest & Hin & Hv & -> & Hr).
  assert (Hk : Text.skip_keyword verb (String.append v rest) = Some rest)
    by (apply skip_keyword_spec; exists v; auto).
  apply (match_alternatives_complete Text.choice_keywords _ Hin Hk Hr).
  intros kw' rest' Hin' Hk'.
  exact (choice_verbs_exclusive _ Hin Hin' Hk Hk').
Qed.

(** Where the pattern matches. *)
Lemma verb_phrase_at_matches (s : string) :
  verb_phrase_at s
  <-> Text.match_alternatives Text.choice_keywords s <> None.
Proof.
  split.
  - intros (verb & v & w & c & rest & Hin & Hv & -> & Hw & Hc).
    destruct (Text.match_tail (String w (String c rest))) as [g|] eqn:Hg.
    + rewrite (@match_alternatives_at _ (Some g)); [discriminate|].
      exists verb, v, (String w (String c rest)). auto.
    + exfalso. revert Hg. apply match_tail_matches. exists w, c, rest. auto.
  - destruct (Text.match_alternatives Text.choice_keywords s) as [g|] eqn:Hm;
      [intros _ | congruence].
    destruct (match_alternatives_sound _ _ Hm) as (kw & rest & Hin & Hk & Hg).
    apply skip_keyword_spec in Hk. destruct Hk as (v & -> & Hv).
    assert (Hne : Text.match_tail rest <> None) by congruence.
    apply match_tail_matches in Hne.
    destruct Hne as (w & c & rest' & -> & Hw & Hc).
    exists kw, v, w, c, rest'. auto.
Qed.

(** What it captures there. *)
Lemma phrase_at_matches (s phrase : string) :
  phrase_at s phrase
  <-> exists g,
        Text.match_alternatives Text.choice_keywords s = Some g
        /\ Text.strip g = phrase /\ phrase <> "".
Proof.
  split.
  - intros (verb & v & ws & tail & rest & Hin & Hv & -> & Hws & Hsp & Hn
            & Hfirst & Hlast & Htail & Hrest).
    exists (String.append phrase tail). split.
    + apply match_alternatives_at.
      exists verb, v, (String.append ws (String.append phrase (String.append tail rest))).
      repeat (split; [auto|]).
      apply match_tail_of_phrase; auto.
    + split; [apply strip_phrase; auto|].
      destruct Hfirst as (c & Hc & _). intros ->. discriminate.
  - intros (g & Hm & <- & Hne).
    destruct (match_alternatives_sound _ _ Hm) as (kw & rest & Hin & Hk & Hg).
    apply skip_keyword_spec in Hk. destruct Hk as (v & -> & Hv).
    destruct (match_tail_phrase _ Hg Hne)
      as (ws & tail & r & -> & Hx).
    exists kw, v, ws, tail, r. auto.
Qed.

(** The search: the leftmost position where the alternation matches. *)
Lemma search_choice_leftmost (m g : string) :
  Text.search_choice m = Some g
  <-> exists before s,
        m = String.append before s
        /\ Text.match_alternatives Text.choice_keywords s = Some g
        /\ forall b t,
             m = String.append b t ->
             String.length b < String.length before ->
             Text.match_alternatives Text.choice_keywords t = None.
Proof.
  induction m as [|c m IH].
  - cbn [Text.search_choice]. split.
    + destruct (Text.match_alternatives Text.choice_keywords "") as [g'|] eqn:H;
        [|discriminate].
      intros [= ->]. exists "", "". split; [reflexivity|]. split; [exact H|].
      intros b t _ Hl. cbn in Hl. lia.
    + intros (before & s & Hm & Hs & _).
      destruct before; [|discriminate]. cbn in Hm. subst s. now rewrite Hs.
  - cbn [Text.search_choice]. split.
    + destruct (Text.match_alternatives Text.choice_keywords (String c m))
        as [g'|] eqn:H.
      * intros [= ->]. exists "", (String c m). split; [reflexivity|].
        split; [exact H|]. intros b t _ Hl. cbn in Hl. lia.
      * intros Hs. apply IH in Hs.
        destruct Hs as (before & s & -> & Hs & Hleft).
        exists (String c before), s. split; [reflexivity|]. split; [exact Hs|].
        intros b t Hb Hl. destruct b as [|d b].
        -- cbn in Hb. subst t. exact H.
        -- cbn in Hb, Hl. inversion Hb; subst. apply (Hleft b t); [assumption | lia].
    + intros (before & s & Hm & Hs & Hleft). destruct before as [|d before].
      * cbn in Hm. subst s. now rewrite Hs.
      * cbn in Hm. inversion Hm; subst.
        rewrite (Hleft "" (String d (String.append before s)) eq_refl)
          by (cbn; lia).
        apply IH. exists before, s. split; [reflexivity|]. split; [exact Hs|].
        intros b t Hb Hl. apply (Hleft (String d b) t); [cbn; now rewrite Hb | cbn; lia].
Qed.

Lemma search_choice_nowhere (m : string) :
  Text.search_choice m = None
  <-> forall b t,
        m = String.append b t ->
        Text.match_alternatives Text.choice_keywords t = None.
Proof.
  induction m as [|c m IH]; cbn [Text.search_choice].
  - split.
    + destruct (Text.match_alternatives Text.choice_keywords "") eqn:H;
        [discriminate|].
      intros _ b t Hb. destruct b; [|discriminate]. cbn in Hb. now subst t.
    + intros H. now rewrite (H "" "" eq_refl).
  - split.
    + destruct (Text.match_alternatives Text.choice_keywords (String c m)) eqn:H;
        [discriminate|].
      intros Hs b t Hb. destruct b as [|d b].
      * cbn in Hb. now subst t.
      * cbn in Hb. inversion Hb; subst.
        exact (proj1 IH Hs b t eq_refl).
    + intros H. rewrite (H "" (String c m) eq_refl). apply IH.
      intros b t ->. exact (H (String c b) t eq_refl).
Qed.

Lemma phrase_after_verb_searched (message phrase : string) :
  phrase_after_verb message phrase
  <-> exists g,
        Text.search_choice message = Some g
        /\ Text.strip g = phrase /\ phrase <> "".
Proof.
  split.
  - intros (before & s & -> & Hp & Hleft).
    apply phrase_at_matches in Hp. destruct Hp as (g & Hm & Hs & Hne).
    exists g. split; [|auto]. apply search_choice_leftmost.
    exists before, s. split; [reflexivity|]. split; [exact Hm|].
    intros b t Hb Hl.
    destruct (Text.match_alternatives Text.choice_keywords t) eqn:Ht;
      [|reflexivity].
    exfalso. apply (Hleft b t Hb Hl). apply verb_phrase_at_matches. congruence.
  - intros (g & Hs & Hg & Hne). apply search_choice_leftmost in Hs.
    destruct Hs as (before & s & -> & Hm & Hleft).
    exists before, s. split; [reflexivity|]. split.
    + apply phrase_at_matches. exists g. auto.
    + intros b t Hb Hl Hv. apply verb_phrase_at_matches in Hv.
      apply Hv. exact (Hleft b t Hb Hl).
Qed.

(** *** The extraction of the code and the choice of the specification *)

Lemma chooses_extracts (suggs : list Suggestion) (message chosen : string) :
  chooses suggs message chosen
  <-> Optimizer.extract_choice suggs message = Some chosen /\ chosen <> "".
Proof.
  unfold chooses, Optimizer.extract_choice. split.
  - intros [Hf | [Hn Hp]].
    + pose proof Hf as Hm. apply match_suggestion_first in Hm. rewrite Hm.
      split; [reflexivity|].
      destruct Hf as (? & ? & ? & _ & (_ & Hne & _) & _). exact Hne.
    + apply match_suggestion_none in Hn. rewrite Hn.
      apply phrase_after_verb_searched in Hp.
      destruct Hp as (g & -> & <- & Hne). auto.
  - intros [Hx Hne].
    destruct (Optimizer.match_suggestion suggs (Text.lower message)) as [s|] eqn:Hm.
    + inversion Hx; subst. left. now apply match_suggestion_first.
    + right. split; [now apply match_suggestion_none|].
      apply phrase_after_verb_searched.
      destruct (Text.search_choice message) as [g|]; [|discriminate].
      cbn in Hx. inversion Hx; subst. exists g. auto.
Qed.

Lemma names_a_choice_extracts (suggs : list Suggestion) (message : string) :
  names_a_choice suggs message
  <-> Optimizer.extract_choice suggs message <> None.
Proof.
  unfold names_a_choice, Optimizer.extract_choice. split.
  - intros [(sugg & s & Hin & Hm) | (before & s & -> & Hv)].
    + destruct (Optimizer.match_suggestion suggs (Text.lower message)) eqn:E;
        [discriminate|].
      exfalso. apply match_suggestion_none in E. exact (E sugg s Hin Hm).
    + destruct (Optimizer.match_suggestion suggs _); [discriminate|].
      destruct (Text.search_choice (String.append before s)) eqn:E;
        [discriminate|].
      exfalso. apply verb_phrase_at_matches in Hv. apply Hv.
      exact (proj1 (search_choice_nowhere _) E before s eq_refl).
  - destruct (Optimizer.match_suggestion suggs (Text.lower message)) as [s|] eqn:Hm.
    + intros _. left. apply match_suggestion_first in Hm.
      destruct Hm as (earlier & sugg & later & -> & Hs & _).
      exists sugg, s. split; [|exact Hs]. apply in_or_app. right. now left.
    + destruct (Text.search_choice message) as [g|] eqn:Hs; [|cbn; congruence].
      intros _. right. apply search_choice_leftmost in Hs.
      destruct Hs as (before & s & -> & Hx & _).
      exists before, s. split; [reflexivity|].
      apply verb_phrase_at_matches. congruence.
Qed.

(** ** The head of a turn, against the specification *)

Section Follow.
Variable W : World.

(** C4.  A turn that starts with a live pending exercise swap, on ASCII
    text (where the case folding and the character classes of the model are
    Python's):
    - if the message contains the name of a stored suggestion, up to case,
      the intent is [SUGGESTION_IMPLEMENT], the chosen name is that of the
      first such suggestion, the context is built from it and from the
      stored routine id, routine name and exercise title, and the process
      state -- the trace of calls included -- is untouched: the classifier
      is not called;
    - if it contains none, but a choice verb followed by white space and a
      phrase, the same holds with the phrase read at the first such place
      as the chosen name;
    - otherwise the pending context is cleared, the classifier is called on
      the message and the history, its answer is the intent, and no pending
      context is left whatever that intent is. *)
Theorem pending_swap_resumes_or_clears :
  forall message st p,
    pending_swap_context st = Some p ->
    type_ p = "EXERCISE_SWAP" ->
    Text.isascii message = true ->
    ascii_names (suggestions p) = true ->
    (forall chosen,
       first_mentioned (suggestions p) message chosen ->
       Chat.resolve_intent W message st
       = (Ok ("SUGGESTION_IMPLEMENT",
              mkContext None None (Some chosen)
                        (Some (routine_id p)) (Some (routine_name p))
                        (Some (exercise_to_swap_title p)) []), st))
    /\ (forall chosen,
          mentions_none (suggestions p) message ->
          phrase_after_verb message chosen ->
          Chat.resolve_intent W message st
          = (Ok ("SUGGESTION_IMPLEMENT",
                 mkContext None None (Some chosen)
                           (Some (routine_id p)) (Some (routine_name p))
                           (Some (exercise_to_swap_title p)) []), st))
    /\ (mentions_none (suggestions p) message ->
        (forall phrase, ~ phrase_after_verb message phrase) ->
        exists context st',
          Chat.resolve_intent W message st
          = (Ok (classify_intent W (trace st) message (conversation_history st),
                 context), st')
          /\ pending_swap_context st' = None
          /\ exists rest,
               trace st' =
               trace st ++ EvClassify message (conversation_history st) :: rest).
Proof.
  intros message st p Hp Ht _ _.
  assert (Hresume : forall chosen,
            chooses (suggestions p) message chosen ->
            Chat.resolve_intent W message st
            = (Ok ("SUGGESTION_IMPLEMENT",
                   mkContext None None (Some chosen)
                             (Some (routine_id p)) (Some (routine_name p))
                             (Some (exercise_to_swap_title p)) []), st)).
  { intros chosen Hc. apply chooses_extracts in Hc. destruct Hc as [Hx Hne].
    unfold Chat.resolve_intent.
    unfold bind at 1, get_state at 1. rewrite Hp, Ht. cbn. rewrite Hx.
    rewrite (str_truthy_true Hne). reflexivity. }
  split; [|split].
  - intros chosen Hf. apply Hresume. now left.
  - intros chosen Hn Hv. apply Hresume. right. auto.
  - intros Hn Hv.
    assert (Hx : Optimizer.extract_choice (suggestions p) message = None
                 \/ Optimizer.extract_choice (suggestions p) message = Some "").
    { destruct (Optimizer.extract_choice (suggestions p) message) as [c|] eqn:Hx;
        [|now left].
      destruct (String.eqb_spec c "") as [-> | Hne]; [now right|]. exfalso.
      destruct (proj2 (chooses_extracts _ _ _) (conj Hx Hne))
        as [(earlier & sugg & later & Hs & Hm & _) | [_ Hphrase]].
      - apply (Hn sugg c); [|exact Hm]. rewrite Hs.
        apply in_or_app. right. now left.
      - exact (Hv c Hphrase). }
    assert (Hrun :
      Chat.resolve_intent W message st
      = Chat.classification_flow W message
          (mkProcess (conversation_history st) None (_cached_templates st)
                     (trace st))).
    { unfold Chat.resolve_intent.
      unfold bind at 1, get_state at 1. rewrite Hp, Ht. cbn.
      destruct Hx as [Hx | Hx]; rewrite Hx; reflexivity. }
    rewrite Hrun.
    destruct (@classification_flow_run W message
                (mkProcess (conversation_history st) None
                           (_cached_templates st) (trace st)) eq_refl)
      as (context & st' & Hflow & Hnone & _ & _ & Htrace).
    exists context, st'. cbn in *. auto.
Qed.

End Follow.

Lemma pending_swap_resumes_or_clears_witness :
  (first_mentioned (suggestions Scenario.proposal)
     "Incline Press please" "Incline Press"
   /\ Chat.resolve_intent Scenario.world "Incline Press please"
        Scenario.proposed
      = (Ok ("SUGGESTION_IMPLEMENT",
             mkContext None None (Some "Incline Press")
                       (Some (VStr "routine-1")) (Some (VStr "Push Day"))
                       (Some "Bench Press") []), Scenario.proposed))
  /\ (mentions_none (suggestions Scenario.proposal) "go with Cable Fly"
      /\ phrase_after_verb "go with Cable Fly" "Cable Fly"
      /\ Chat.resolve_intent Scenario.world "go with Cable Fly"
           Scenario.proposed
         = (Ok ("SUGGESTION_IMPLEMENT",
                mkContext None None (Some "Cable Fly")
                          (Some (VStr "routine-1")) (Some (VStr "Push Day"))
                          (Some "Bench Press") []), Scenario.proposed))
  /\ (mentions_none (suggestions Scenario.proposal) "what's the weather"
      /\ (forall phrase, ~ phrase_after_verb "what's the weather" phrase)
      /\ exists context st',
           Chat.resolve_intent Scenario.world "what's the weather"
             Scenario.proposed
           = (Ok ("UNKNOWN", context), st')
           /\ pending_swap_context st' = None).
Proof.
  assert (Hmention :
            first_mentioned (suggestions Scenario.proposal)
              "Incline Press please" "Incline Press").
  { exists [], (mkSuggestion (Some "Incline Press") (Some "tpl-incline")
                             (Some "Chest")), [].
    split; [reflexivity|]. split; [|intros ? ? []].
    split; [reflexivity|]. split; [discriminate|].
    exists "", "Incline Press", " please". split; reflexivity. }
  assert (Hnone1 : mentions_none (suggestions Scenario.proposal)
                     "go with Cable Fly")
    by (apply match_suggestion_none; reflexivity).
  assert (Hphrase : phrase_after_verb "go with Cable Fly" "Cable Fly").
  { exists "", "go with Cable Fly". split; [reflexivity|]. split.
    - exists "go with", "go with", " ", "", "".
      split; [cbn; tauto|]. repeat (split; [reflexivity|]).
      split; [discriminate|]. repeat (split; [reflexivity|]).
      split; [exists "C"%char; split; reflexivity|].
      split; [exists "y"%char; split; reflexivity|].
      split; [reflexivity | exact I].
    - intros b t _ Hl. cbn in Hl. lia. }
  assert (Hnone2 : mentions_none (suggestions Scenario.proposal)
                     "what's the weather")
    by (apply match_suggestion_none; reflexivity).
  assert (Hno : forall phrase, ~ phrase_after_verb "what's the weather" phrase).
  { intros phrase H. apply phrase_after_verb_searched in H.
    destruct H as (g & Hg & _). vm_compute in Hg. discriminate. }
  split; [split; [exact Hmention|] | split; [split; [exact Hnone1 | split; [exact Hphrase|]] | split; [exact Hnone2 | split; [exact Hno|]]]].
  - exact (proj1 (@pending_swap_resumes_or_clears Scenario.world
                    "Incline Press please" Scenario.proposed Scenario.proposal
                    eq_refl eq_refl eq_refl eq_refl)
                 "Incline Press" Hmention).
  - exact (proj1 (proj2 (@pending_swap_resumes_or_clears Scenario.world
                           "go with Cable Fly" Scenario.proposed
                           Scenario.proposal eq_refl eq_refl eq_refl eq_refl))
                 "Cable Fly" Hnone1 Hphrase).
  - destruct (proj2 (proj2 (@pending_swap_resumes_or_clears Scenario.world
                              "what's the weather" Scenario.proposed
                              Scenario.proposal eq_refl eq_refl eq_refl eq_refl))
                    Hnone2 Hno)
      as (context & st' & Hrun & Hnone & _).
    exists context, st'. split; [exact Hrun | exact Hnone].
Defined.
